(** * Synthetic-corpus generators: a shallow embedding and its properties

    The development follows the three generator scripts of the repository
    ([document_generator.py], [performance_generator.py],
    [logs_generator.py]): the tier allocation of a mixed corpus, the
    batching loops, the line-delimited writers and the three [main]
    functions.  Library calls ([random], [Faker], [datetime], [uuid]) are
    an interface, class [Runtime]; Python's binary64 arithmetic is the
    reference implementation [SpecFloat] of the standard library; console
    output and directory creation are left out. *)

From Stdlib Require Import ZArith List Lia String Ascii Bool QArith Permutation.
From Stdlib Require Import DecimalString DecimalZ.
From Stdlib Require Import Lqa Qpower.
From Stdlib Require Import Floats.SpecFloat.
Import ListNotations.
Set Warnings "-register-all".
Open Scope string_scope.
Open Scope Z_scope.

(** ** Python values *)

(** Exceptions the modelled code can raise. *)
Inductive exn : Type :=
| ZeroDivisionError
| OverflowError
| ValueError.

Inductive result (A : Type) : Type :=
| Ok (a : A)
| Raise (e : exn).
Arguments Ok {A} a.
Arguments Raise {A} e.

(** *** binary64 floats, as [int * float] and [int(float)] use them *)
Module PyFloat.

Definition prec : Z := 53.
Definition emax : Z := 1024.

(** [float(n)] for an [int]: rounding to nearest even; a result out of
    range is Python's [OverflowError]. *)
Definition of_int (n : Z) : result spec_float :=
  match binary_normalize prec emax n 0 false with
  | S754_infinity _ => Raise OverflowError
  | x => Ok x
  end.

Definition mul (x y : spec_float) : spec_float := SFmul prec emax x y.

(** [int(x)]: truncation toward zero. *)
Definition to_int (x : spec_float) : result Z :=
  match x with
  | S754_zero _ => Ok 0
  | S754_finite s m e =>
      let a := match e with
               | Z0 => Zpos m
               | Zpos p => Zpos m * 2 ^ Zpos p
               | Zneg p => Zpos m / 2 ^ Zpos p
               end in
      Ok (if s then - a else a)
  | S754_infinity _ => Raise OverflowError
  | S754_nan => Raise ValueError
  end.

(** [int(n * w)] with [n] an [int] and [w] a [float] literal. *)
Definition int_mul (n : Z) (w : spec_float) : result Z :=
  match of_int n with
  | Ok x => to_int (mul x w)
  | Raise e => Raise e
  end.

(** The literals of the sources, as the nearest binary64 values. *)
Definition lit_0_4 : spec_float := S754_finite false 7205759403792794 (-54).
Definition lit_0_35 : spec_float := S754_finite false 6305039478318694 (-54).
Definition lit_0_2 : spec_float := S754_finite false 7205759403792794 (-55).
Definition lit_0_05 : spec_float := S754_finite false 7205759403792794 (-57).
Definition lit_0_5 : spec_float := S754_finite false 4503599627370496 (-53).
Definition lit_0_3 : spec_float := S754_finite false 5404319552844595 (-54).
Definition lit_0_15 : spec_float := S754_finite false 5404319552844595 (-55).

End PyFloat.

(** *** JSON-serialisable values

    A [str] is a string of code points below 256; a [dict] keeps its
    insertion order. *)
Inductive json : Type :=
| JNull
| JBool (b : bool)
| JInt (z : Z)
| JFloat (x : spec_float)
| JStr (s : string)
| JList (l : list json)
| JDict (d : list (string * json)).

Definition Document : Type := list (string * json).

(** [d.get(k)] *)
Fixpoint dict_get (k : string) (d : Document) : option json :=
  match d with
  | [] => None
  | (k', v) :: d' => if String.eqb k k' then Some v else dict_get k d'
  end.

(** [d[k] = v]: an existing key keeps its position. *)
Fixpoint dict_set (k : string) (v : json) (d : Document) : Document :=
  match d with
  | [] => [(k, v)]
  | (k', v') :: d' =>
      if String.eqb k k' then (k', v) :: d' else (k', v') :: dict_set k v d'
  end.

(** The top-level [id] of a document. *)
Definition doc_id (d : Document) : option string :=
  match dict_get "id" d with
  | Some (JStr s) => Some s
  | _ => None
  end.

(** [str(n)] and the f-string [f"{prefix}_{n}"]. *)
Definition str_of_int (n : Z) : string := NilZero.string_of_int (Z.to_int n).

Definition fmt_id (prefix : string) (n : Z) : string :=
  prefix ++ "_" ++ str_of_int n.

(** [range(n)] *)
Definition range (n : Z) : list Z := map Z.of_nat (seq 0 (Z.to_nat n)).

(** A string with no line feed in it. *)
Fixpoint one_line (s : string) : bool :=
  match s with
  | EmptyString => true
  | String c s' => negb (Ascii.eqb c "010"%char) && one_line s'
  end.

(** ** The library interface

    [random] is the module-level Mersenne Twister, [fake] the module-level
    [Faker] instance with its own generator; the clock and the operating
    system's entropy are the environment.  A [datetime] is a count of
    microseconds, so that adding a [timedelta] is an addition. *)
Class Runtime : Type := {
  Rnd : Type;
  Fk : Type;
  Env : Type;
  (** [random.seed(s)] and [fake.seed_instance(s)]: the state they install
      depends on [s] alone. *)
  random_seed : Z -> Rnd;
  fake_seed_instance : Z -> Fk;
  random_choice : list json -> Rnd -> json * Rnd;
  random_randint : Z -> Z -> Rnd -> Z * Rnd;
  random_uniform : Z -> Z -> Rnd -> spec_float * Rnd;
  random_shuffle : list Document -> Rnd -> list Document * Rnd;
  fake_word : Fk -> string * Fk;
  fake_sentence : Fk -> string * Fk;
  fake_paragraph : Fk -> string * Fk;
  fake_name : Fk -> string * Fk;
  fake_company : Fk -> string * Fk;
  fake_uuid4 : Fk -> string * Fk;
  datetime_now : Env -> Z * Env;
  uuid_uuid4 : Env -> string * Env;
  isoformat : Z -> string;
  strftime_hour : Z -> string;
  float_repr : spec_float -> string;
  (** [random.shuffle] reorders its argument in place. *)
  random_shuffle_perm :
    forall l r, Permutation (fst (random_shuffle l r)) l;
  (** [repr] of a float is one line. *)
  float_repr_one_line : forall x, one_line (float_repr x) = true
}.

(** *** [json.dumps] with its default arguments *)
Definition newline : string := String "010"%char EmptyString.

Definition hex_digit (n : N) : ascii :=
  nth (N.to_nat n) (list_ascii_of_string "0123456789abcdef") "0"%char.

(** One character of [py_encode_basestring_ascii]. *)
Definition escape_char (c : ascii) : string :=
  let n := N_of_ascii c in
  if N.eqb n 34 then String "\"%char (String "034"%char EmptyString)
  else if N.eqb n 92 then "\\"
  else if N.eqb n 8 then "\b"
  else if N.eqb n 12 then "\f"
  else if N.eqb n 10 then "\n"
  else if N.eqb n 13 then "\r"
  else if N.eqb n 9 then "\t"
  else if (N.leb 32 n && N.leb n 126)%bool then String c EmptyString
  else "\u00" ++ String (hex_digit (N.div n 16))
                    (String (hex_digit (N.modulo n 16)) EmptyString).

Fixpoint escape (s : string) : string :=
  match s with
  | EmptyString => EmptyString
  | String c s' => escape_char c ++ escape s'
  end.

Definition encode_str (s : string) : string :=
  String "034"%char (escape s ++ String "034"%char EmptyString).

(** [sep.join(parts)] *)
Fixpoint join (sep : string) (parts : list string) : string :=
  match parts with
  | [] => EmptyString
  | [p] => p
  | p :: ps => p ++ sep ++ join sep ps
  end.

Section Serialisation.
Context {RT : Runtime}.

Fixpoint dumps (v : json) : string :=
  match v with
  | JNull => "null"
  | JBool true => "true"
  | JBool false => "false"
  | JInt z => str_of_int z
  | JFloat x => float_repr x
  | JStr s => encode_str s
  | JList l => "[" ++ join ", " (map dumps l) ++ "]"
  | JDict d =>
      "{" ++ join ", "
               (map (fun kv => let '(k, x) := kv in
                               encode_str k ++ ": " ++ dumps x) d)
          ++ "}"
  end.

(** [json.dumps(doc)] of a document *)
Definition json_dumps (d : Document) : string := dumps (JDict d).

(** The separator of [indent=2] at nesting depth [level]. *)
Fixpoint spaces (n : nat) : string :=
  match n with
  | O => EmptyString
  | S n' => String " "%char (spaces n')
  end.

Definition newline_indent (level : nat) : string :=
  newline ++ spaces (2 * level).

(** [json.dump(v, f, indent=2)] *)
Fixpoint dumps_indent (level : nat) (v : json) : string :=
  match v with
  | JList [] => "[]"
  | JList l =>
      "[" ++ newline_indent (S level)
          ++ join ("," ++ newline_indent (S level))
               (map (dumps_indent (S level)) l)
          ++ newline_indent level ++ "]"
  | JDict [] => "{}"
  | JDict d =>
      "{" ++ newline_indent (S level)
          ++ join ("," ++ newline_indent (S level))
               (map (fun kv => let '(k, x) := kv in
                               encode_str k ++ ": "
                                 ++ dumps_indent (S level) x) d)
          ++ newline_indent level ++ "}"
  | _ => dumps v
  end.

End Serialisation.

(** ** Generation: state and errors

    The ambient state is threaded through every draw; an exception stops
    the computation and keeps the state reached. *)
Record Ambient {RT : Runtime} : Type := mkAmbient {
  rnd : Rnd;
  fk : Fk;
  env : Env
}.

Definition Gen {RT : Runtime} (A : Type) : Type :=
  Ambient -> result A * Ambient.

Definition ret {RT : Runtime} {A : Type} (x : A) : Gen A :=
  fun a => (Ok x, a).

Definition bind {RT : Runtime} {A B : Type} (m : Gen A) (f : A -> Gen B)
  : Gen B :=
  fun a => match m a with
           | (Ok x, a') => f x a'
           | (Raise e, a') => (Raise e, a')
           end.

Notation "x <- m ;; k" := (bind m (fun x => k))
  (at level 61, m at next level, right associativity).

Definition raise {RT : Runtime} {A : Type} (e : exn) : Gen A :=
  fun a => (Raise e, a).

Definition lift_result {RT : Runtime} {A : Type} (r : result A) : Gen A :=
  fun a => (r, a).

Definition on_rnd {RT : Runtime} {A : Type} (f : Rnd -> A * Rnd) : Gen A :=
  fun a => let (x, r) := f (rnd a) in
           (Ok x, mkAmbient RT r (fk a) (env a)).

Definition on_fk {RT : Runtime} {A : Type} (f : Fk -> A * Fk) : Gen A :=
  fun a => let (x, k) := f (fk a) in
           (Ok x, mkAmbient RT (rnd a) k (env a)).

Definition on_env {RT : Runtime} {A : Type} (f : Env -> A * Env) : Gen A :=
  fun a => let (x, e) := f (env a) in
           (Ok x, mkAmbient RT (rnd a) (fk a) e).

(** A generator that cannot raise, run inside [Gen]. *)
Definition total {RT : Runtime} {A : Type} (f : Ambient -> A * Ambient)
  : Gen A :=
  fun a => let (x, a') := f a in (Ok x, a').

(** [[f(x) for x in xs]] and a [for] loop that appends [f(x)]. *)
Fixpoint mapM {RT : Runtime} {A B : Type} (f : A -> Gen B) (xs : list A)
  : Gen (list B) :=
  match xs with
  | [] => ret []
  | x :: xs' => y <- f x ;; ys <- mapM f xs' ;; ret (y :: ys)
  end.

(** A [for] loop that updates local variables [S]. *)
Fixpoint foldM {RT : Runtime} {A S : Type} (f : S -> A -> Gen S) (s : S)
  (xs : list A) : Gen S :=
  match xs with
  | [] => ret s
  | x :: xs' => s' <- f s x ;; foldM f s' xs'
  end.

(** [[f() for _ in range(n)]] *)
Definition replicateM {RT : Runtime} {A : Type} (n : nat) (m : Gen A)
  : Gen (list A) :=
  mapM (fun _ => m) (seq 0 n).

(** The closed set of size tiers and the selector of a request. *)
Inductive tier : Type := small | medium | large | huge.

Inductive selector : Type :=
| Tier (t : tier)
| Mixed.

Definition tier_name (t : tier) : string :=
  match t with
  | small => "small"
  | medium => "medium"
  | large => "large"
  | huge => "huge"
  end.

(** [self] of [PerformanceGenerator]: the pools filled by [__init__]. *)
Record PerformanceGenerator : Type := mkPerformanceGenerator {
  common_words : list string;
  common_sentences : list string;
  common_paragraphs : list string;
  common_names : list string;
  common_companies : list string
}.

(** The log families of [logs_generator.py]. *)
Inductive log_kind : Type :=
| log_app
| log_access
| log_metric
| log_security.

(** ** Document shapes

    Every template returns a [dict] whose first key is [id]; the fields
    after it are outside the pipeline's contract and are drawn by these
    generators from the ambient state.  The small template of the
    performance generator is written out below. *)
Class Shapes {RT : Runtime} : Type := {
  doc_small_rest : Ambient -> Document * Ambient;
  doc_medium_rest : Ambient -> Document * Ambient;
  doc_large_rest : Ambient -> Document * Ambient;
  doc_huge_rest : Ambient -> Document * Ambient;
  perf_medium_rest : PerformanceGenerator -> Ambient -> Document * Ambient;
  perf_large_rest : PerformanceGenerator -> Ambient -> Document * Ambient;
  perf_huge_rest : PerformanceGenerator -> Ambient -> Document * Ambient;
  (** A log entry draws some values before it builds its [dict]: the
      draws, then the fields after [id] given those draws. *)
  log_draws : log_kind -> Ambient -> Document * Ambient;
  log_fields : log_kind -> Document -> Ambient -> Document * Ambient
}.

(** ** The output sink

    A file opened with mode [w] is the trace of the calls made on it;
    leaving the [with] block closes it. *)
Inductive io_event : Type :=
| EvOpen
| EvWrite (s : string)
| EvFlush
| EvClose.

(** What the file holds: every write since it was opened. *)
Fixpoint sink_content (tr : list io_event) : string :=
  match tr with
  | [] => EmptyString
  | EvWrite s :: tr' => s ++ sink_content tr'
  | _ :: tr' => sink_content tr'
  end.

Definition len {A : Type} (l : list A) : Z := Z.of_nat (List.length l).

(** [os.path.getsize]: the serialisation is ASCII, one byte a character. *)
Definition getsize (tr : list io_event) : Z :=
  Z.of_nat (String.length (sink_content tr)).

(** [a / b] on two [int]s; the quotient is kept exact. *)
Definition true_div (a b : Z) : result Q :=
  if b =? 0 then Raise ZeroDivisionError else Ok (Qmake a 1 / Qmake b 1)%Q.

(** [a // b] *)
Definition floor_div (a b : Z) : result Z :=
  if b =? 0 then Raise ZeroDivisionError else Ok (a / b).

Section Writers.
Context {RT : Runtime}.

(** [f.write(json.dumps(doc) + '\n')] *)
Definition write_line (doc : Document) : io_event :=
  EvWrite (json_dumps doc ++ newline).

(** [save_as_ndjson] of the three generators, and the in-line writer of
    the performance generator's [main]. *)
Definition save_as_ndjson (documents : list Document) : list io_event :=
  (EvOpen :: map write_line documents ++ [EvClose])%list.

(** [save_as_json]: [json.dump(documents, f, indent=2)], taken as one
    write of the whole text. *)
Definition save_as_json (documents : list Document) : list io_event :=
  [EvOpen; EvWrite (dumps_indent 0 (JList (map JDict documents))); EvClose].

(** The loop of [save_as_ndjson_streaming] from index [i] on. *)
Fixpoint streaming_loop (chunk_size : Z) (i : Z) (documents : list Document)
  : list io_event * result unit :=
  match documents with
  | [] => ([], Ok tt)
  | doc :: rest =>
      if chunk_size =? 0 then ([write_line doc], Raise ZeroDivisionError)
      else
        let (evs, r) := streaming_loop chunk_size (i + 1) rest in
        if (i + 1) mod chunk_size =? 0
        then (write_line doc :: EvFlush :: evs, r)
        else (write_line doc :: evs, r)
  end.

Definition save_as_ndjson_streaming (documents : list Document)
  (chunk_size : Z) : list io_event * result unit :=
  let (evs, r) := streaming_loop chunk_size 0 documents in
  (EvOpen :: evs ++ [EvClose], r)%list.

End Writers.

(** What a run leaves behind: its result or exception, the trace of the
    output file (empty when the file was never opened) and the ambient
    state. *)
Record Outcome {RT : Runtime} (S : Type) : Type := mkOutcome {
  out_result : result S;
  out_sink : list io_event;
  out_amb : Ambient
}.
Arguments mkOutcome {RT S}.
Arguments out_result {RT S}.
Arguments out_sink {RT S}.
Arguments out_amb {RT S}.

(** The figures [main] reports. *)
Record Stats : Type := mkStats {
  documentCount : Z;
  totalBytes : Z;
  averageBytes : Q
}.

Inductive format : Type := Ndjson | Json.

(** [if args.seed: random.seed(args.seed); fake.seed_instance(args.seed)] *)
Definition seed_step {RT : Runtime} (seed : option Z) (a : Ambient)
  : Ambient :=
  match seed with
  | Some s =>
      if s =? 0 then a
      else mkAmbient RT (random_seed s) (fake_seed_instance s) (env a)
  | None => a
  end.

(** [doc_id or str(uuid.uuid4())]: an empty string is falsy too. *)
Definition id_or_uuid {RT : Runtime} (doc_id : option string) : Gen string :=
  match doc_id with
  | Some (String c s) => ret (String c s)
  | _ => on_env uuid_uuid4
  end.

(** ** [document_generator.py] *)
Module DocumentGenerator.
Section Defs.
Context {RT : Runtime} {SH : Shapes}.

Definition with_id (doc_id : option string)
  (rest : Ambient -> Document * Ambient) : Gen Document :=
  i <- id_or_uuid doc_id ;;
  fields <- total rest ;;
  ret (("id", JStr i) :: fields).

Definition generate_small_document (doc_id : option string) : Gen Document :=
  with_id doc_id doc_small_rest.
Definition generate_medium_document (doc_id : option string) : Gen Document :=
  with_id doc_id doc_medium_rest.
Definition generate_large_document (doc_id : option string) : Gen Document :=
  with_id doc_id doc_large_rest.
Definition generate_huge_document (doc_id : option string) : Gen Document :=
  with_id doc_id doc_huge_rest.

Definition generate_document (t : tier) : option string -> Gen Document :=
  match t with
  | small => generate_small_document
  | medium => generate_medium_document
  | large => generate_large_document
  | huge => generate_huge_document
  end.

(** The four counts of [generate_mixed_documents]. *)
Definition mixed_counts (total_count : Z) : result (Z * Z * Z * Z) :=
  match PyFloat.int_mul total_count PyFloat.lit_0_4 with
  | Raise e => Raise e
  | Ok small_count =>
  match PyFloat.int_mul total_count PyFloat.lit_0_35 with
  | Raise e => Raise e
  | Ok medium_count =>
  match PyFloat.int_mul total_count PyFloat.lit_0_2 with
  | Raise e => Raise e
  | Ok large_count =>
      let huge_count :=
        total_count - small_count - medium_count - large_count in
      Ok (small_count, medium_count, large_count, huge_count)
  end end end.

(** [for i in range(count): documents.append(generate(f"{t}_{i}"))];
    also the comprehensions of [generate_documents]. *)
Definition tier_documents (t : tier) (count : Z) : Gen (list Document) :=
  mapM (fun i => generate_document t (Some (fmt_id (tier_name t) i)))
       (range count).

Definition generate_mixed_documents (total_count : Z)
  : Gen (list Document) :=
  counts <- lift_result (mixed_counts total_count) ;;
  let '(small_count, medium_count, large_count, huge_count) := counts in
  d1 <- tier_documents small small_count ;;
  d2 <- tier_documents medium medium_count ;;
  d3 <- tier_documents large large_count ;;
  d4 <- tier_documents huge huge_count ;;
  on_rnd (random_shuffle (d1 ++ d2 ++ d3 ++ d4)%list).

Definition generate_documents (doc_type : selector) (count : Z)
  : Gen (list Document) :=
  match doc_type with
  | Tier t => tier_documents t count
  | Mixed => generate_mixed_documents count
  end.

Record Args : Type := mkArgs {
  arg_type : selector;
  arg_count : Z;
  arg_format : format;
  arg_seed : option Z
}.

Definition main (args : Args) (a : Ambient) : Outcome Stats :=
  let a1 := seed_step (arg_seed args) a in
  match generate_documents (arg_type args) (arg_count args) a1 with
  | (Raise e, a2) => mkOutcome (Raise e) [] a2
  | (Ok documents, a2) =>
      let sink := match arg_format args with
                  | Ndjson => save_as_ndjson documents
                  | Json => save_as_json documents
                  end in
      let total_size :=
        fold_right Z.add 0
          (map (fun doc => Z.of_nat (String.length (json_dumps doc)))
               documents) in
      match true_div total_size (len documents) with
      | Raise e => mkOutcome (Raise e) sink a2
      | Ok avg_size =>
          mkOutcome (Ok (mkStats (len documents) total_size avg_size))
                    sink a2
      end
  end.

End Defs.
End DocumentGenerator.

(** ** [performance_generator.py] *)
Module PerformanceGen.
Section Defs.
Context {RT : Runtime} {SH : Shapes}.

(** [__init__]: the pools are drawn from [fake] when the generator is
    built, which [main] does after seeding. *)
Definition init : Gen PerformanceGenerator :=
  words <- replicateM 1000 (on_fk fake_word) ;;
  sentences <- replicateM 500 (on_fk fake_sentence) ;;
  paragraphs <- replicateM 100 (on_fk fake_paragraph) ;;
  names <- replicateM 200 (on_fk fake_name) ;;
  companies <- replicateM 100 (on_fk fake_company) ;;
  ret (mkPerformanceGenerator words sentences paragraphs names companies).

Definition generate_small_template (self : PerformanceGenerator)
  (doc_id : string) : Gen Document :=
  now <- on_env datetime_now ;;
  level <- on_rnd (random_choice [JStr "INFO"; JStr "WARN"; JStr "ERROR"]) ;;
  service <- on_rnd (random_choice
                       [JStr "auth"; JStr "api"; JStr "web"; JStr "mobile"]) ;;
  message <- on_rnd (random_choice (map JStr (common_sentences self))) ;;
  user_id <- on_rnd (random_randint 1 100000) ;;
  session <- on_fk fake_uuid4 ;;
  duration <- on_rnd (random_randint 10 1000) ;;
  status <- on_rnd (random_choice [JInt 200; JInt 404; JInt 500]) ;;
  ret [("id", JStr doc_id);
       ("timestamp", JStr (isoformat now));
       ("level", level);
       ("service", service);
       ("message", message);
       ("user_id", JInt user_id);
       ("session", JStr (substring 0 8 session));
       ("duration", JInt duration);
       ("status", status)].

Definition with_id (doc_id : string)
  (rest : Ambient -> Document * Ambient) : Gen Document :=
  fields <- total rest ;;
  ret (("id", JStr doc_id) :: fields).

Definition generate_medium_template (self : PerformanceGenerator)
  (doc_id : string) : Gen Document :=
  with_id doc_id (perf_medium_rest self).
Definition generate_large_template (self : PerformanceGenerator)
  (doc_id : string) : Gen Document :=
  with_id doc_id (perf_large_rest self).
Definition generate_huge_template (self : PerformanceGenerator)
  (doc_id : string) : Gen Document :=
  with_id doc_id (perf_huge_rest self).

(** [self.batch_templates[doc_type]] *)
Definition batch_templates (self : PerformanceGenerator) (doc_type : tier)
  : string -> Gen Document :=
  match doc_type with
  | small => generate_small_template self
  | medium => generate_medium_template self
  | large => generate_large_template self
  | huge => generate_huge_template self
  end.

Definition generate_batch (self : PerformanceGenerator) (doc_type : tier)
  (start_id count : Z) : Gen (list Document) :=
  mapM (fun i => batch_templates self doc_type
                   (fmt_id (tier_name doc_type) (start_id + i)))
       (range count).

(** The batch loop of one tier; the local variables are [documents] and
    [current_id]. *)
Definition tier_batches (self : PerformanceGenerator) (dtype : tier)
  (count batch_size : Z) (st : list Document * Z)
  : Gen (list Document * Z) :=
  batches <- lift_result (floor_div (count + batch_size - 1) batch_size) ;;
  foldM (fun (st : list Document * Z) batch_num =>
           let '(documents, current_id) := st in
           let batch_count :=
             Z.min batch_size (count - batch_num * batch_size) in
           if 0 <? batch_count then
             batch_docs <- generate_batch self dtype current_id batch_count ;;
             ret ((documents ++ batch_docs)%list, current_id + batch_count)
           else ret (documents, current_id))
        st (range batches).

(** The [type_distribution] of a mixed request, in iteration order. *)
Definition type_distribution (total_count : Z)
  : result (list (tier * Z)) :=
  match PyFloat.int_mul total_count PyFloat.lit_0_4 with
  | Raise e => Raise e
  | Ok c_small =>
  match PyFloat.int_mul total_count PyFloat.lit_0_35 with
  | Raise e => Raise e
  | Ok c_medium =>
  match PyFloat.int_mul total_count PyFloat.lit_0_2 with
  | Raise e => Raise e
  | Ok c_large =>
  match PyFloat.int_mul total_count PyFloat.lit_0_05 with
  | Raise e => Raise e
  | Ok c_huge =>
      Ok [(small, c_small); (medium, c_medium);
          (large, c_large); (huge, c_huge)]
  end end end end.

(** The corpus of a mixed request before the shuffle. *)
Definition mixed_sequential (self : PerformanceGenerator)
  (total_count batch_size : Z) : Gen (list Document) :=
  distribution <- lift_result (type_distribution total_count) ;;
  st <- foldM (fun st (item : tier * Z) =>
                 tier_batches self (fst item) (snd item) batch_size st)
              ([], 0) distribution ;;
  ret (fst st).

Definition generate_performance_dataset (self : PerformanceGenerator)
  (total_count : Z) (doc_type : selector) (batch_size : Z)
  : Gen (list Document) :=
  match doc_type with
  | Mixed =>
      documents <- mixed_sequential self total_count batch_size ;;
      on_rnd (random_shuffle documents)
  | Tier t =>
      st <- tier_batches self t total_count batch_size ([], 0) ;;
      ret (fst st)
  end.

Definition microseconds (seconds : Z) : Z := seconds * 1000000.

(** The range of [datetime]: the microseconds are counted from
    [datetime.min], and [datetime.max] is 9999-12-31T23:59:59.999999. *)
Definition datetime_max : Z := 3652059 * 86400 * 1000000 - 1.

(** [t + timedelta(microseconds=d)]: a result outside the range of
    [datetime] is Python's [OverflowError]. *)
Definition datetime_add (t d : Z) : result Z :=
  if (0 <=? t + d) && (t + d <=? datetime_max)
  then Ok (t + d)
  else Raise OverflowError.

(** The clock is read once; [datetime.now()] is a reading of the system
    clock, later than the first week of year 1, so that the seven days are
    subtracted within the range, and every instant of the loop is checked
    against the range. *)
Definition generate_time_series_data (self : PerformanceGenerator)
  (count : Z) (doc_type : tier) : Gen (list Document) :=
  now <- on_env datetime_now ;;
  let start_time := now - microseconds (7 * 86400) in
  mapM (fun i =>
          timestamp <- lift_result
                         (datetime_add start_time (microseconds (i * 60))) ;;
          base_doc <- batch_templates self doc_type (fmt_id "ts" i) ;;
          let base_doc :=
            dict_set "timestamp" (JStr (isoformat timestamp)) base_doc in
          let base_doc := dict_set "sequence_id" (JInt i) base_doc in
          let base_doc :=
            dict_set "time_bucket" (JStr (strftime_hour timestamp))
                     base_doc in
          value <- on_rnd (random_uniform 0 100) ;;
          trend <- on_rnd (random_choice
                             [JStr "up"; JStr "down"; JStr "stable"]) ;;
          anomaly_score <- on_rnd (random_uniform 0 1) ;;
          ret (dict_set "metrics"
                 (JDict [("value", JFloat value);
                         ("trend", trend);
                         ("anomaly_score", JFloat anomaly_score)])
                 base_doc))
       (range count).

Inductive doc_kind : Type :=
| Sel (s : selector)
| Timeseries.

Record Args : Type := mkArgs {
  arg_count : Z;
  arg_type : doc_kind;
  arg_batch_size : Z;
  arg_seed : option Z;
  arg_streaming : bool
}.

(** The documents [main] generates, generator construction included. *)
Definition generate (args : Args) : Gen (list Document) :=
  generator <- init ;;
  match arg_type args with
  | Timeseries => generate_time_series_data generator (arg_count args) small
  | Sel s =>
      generate_performance_dataset generator (arg_count args) s
                                   (arg_batch_size args)
  end.

(** [if args.streaming or len(documents) > 50000] *)
Definition use_streaming (args : Args) (documents : list Document) : bool :=
  arg_streaming args || (50000 <? len documents).

(** The save step of [main]; [chunk_size] keeps its default. *)
Definition save (args : Args) (documents : list Document)
  : list io_event * result unit :=
  if use_streaming args documents
  then save_as_ndjson_streaming documents 1000
  else (save_as_ndjson documents, Ok tt).

(** [main] as far as the documents, the file and the statistics go; its
    readings of [time.time()] and the rates it prints from them are in
    [PerformanceRun.main] below. *)
Definition main (args : Args) (a : Ambient) : Outcome Stats :=
  let a1 := seed_step (arg_seed args) a in
  match generate args a1 with
  | (Raise e, a2) => mkOutcome (Raise e) [] a2
  | (Ok documents, a2) =>
      match save args documents with
      | (sink, Raise e) => mkOutcome (Raise e) sink a2
      | (sink, Ok _) =>
          let total_size := getsize sink in
          match true_div total_size (len documents) with
          | Raise e => mkOutcome (Raise e) sink a2
          | Ok avg_size =>
              mkOutcome (Ok (mkStats (len documents) total_size avg_size))
                        sink a2
          end
      end
  end.

End Defs.
End PerformanceGen.

(** ** [main] of [performance_generator.py] with its clock

    [main] times the generation and the save with [time.time()] and
    prints the rates, the number of documents over each elapsed time. *)

(** [time.time()]: a reading of the clock as a float. *)
Class Timer {RT : Runtime} : Type := {
  time_time : Env -> spec_float * Env
}.

Module PerformanceRun.
Section Defs.
Context {RT : Runtime} {SH : Shapes} {TM : Timer}.

(** [x - y] on two floats, and [x == 0.0]. *)
Definition float_sub (x y : spec_float) : spec_float :=
  SFsub PyFloat.prec PyFloat.emax x y.

Definition float_is_zero (x : spec_float) : bool :=
  match x with
  | S754_zero _ => true
  | _ => false
  end.

(** [n / y] for an [int] and a float: the [int] is converted first, and a
    divisor that is zero is Python's [ZeroDivisionError]. *)
Definition int_div_float (n : Z) (y : spec_float) : result spec_float :=
  match PyFloat.of_int n with
  | Raise e => Raise e
  | Ok x =>
      if float_is_zero y then Raise ZeroDivisionError
      else Ok (SFdiv PyFloat.prec PyFloat.emax x y)
  end.

Definition read_clock (a : Ambient) : spec_float * Ambient :=
  let r := time_time (env a) in
  (fst r, mkAmbient RT (rnd a) (fk a) (snd r)).

(** What [main] reports at its end. *)
Record Report : Type := mkReport {
  report_stats : Stats;
  generation_time : spec_float;
  save_time : spec_float
}.

(** The generation and its elapsed time, before the rate is printed. *)
Definition timed_generation (args : PerformanceGen.Args)
  : Gen (list Document * spec_float) :=
  generator <- PerformanceGen.init ;;
  start_time <- total read_clock ;;
  documents <-
    match PerformanceGen.arg_type args with
    | PerformanceGen.Timeseries =>
        PerformanceGen.generate_time_series_data
          generator (PerformanceGen.arg_count args) small
    | PerformanceGen.Sel s =>
        PerformanceGen.generate_performance_dataset
          generator (PerformanceGen.arg_count args) s
          (PerformanceGen.arg_batch_size args)
    end ;;
  end_time <- total read_clock ;;
  ret (documents, float_sub end_time start_time).

(** The elapsed time of a save that starts in the state [a]: the save
    itself reads no clock. *)
Definition save_elapsed (a : Ambient) : spec_float :=
  let save_start := read_clock a in
  float_sub (fst (read_clock (snd save_start))) (fst save_start).

Definition main (args : PerformanceGen.Args) (a : Ambient)
  : Outcome Report :=
  let a1 := seed_step (PerformanceGen.arg_seed args) a in
  match timed_generation args a1 with
  | (Raise e, a2) => mkOutcome (Raise e) [] a2
  | (Ok (documents, generation_time), a2) =>
      match int_div_float (len documents) generation_time with
      | Raise e => mkOutcome (Raise e) [] a2
      | Ok _ =>
          let a3 := snd (read_clock a2) in
          match PerformanceGen.save args documents with
          | (sink, Raise e) => mkOutcome (Raise e) sink a3
          | (sink, Ok _) =>
              let a4 := snd (read_clock a3) in
              let save_time := save_elapsed a2 in
              let total_size := getsize sink in
              match true_div total_size (len documents) with
              | Raise e => mkOutcome (Raise e) sink a4
              | Ok avg_size =>
                  match int_div_float (len documents) generation_time with
                  | Raise e => mkOutcome (Raise e) sink a4
                  | Ok _ =>
                      match int_div_float (len documents) save_time with
                      | Raise e => mkOutcome (Raise e) sink a4
                      | Ok _ =>
                          mkOutcome
                            (Ok (mkReport
                                   (mkStats (len documents) total_size
                                            avg_size)
                                   generation_time save_time))
                            sink a4
                      end
                  end
              end
          end
      end
  end.

End Defs.
End PerformanceRun.

(** ** [logs_generator.py] *)
Module LogsGenerator.
Section Defs.
Context {RT : Runtime} {SH : Shapes}.

Definition kind_name (k : log_kind) : string :=
  match k with
  | log_app => "app"
  | log_access => "access"
  | log_metric => "metric"
  | log_security => "security"
  end.

(** [generate_application_log], [generate_access_log],
    [generate_system_metric] and [generate_security_event]. *)
Definition generate_log (k : log_kind) (log_id : option string)
  : Gen Document :=
  drawn <- total (log_draws k) ;;
  i <- id_or_uuid log_id ;;
  fields <- total (log_fields k drawn) ;;
  ret (("id", JStr i) :: fields).

Definition kind_logs (k : log_kind) (count : Z) : Gen (list Document) :=
  mapM (fun i => generate_log k (Some (fmt_id (kind_name k) i)))
       (range count).

Definition mixed_counts (count : Z) : result (Z * Z * Z * Z) :=
  match PyFloat.int_mul count PyFloat.lit_0_5 with
  | Raise e => Raise e
  | Ok app_count =>
  match PyFloat.int_mul count PyFloat.lit_0_3 with
  | Raise e => Raise e
  | Ok access_count =>
  match PyFloat.int_mul count PyFloat.lit_0_15 with
  | Raise e => Raise e
  | Ok metric_count =>
      let security_count :=
        count - app_count - access_count - metric_count in
      Ok (app_count, access_count, metric_count, security_count)
  end end end.

Definition generate_mixed_logs (count : Z) : Gen (list Document) :=
  counts <- lift_result (mixed_counts count) ;;
  let '(app_count, access_count, metric_count, security_count) := counts in
  l1 <- kind_logs log_app app_count ;;
  l2 <- kind_logs log_access access_count ;;
  l3 <- kind_logs log_metric metric_count ;;
  l4 <- kind_logs log_security security_count ;;
  on_rnd (random_shuffle (l1 ++ l2 ++ l3 ++ l4)%list).

Inductive log_type : Type :=
| Kind (k : log_kind)
| MixedLogs.

Record Args : Type := mkArgs {
  arg_count : Z;
  arg_type : log_type;
  arg_format : format;
  arg_seed : option Z
}.

Definition generate (args : Args) : Gen (list Document) :=
  match arg_type args with
  | Kind k => kind_logs k (arg_count args)
  | MixedLogs => generate_mixed_logs (arg_count args)
  end.

Definition main (args : Args) (a : Ambient) : Outcome Stats :=
  let a1 := seed_step (arg_seed args) a in
  match generate args a1 with
  | (Raise e, a2) => mkOutcome (Raise e) [] a2
  | (Ok logs, a2) =>
      let sink := match arg_format args with
                  | Ndjson => save_as_ndjson logs
                  | Json => save_as_json logs
                  end in
      let total_size :=
        fold_right Z.add 0
          (map (fun log => Z.of_nat (String.length (json_dumps log)))
               logs) in
      match true_div total_size (len logs) with
      | Raise e => mkOutcome (Raise e) sink a2
      | Ok avg_size =>
          mkOutcome (Ok (mkStats (len logs) total_size avg_size)) sink a2
      end
  end.

End Defs.
End LogsGenerator.

(** ** The four log templates of [logs_generator.py]

    What the templates draw beyond the interface above: [random.random],
    more providers of [Faker], and the builtin [round]. *)
Class LogRuntime {RT : Runtime} : Type := {
  random_random : Rnd -> spec_float * Rnd;
  (** [fake.date_time_between(start_date=s)] *)
  fake_date_time_between : string -> Fk -> Z * Fk;
  fake_random_int : Z -> Z -> Fk -> Z * Fk;
  fake_country_code : Fk -> string * Fk;
  fake_ipv4 : Fk -> string * Fk;
  fake_user_name : Fk -> string * Fk;
  fake_uri_path : Fk -> string * Fk;
  fake_url : Fk -> string * Fk;
  fake_city : Fk -> string * Fk;
  fake_domain_name : Fk -> string * Fk;
  fake_file_path : Fk -> string * Fk;
  (** [float(fake.latitude())] and [float(fake.longitude())] *)
  fake_latitude : Fk -> spec_float * Fk;
  fake_longitude : Fk -> spec_float * Fk;
  (** [round(x, ndigits)] *)
  py_round : spec_float -> Z -> spec_float
}.

(** Draws that cannot raise: a state transformer on the ambient state. *)
Definition Draw {RT : Runtime} (A : Type) : Type := Ambient -> A * Ambient.

Definition dret {RT : Runtime} {A : Type} (x : A) : Draw A :=
  fun a => (x, a).

Definition dbind {RT : Runtime} {A B : Type} (m : Draw A) (k : A -> Draw B)
  : Draw B :=
  fun a => let r := m a in k (fst r) (snd r).

Notation "x <~ m ;; k" := (dbind m (fun x => k))
  (at level 61, m at next level, right associativity).

Definition draw_rnd {RT : Runtime} {A : Type} (f : Rnd -> A * Rnd) : Draw A :=
  fun a => let r := f (rnd a) in
           (fst r, mkAmbient RT (snd r) (fk a) (env a)).

Definition draw_fk {RT : Runtime} {A : Type} (f : Fk -> A * Fk) : Draw A :=
  fun a => let r := f (fk a) in
           (fst r, mkAmbient RT (rnd a) (snd r) (env a)).

Definition draw_env {RT : Runtime} {A : Type} (f : Env -> A * Env) : Draw A :=
  fun a => let r := f (env a) in
           (fst r, mkAmbient RT (rnd a) (fk a) (snd r)).

(** [[m for _ in range(n)]] *)
Fixpoint drepeat {RT : Runtime} {A : Type} (n : nat) (m : Draw A)
  : Draw (list A) :=
  match n with
  | O => dret []
  | S n' => x <~ m ;; xs <~ drepeat n' m ;; dret (x :: xs)
  end.

(** The [str] a choice among [str] returned. *)
Definition as_str (v : json) : string :=
  match v with
  | JStr s => s
  | _ => EmptyString
  end.

(** [v == s] for a [str] literal [s]. *)
Definition is_str (s : string) (v : json) : bool :=
  match v with
  | JStr x => String.eqb x s
  | _ => false
  end.

(** [v == n] for an [int] literal [n] that binary64 holds exactly. *)
Definition is_int (n : Z) (v : json) : bool :=
  match v with
  | JInt x => Z.eqb x n
  | JBool b => Z.eqb (if b then 1 else 0) n
  | JFloat x => SFeqb x (binary_normalize PyFloat.prec PyFloat.emax n 0 false)
  | _ => false
  end.

(** [f"{i:03d}"] for an [int] that is not negative. *)
Definition pad3 (i : Z) : string :=
  let s := str_of_int i in
  match String.length s with
  | 1%nat => "00" ++ s
  | 2%nat => "0" ++ s
  | _ => s
  end.

(** The probabilities of the templates that [PyFloat] does not hold
    yet, as the nearest binary64 values. *)
Module PyLit.
Definition lit_0_7 : spec_float := S754_finite false 6305039478318694 (-53).
Definition lit_0_6 : spec_float := S754_finite false 5404319552844595 (-53).
Definition lit_0_8 : spec_float := S754_finite false 7205759403792794 (-53).
Definition lit_0_1 : spec_float := S754_finite false 7205759403792794 (-56).
End PyLit.

Module LogTemplates.
Section Defs.
Context {RT : Runtime} {LR : LogRuntime}.

(** [__init__] *)
Definition log_levels : list string :=
  ["DEBUG"; "INFO"; "WARN"; "ERROR"; "FATAL"].
Definition services : list string :=
  ["auth-service"; "user-service"; "payment-service"; "order-service";
   "inventory-service"; "notification-service"; "api-gateway";
   "web-frontend"; "mobile-backend"; "analytics-service"; "search-service";
   "recommendations"].
Definition hosts : list string :=
  map (fun i => "server-" ++ pad3 (Z.of_nat i)) (seq 1 20).
Definition environments : list string :=
  ["production"; "staging"; "development"; "test"].
Definition http_methods : list string :=
  ["GET"; "POST"; "PUT"; "DELETE"; "PATCH"; "OPTIONS"].
Definition status_codes : list Z :=
  [200; 201; 204; 301; 302; 400; 401; 403; 404; 500; 502; 503].
Definition user_agents : list string :=
  ["Mozilla/5.0 (Windows NT 10.0; Win64; x64) AppleWebKit/537.36";
   "Mozilla/5.0 (Macintosh; Intel Mac OS X 10_15_7) AppleWebKit/537.36";
   "Mozilla/5.0 (X11; Linux x86_64) AppleWebKit/537.36";
   "Mozilla/5.0 (iPhone; CPU iPhone OS 14_7_1 like Mac OS X)";
   "Mozilla/5.0 (Android 11; Mobile; rv:68.0) Gecko/68.0"].

(** [random.choice] among [str] and among [int]. *)
Definition choice (l : list string) : Draw json :=
  draw_rnd (random_choice (map JStr l)).
Definition choice_int (l : list Z) : Draw json :=
  draw_rnd (random_choice (map JInt l)).
Definition randint (lo hi : Z) : Draw Z := draw_rnd (random_randint lo hi).
Definition random : Draw spec_float := draw_rnd random_random.
Definition uniform (lo hi : Z) : Draw spec_float :=
  draw_rnd (random_uniform lo hi).
Definition uuid : Draw string := draw_env uuid_uuid4.

(** [round(random.uniform(lo, hi), n)] *)
Definition rounded (lo hi n : Z) : Draw json :=
  x <~ uniform lo hi ;; dret (JFloat (py_round x n)).

(** [m if random.random() < p else None] *)
Definition maybe (p : spec_float) (m : Draw json) : Draw json :=
  x <~ random ;; if SFltb x p then m else dret JNull.

(** [random.random() < p] *)
Definition chance (p : spec_float) : Draw json :=
  x <~ random ;; dret (JBool (SFltb x p)).

(** [[fake.word() for _ in range(random.randint(lo, hi))]] *)
Definition words (lo hi : Z) : Draw json :=
  n <~ randint lo hi ;;
  ws <~ drepeat (Z.to_nat n) (draw_fk fake_word) ;;
  dret (JList (map JStr ws)).

(** One line of a stack trace. *)
Definition stack_frame : Draw json :=
  w1 <~ draw_fk fake_word ;;
  w2 <~ draw_fk fake_word ;;
  w3 <~ draw_fk fake_word ;;
  line <~ randint 1 500 ;;
  dret (JStr ("at " ++ w1 ++ "." ++ w2 ++ "(" ++ w3 ++ ".java:"
                   ++ str_of_int line ++ ")")).

Definition stack_trace (lo hi : Z) : Draw json :=
  n <~ randint lo hi ;;
  frames <~ drepeat (Z.to_nat n) stack_frame ;;
  dret (JList frames).

(** [{"country": ..., "city": ..., "coordinates": {...}}] *)
Definition geo : Draw json :=
  country <~ draw_fk fake_country_code ;;
  city <~ draw_fk fake_city ;;
  lat <~ draw_fk fake_latitude ;;
  lon <~ draw_fk fake_longitude ;;
  dret (JDict [("country", JStr country);
               ("city", JStr city);
               ("coordinates", JDict [("lat", JFloat lat);
                                      ("lon", JFloat lon)])]).

(** A value drawn before the [dict] is built. *)
Definition drawn_value (k : string) (drawn : Document) : json :=
  match dict_get k drawn with
  | Some v => v
  | None => JNull
  end.

(** *** [generate_application_log] *)

(** The message and the exception of a level. *)
Definition message_and_exception (level : json) : Draw (string * json) :=
  if is_str "ERROR" level then
    s <~ draw_fk fake_sentence ;;
    exception <~ maybe PyLit.lit_0_7
      (ty <~ choice ["NullPointerException"; "SQLException";
                     "TimeoutException"; "ValidationException"] ;;
       msg <~ draw_fk fake_sentence ;;
       trace <~ stack_trace 3 8 ;;
       dret (JDict [("type", ty); ("message", JStr msg);
                    ("stack_trace", trace)])) ;;
    dret ("Error processing request: " ++ s, exception)
  else if is_str "WARN" level then
    s <~ draw_fk fake_sentence ;; dret ("Warning: " ++ s, JNull)
  else if is_str "INFO" level then
    s <~ draw_fk fake_sentence ;;
    dret ("Successfully processed: " ++ s, JNull)
  else if is_str "DEBUG" level then
    s <~ draw_fk fake_sentence ;; dret ("Debug info: " ++ s, JNull)
  else
    s <~ draw_fk fake_sentence ;;
    msg <~ draw_fk fake_sentence ;;
    trace <~ stack_trace 5 15 ;;
    dret ("Critical system failure: " ++ s,
          JDict [("type", JStr "SystemException"); ("message", JStr msg);
                 ("stack_trace", trace)]).

(** The statements before the [return]. *)
Definition application_log_draws : Draw Document :=
  timestamp <~ draw_fk (fake_date_time_between "-7d") ;;
  level <~ choice log_levels ;;
  service <~ choice services ;;
  me <~ message_and_exception level ;;
  dret [("timestamp", JStr (isoformat timestamp)); ("level", level);
        ("service", service); ("message", JStr (fst me));
        ("exception", snd me)].

(** The fields of the returned [dict] after [id]. *)
Definition application_log_fields (drawn : Document) : Draw Document :=
  let level := drawn_value "level" drawn in
  let service := drawn_value "service" drawn in
  host <~ choice hosts ;;
  environment <~ choice environments ;;
  thread <~ randint 1 100 ;;
  logger <~ draw_fk fake_word ;;
  correlation_id <~ uuid ;;
  session_id <~ maybe PyLit.lit_0_6
                  (u <~ uuid ;; dret (JStr (substring 0 16 u))) ;;
  user_id <~ maybe PyFloat.lit_0_4
               (n <~ draw_fk (fake_random_int 1 100000) ;; dret (JInt n)) ;;
  request_id <~ maybe PyLit.lit_0_8 (u <~ uuid ;; dret (JStr u)) ;;
  duration_ms <~ (if (is_str "INFO" level || is_str "WARN" level)%bool
                  then n <~ randint 1 5000 ;; dret (JInt n)
                  else dret JNull) ;;
  memory_usage <~ maybe PyFloat.lit_0_2
                    (heap <~ randint 100 2048 ;;
                     non_heap <~ randint 50 512 ;;
                     used <~ randint 200 1500 ;;
                     dret (JDict
                             [("heap", JStr (str_of_int heap ++ "MB"));
                              ("non_heap", JStr (str_of_int non_heap ++ "MB"));
                              ("used", JStr (str_of_int used ++ "MB"))])) ;;
  tags <~ words 1 4 ;;
  v1 <~ randint 1 3 ;;
  v2 <~ randint 0 9 ;;
  v3 <~ randint 0 9 ;;
  build <~ randint 1000 9999 ;;
  region <~ draw_fk fake_country_code ;;
  datacenter <~ choice ["us-east"; "us-west"; "eu-central"; "ap-south"] ;;
  dret [("timestamp", drawn_value "timestamp" drawn);
        ("level", level);
        ("message", drawn_value "message" drawn);
        ("service", service);
        ("host", host);
        ("environment", environment);
        ("thread", JStr ("thread-" ++ str_of_int thread));
        ("logger", JStr (as_str service ++ "." ++ logger));
        ("correlation_id", JStr (substring 0 8 correlation_id));
        ("session_id", session_id);
        ("user_id", user_id);
        ("request_id", request_id);
        ("duration_ms", duration_ms);
        ("memory_usage", memory_usage);
        ("exception", drawn_value "exception" drawn);
        ("tags", tags);
        ("metadata",
         JDict [("version", JStr (str_of_int v1 ++ "." ++ str_of_int v2
                                    ++ "." ++ str_of_int v3));
                ("build", JStr ("build-" ++ str_of_int build));
                ("region", JStr region);
                ("datacenter", JStr ("dc-" ++ as_str datacenter))])].

(** *** [generate_access_log] *)
Definition access_log_draws : Draw Document :=
  timestamp <~ draw_fk (fake_date_time_between "-7d") ;;
  method <~ choice http_methods ;;
  status_code <~ choice_int status_codes ;;
  dret [("timestamp", JStr (isoformat timestamp)); ("method", method);
        ("status_code", status_code)].

Definition access_log_fields (drawn : Document) : Draw Document :=
  let status_code := drawn_value "status_code" drawn in
  remote_addr <~ draw_fk fake_ipv4 ;;
  remote_user <~ maybe PyFloat.lit_0_3
                   (u <~ draw_fk fake_user_name ;; dret (JStr u)) ;;
  url <~ draw_fk fake_uri_path ;;
  query_string <~ maybe PyFloat.lit_0_4
                    (q <~ draw_fk fake_uri_path ;; dret (JStr q)) ;;
  user_agent <~ choice user_agents ;;
  referer <~ maybe PyLit.lit_0_6 (u <~ draw_fk fake_url ;; dret (JStr u)) ;;
  accept_language <~ choice ["en-US"; "en-GB"; "es-ES"; "fr-FR"; "de-DE"] ;;
  x_forwarded_for <~ maybe PyFloat.lit_0_3
                       (i <~ draw_fk fake_ipv4 ;; dret (JStr i)) ;;
  content_length <~ (if is_int 200 status_code then randint 100 50000
                     else randint 0 1000) ;;
  content_type <~ choice ["text/html"; "application/json"; "text/css";
                          "application/javascript"; "image/png"] ;;
  cache_status <~ maybe PyLit.lit_0_7 (choice ["HIT"; "MISS"; "BYPASS"]) ;;
  response_time_ms <~ randint 1 3000 ;;
  upstream_time_ms <~ maybe PyLit.lit_0_6
                        (n <~ randint 1 2000 ;; dret (JInt n)) ;;
  geo_value <~ maybe PyLit.lit_0_8 geo ;;
  session_id <~ maybe PyFloat.lit_0_5
                  (u <~ uuid ;; dret (JStr (substring 0 16 u))) ;;
  user_id <~ maybe PyFloat.lit_0_3
               (n <~ draw_fk (fake_random_int 1 100000) ;; dret (JInt n)) ;;
  host <~ choice hosts ;;
  server_name <~ draw_fk fake_domain_name ;;
  ssl <~ chance PyLit.lit_0_8 ;;
  bot_detected <~ chance PyLit.lit_0_1 ;;
  dret [("timestamp", drawn_value "timestamp" drawn);
        ("type", JStr "access");
        ("remote_addr", JStr remote_addr);
        ("remote_user", remote_user);
        ("request",
         JDict [("method", drawn_value "method" drawn);
                ("url", JStr url);
                ("query_string", query_string);
                ("protocol", JStr "HTTP/1.1");
                ("headers",
                 JDict [("user_agent", user_agent);
                        ("referer", referer);
                        ("accept_language", accept_language);
                        ("x_forwarded_for", x_forwarded_for)])]);
        ("response",
         JDict [("status_code", status_code);
                ("content_length", JInt content_length);
                ("content_type", content_type);
                ("cache_status", cache_status)]);
        ("timing",
         JDict [("response_time_ms", JInt response_time_ms);
                ("upstream_time_ms", upstream_time_ms)]);
        ("geo", geo_value);
        ("session_id", session_id);
        ("user_id", user_id);
        ("host", host);
        ("server_name", JStr server_name);
        ("ssl", ssl);
        ("bot_detected", bot_detected)].

(** *** [generate_system_metric] *)
Definition metric_draws : Draw Document :=
  timestamp <~ draw_fk (fake_date_time_between "-7d") ;;
  dret [("timestamp", JStr (isoformat timestamp))].

Definition alert : Draw json :=
  ty <~ choice ["cpu_high"; "memory_high"; "disk_full"; "service_down"] ;;
  severity <~ choice ["warning"; "critical"] ;;
  message <~ draw_fk fake_sentence ;;
  dret (JDict [("type", ty); ("severity", severity);
               ("message", JStr message)]).

Definition metric_fields (drawn : Document) : Draw Document :=
  host <~ choice hosts ;;
  service <~ choice services ;;
  cpu_usage <~ rounded 0 100 2 ;;
  load_1m <~ rounded 0 8 2 ;;
  load_5m <~ rounded 0 6 2 ;;
  load_15m <~ rounded 0 4 2 ;;
  mem_usage <~ rounded 20 95 2 ;;
  used_mb <~ randint 1000 8000 ;;
  available_mb <~ randint 2000 16000 ;;
  swap_used_mb <~ randint 0 2000 ;;
  disk_usage <~ rounded 10 90 2 ;;
  read_iops <~ randint 0 1000 ;;
  write_iops <~ randint 0 500 ;;
  read_throughput_mb <~ rounded 0 100 2 ;;
  write_throughput_mb <~ rounded 0 50 2 ;;
  rx_bytes <~ randint 1000000 100000000 ;;
  tx_bytes <~ randint 500000 50000000 ;;
  rx_packets <~ randint 1000 100000 ;;
  tx_packets <~ randint 500 50000 ;;
  errors <~ randint 0 10 ;;
  active_connections <~ randint 0 1000 ;;
  queue_size <~ randint 0 100 ;;
  threads_active <~ randint 5 200 ;;
  heap_usage_mb <~ randint 100 2048 ;;
  gc_collections <~ randint 0 20 ;;
  gc_time_ms <~ randint 0 500 ;;
  alerts <~ (x <~ random ;;
             if SFltb x PyLit.lit_0_1
             then n <~ randint 0 2 ;;
                  l <~ drepeat (Z.to_nat n) alert ;;
                  dret (JList l)
             else dret (JList [])) ;;
  environment <~ choice environments ;;
  dret [("timestamp", drawn_value "timestamp" drawn);
        ("type", JStr "metric");
        ("host", host);
        ("service", service);
        ("metrics",
         JDict [("cpu",
                 JDict [("usage_percent", cpu_usage);
                        ("load_1m", load_1m);
                        ("load_5m", load_5m);
                        ("load_15m", load_15m)]);
                ("memory",
                 JDict [("usage_percent", mem_usage);
                        ("used_mb", JInt used_mb);
                        ("available_mb", JInt available_mb);
                        ("swap_used_mb", JInt swap_used_mb)]);
                ("disk",
                 JDict [("usage_percent", disk_usage);
                        ("read_iops", JInt read_iops);
                        ("write_iops", JInt write_iops);
                        ("read_throughput_mb", read_throughput_mb);
                        ("write_throughput_mb", write_throughput_mb)]);
                ("network",
                 JDict [("rx_bytes", JInt rx_bytes);
                        ("tx_bytes", JInt tx_bytes);
                        ("rx_packets", JInt rx_packets);
                        ("tx_packets", JInt tx_packets);
                        ("errors", JInt errors)]);
                ("application",
                 JDict [("active_connections", JInt active_connections);
                        ("queue_size", JInt queue_size);
                        ("threads_active", JInt threads_active);
                        ("heap_usage_mb", JInt heap_usage_mb);
                        ("gc_collections", JInt gc_collections);
                        ("gc_time_ms", JInt gc_time_ms)])]);
        ("alerts", alerts);
        ("environment", environment)].

(** *** [generate_security_event] *)
Definition security_draws : Draw Document :=
  timestamp <~ draw_fk (fake_date_time_between "-7d") ;;
  dret [("timestamp", JStr (isoformat timestamp))].

Definition security_fields (drawn : Document) : Draw Document :=
  event_type <~ choice ["login_attempt"; "permission_denied";
                        "suspicious_activity"; "data_access";
                        "config_change"] ;;
  severity <~ choice ["low"; "medium"; "high"; "critical"] ;;
  source_ip <~ draw_fk fake_ipv4 ;;
  user_ident <~ maybe PyLit.lit_0_8
                  (n <~ draw_fk (fake_random_int 1 100000) ;; dret (JInt n)) ;;
  username <~ maybe PyLit.lit_0_8
                (u <~ draw_fk fake_user_name ;; dret (JStr u)) ;;
  role <~ maybe PyLit.lit_0_8 (choice ["admin"; "user"; "guest"; "service"]) ;;
  resource_type <~ choice ["file"; "database"; "api_endpoint";
                           "configuration"] ;;
  path <~ draw_fk fake_file_path ;;
  permissions <~ choice ["read"; "write"; "execute"; "admin"] ;;
  attempted <~ choice ["access"; "modify"; "delete"; "create"; "login"] ;;
  result_value <~ choice ["success"; "failure"; "blocked"] ;;
  details <~ draw_fk fake_sentence ;;
  geo_location <~ maybe PyLit.lit_0_7 geo ;;
  device_info <~ maybe PyLit.lit_0_6
                   (user_agent <~ choice user_agents ;;
                    device_type <~ choice ["desktop"; "mobile"; "tablet";
                                           "server"] ;;
                    os <~ choice ["Windows"; "macOS"; "Linux"; "iOS";
                                  "Android"] ;;
                    dret (JDict [("user_agent", user_agent);
                                 ("device_type", device_type);
                                 ("os", os)])) ;;
  risk_score <~ rounded 0 100 1 ;;
  tags <~ words 1 4 ;;
  correlation_id <~ uuid ;;
  dret [("timestamp", drawn_value "timestamp" drawn);
        ("type", JStr "security");
        ("event_type", event_type);
        ("severity", severity);
        ("source_ip", JStr source_ip);
        ("user",
         JDict [("id", user_ident); ("username", username); ("role", role)]);
        ("resource",
         JDict [("type", resource_type); ("path", JStr path);
                ("permissions", permissions)]);
        ("action",
         JDict [("attempted", attempted); ("result", result_value);
                ("details", JStr details)]);
        ("geo_location", geo_location);
        ("device_info", device_info);
        ("risk_score", risk_score);
        ("tags", tags);
        ("correlation_id", JStr (substring 0 8 correlation_id))].

(** The four templates as the shapes of the log entries; the shapes of
    the documents stay those of [base]. *)
Definition shapes (base : Shapes) : Shapes := {|
  doc_small_rest := doc_small_rest;
  doc_medium_rest := doc_medium_rest;
  doc_large_rest := doc_large_rest;
  doc_huge_rest := doc_huge_rest;
  perf_medium_rest := perf_medium_rest;
  perf_large_rest := perf_large_rest;
  perf_huge_rest := perf_huge_rest;
  log_draws := fun k =>
    match k with
    | log_app => application_log_draws
    | log_access => access_log_draws
    | log_metric => metric_draws
    | log_security => security_draws
    end;
  log_fields := fun k =>
    match k with
    | log_app => application_log_fields
    | log_access => access_log_fields
    | log_metric => metric_fields
    | log_security => security_fields
    end
|}.

End Defs.
End LogTemplates.

(** * The vocabulary of the properties *)

(** ** Reasoning about [Gen]

    [ensures m a P Q]: run from [a], [m] returns a value and a state that
    satisfy [P], or raises an exception that satisfies [Q]. *)
Definition ensures {RT : Runtime} {A : Type} (m : Gen A) (a : Ambient)
  (P : A -> Ambient -> Prop) (Q : exn -> Ambient -> Prop) : Prop :=
  match m a with
  | (Ok x, a') => P x a'
  | (Raise e, a') => Q e a'
  end.

(** The exception postcondition of a computation that cannot raise. *)
Definition no_raise {RT : Runtime} : exn -> Ambient -> Prop :=
  fun _ _ => False.

(** The documents a generation step hands over; none when it raised. *)
Definition documents_of {RT : Runtime}
  (r : result (list Document) * Ambient) : list Document :=
  match fst r with
  | Ok documents => documents
  | Raise _ => []
  end.


(** The identifier a tier gives to its [n]-th document. *)
Definition tier_key_id (k : tier * Z) : option string :=
  Some (fmt_id (tier_name (fst k)) (snd k)).

(** ** The plan a request realises

    A block is a tier, the first number it uses and how many documents it
    gets; its keys are the (tier, number) pairs behind the identifiers. *)
Definition block_keys (b : tier * Z * Z) : list (tier * Z) :=
  let '(t, start, n) := b in map (fun i => (t, start + i)) (range n).

Definition keys_of (blocks : list (tier * Z * Z)) : list (tier * Z) :=
  flat_map block_keys blocks.


(** How many documents the batch loop of a tier produces. *)
Definition quota (count batch_size : Z) : Z :=
  if 0 <? batch_size then Z.max 0 count else 0.

(** The loop appended the block of [n] documents numbered from the
    current identifier. *)
Definition appended (t : tier) (n : Z) (st st' : list Document * Z) : Prop :=
  exists new,
    fst st' = (fst st ++ new)%list /\
    snd st' = snd st + n /\
    map doc_id new = map tier_key_id (block_keys (t, snd st, n)).

(** The blocks a distribution yields, numbered from [start] on. *)
Fixpoint plan_blocks (distribution : list (tier * Z)) (batch_size start : Z)
  : list (tier * Z * Z) :=
  match distribution with
  | [] => []
  | (t, count) :: rest =>
      (t, start, quota count batch_size)
        :: plan_blocks rest batch_size (start + quota count batch_size)
  end.

(** The blocks of a request to the performance generator. *)
Definition planned (total_count : Z) (doc_type : selector) (batch_size : Z)
  : result (list (tier * Z * Z)) :=
  match doc_type with
  | Tier t => Ok [(t, 0, quota total_count batch_size)]
  | Mixed =>
      match PerformanceGen.type_distribution total_count with
      | Ok distribution => Ok (plan_blocks distribution batch_size 0)
      | Raise e => Raise e
      end
  end.

Definition is_flush (ev : io_event) : bool :=
  match ev with
  | EvFlush => true
  | _ => false
  end.

(** How many times [flush] was called. *)
Definition flush_count (tr : list io_event) : Z := len (filter is_flush tr).

(** The longest run of writes with no flush or close between them,
    [cur] writes being pending at the start. *)
Fixpoint unflushed_run (tr : list io_event) (cur : Z) : Z :=
  match tr with
  | [] => cur
  | EvWrite _ :: tr' => unflushed_run tr' (cur + 1)
  | _ :: tr' => Z.max cur (unflushed_run tr' 0)
  end.

Definition longest_unflushed (tr : list io_event) : Z := unflushed_run tr 0.

(** [s.split('\n')] *)
Fixpoint split_lines (s : string) : list string :=
  match s with
  | EmptyString => [EmptyString]
  | String c s' =>
      if Ascii.eqb c "010"%char then EmptyString :: split_lines s'
      else match split_lines s' with
           | seg :: segs => String c seg :: segs
           | [] => [String c EmptyString]
           end
  end.

(** The lines of a file: the segments before each line feed. *)
Definition file_lines (s : string) : list string := removelast (split_lines s).

(** A document and its line feed, one after the other. *)
Fixpoint ndjson_text {RT : Runtime} (documents : list Document) : string :=
  match documents with
  | [] => EmptyString
  | d :: rest => (json_dumps d ++ newline) ++ ndjson_text rest
  end.

(** [s.startswith(p)] *)
Fixpoint starts_with (p s : string) : bool :=
  match p with
  | EmptyString => true
  | String a p' =>
      match s with
      | EmptyString => false
      | String b s' => Ascii.eqb a b && starts_with p' s'
      end
  end.






(** ** A reader

    [json.loads] on the text [json.dumps] writes: the literals, numbers,
    strings with their escapes, lists and dictionaries with the default
    separators.  A number with a fraction or an exponent is handed to
    [float], the parameter of the reader; a key read twice keeps its
    first place and its last value, as in a [dict]. *)
Module Reader.

Definition is_digit (c : ascii) : bool :=
  let n := N_of_ascii c in (N.leb 48 n && N.leb n 57)%bool.

(** The characters of the text of a number, and those of an [int]. *)
Definition number_char (c : ascii) : bool :=
  (is_digit c || Ascii.eqb c "-" || Ascii.eqb c "+" || Ascii.eqb c "."
   || Ascii.eqb c "e" || Ascii.eqb c "E")%bool.

Definition int_char (c : ascii) : bool :=
  (is_digit c || Ascii.eqb c "-")%bool.

Fixpoint all_chars (p : ascii -> bool) (s : string) : bool :=
  match s with
  | EmptyString => true
  | String c s' => p c && all_chars p s'
  end.

(** The longest text of a number at the front of a string. *)
Fixpoint take_number (s : string) : string * string :=
  match s with
  | EmptyString => (EmptyString, EmptyString)
  | String c s' =>
      if number_char c
      then let (text, rest) := take_number s' in (String c text, rest)
      else (EmptyString, s)
  end.

(** [s[n:]] *)
Fixpoint skip (n : nat) (s : string) : string :=
  match n, s with
  | S n', String _ s' => skip n' s'
  | _, _ => s
  end.

Definition hex_value (c : ascii) : option N :=
  let n := N_of_ascii c in
  if (N.leb 48 n && N.leb n 57)%bool then Some (n - 48)%N
  else if (N.leb 97 n && N.leb n 102)%bool then Some (n - 87)%N
  else None.

(** The characters of a string literal, after its opening quote. *)
Fixpoint parse_chars (s : string) : option (string * string) :=
  match s with
  | EmptyString => None
  | String c s' =>
      if Ascii.eqb c "034"%char then Some (EmptyString, s')
      else if Ascii.eqb c "\"%char then
        match s' with
        | String e s'' =>
            let simple (x : ascii) :=
              match parse_chars s'' with
              | Some (t, rest) => Some (String x t, rest)
              | None => None
              end in
            if Ascii.eqb e "034"%char then simple "034"%char
            else if Ascii.eqb e "\"%char then simple "\"%char
            else if Ascii.eqb e "b"%char then simple "008"%char
            else if Ascii.eqb e "f"%char then simple "012"%char
            else if Ascii.eqb e "n"%char then simple "010"%char
            else if Ascii.eqb e "r"%char then simple "013"%char
            else if Ascii.eqb e "t"%char then simple "009"%char
            else if Ascii.eqb e "u"%char then
              match s'' with
              | String "0" (String "0" (String h (String l s3))) =>
                  match hex_value h, hex_value l, parse_chars s3 with
                  | Some hv, Some lv, Some (t, rest) =>
                      Some (String (ascii_of_N (16 * hv + lv)) t, rest)
                  | _, _, _ => None
                  end
              | _ => None
              end
            else None
        | EmptyString => None
        end
      else match parse_chars s' with
           | Some (t, rest) => Some (String c t, rest)
           | None => None
           end
  end.

(** The [dict] of the members read, in the order read. *)
Definition dict_of (members : list (string * json)) : Document :=
  fold_left (fun d kv => dict_set (fst kv) (snd kv) d) members [].

Section WithFloat.
Variable float_of_string : string -> option spec_float.

(** A number: an [int] when its text has no fraction and no exponent, a
    float otherwise; a lone minus sign opens [-Infinity]. *)
Definition parse_number (s : string) : option (json * string) :=
  let (text, rest) := take_number s in
  if all_chars int_char text then
    match NilZero.int_of_string text with
    | Some d => Some (JInt (Z.of_int d), rest)
    | None =>
        if (String.eqb text "-" && starts_with "Infinity" rest)%bool
        then Some (JFloat (S754_infinity true), skip 8 rest)
        else None
    end
  else
    match float_of_string text with
    | Some x => Some (JFloat x, rest)
    | None => None
    end.

Fixpoint parse_value (fuel : nat) (s : string) : option (json * string) :=
  match fuel with
  | O => None
  | S fuel' =>
      match s with
      | EmptyString => None
      | String c s' =>
          if Ascii.eqb c "034"%char then
            match parse_chars s' with
            | Some (t, rest) => Some (JStr t, rest)
            | None => None
            end
          else if Ascii.eqb c "["%char then
            if starts_with "]" s' then Some (JList [], skip 1 s')
            else match parse_items fuel' s' with
                 | Some (vs, rest) => Some (JList vs, rest)
                 | None => None
                 end
          else if Ascii.eqb c "{"%char then
            if starts_with "}" s' then Some (JDict [], skip 1 s')
            else match parse_members fuel' s' with
                 | Some (kvs, rest) => Some (JDict (dict_of kvs), rest)
                 | None => None
                 end
          else if starts_with "null" s then Some (JNull, skip 4 s)
          else if starts_with "true" s then Some (JBool true, skip 4 s)
          else if starts_with "false" s then Some (JBool false, skip 5 s)
          else if starts_with "NaN" s then Some (JFloat S754_nan, skip 3 s)
          else if starts_with "Infinity" s
               then Some (JFloat (S754_infinity false), skip 8 s)
          else parse_number s
      end
  end
with parse_items (fuel : nat) (s : string) : option (list json * string) :=
  match fuel with
  | O => None
  | S fuel' =>
      match parse_value fuel' s with
      | Some (v, rest) =>
          if starts_with ", " rest then
            match parse_items fuel' (skip 2 rest) with
            | Some (vs, rest') => Some (v :: vs, rest')
            | None => None
            end
          else if starts_with "]" rest then Some ([v], skip 1 rest)
          else None
      | None => None
      end
  end
with parse_members (fuel : nat) (s : string)
  : option (list (string * json) * string) :=
  match fuel with
  | O => None
  | S fuel' =>
      if starts_with (String "034"%char EmptyString) s then
        match parse_chars (skip 1 s) with
        | Some (k, rest) =>
            if starts_with ": " rest then
              match parse_value fuel' (skip 2 rest) with
              | Some (v, rest') =>
                  if starts_with ", " rest' then
                    match parse_members fuel' (skip 2 rest') with
                    | Some (kvs, rest'') => Some ((k, v) :: kvs, rest'')
                    | None => None
                    end
                  else if starts_with "}" rest' then Some ([(k, v)], skip 1 rest')
                  else None
              | None => None
              end
            else None
        | None => None
        end
      else None
  end.

(** [json.loads] *)
Definition loads (s : string) : option json :=
  match parse_value (S (String.length s)) s with
  | Some (v, EmptyString) => Some v
  | _ => None
  end.

End WithFloat.
End Reader.

(** ** The values of Python among the values of the model *)

(** The floats of a value. *)
Fixpoint floats_of (v : json) : list spec_float :=
  match v with
  | JFloat x => [x]
  | JList l => flat_map floats_of l
  | JDict d => flat_map (fun kv => floats_of (snd kv)) d
  | _ => []
  end.

(** What [json.dumps] writes for a float and [float] reads back: one of
    three constants for a value that is not finite, and otherwise the
    text of a number with a fraction or an exponent, from which [float]
    recovers the value. *)
Definition float_text {RT : Runtime}
  (float_of_string : string -> option spec_float) (x : spec_float) : Prop :=
  match x with
  | S754_nan => float_repr x = "NaN"
  | S754_infinity s => float_repr x = if s then "-Infinity" else "Infinity"
  | _ =>
      Reader.all_chars Reader.number_char (float_repr x) = true /\
      Reader.all_chars Reader.int_char (float_repr x) = false /\
      float_of_string (float_repr x) = Some x
  end.

Fixpoint distinct (keys : list string) : bool :=
  match keys with
  | [] => true
  | k :: keys' => negb (existsb (String.eqb k) keys') && distinct keys'
  end.

(** The keys of every [dict] of a value are distinct. *)
Fixpoint distinct_keys (v : json) : bool :=
  match v with
  | JList l => forallb distinct_keys l
  | JDict d =>
      distinct (map fst d) && forallb (fun kv => distinct_keys (snd kv)) d
  | _ => true
  end.

(** The fuel that reads a value. *)
Fixpoint size (v : json) : nat :=
  match v with
  | JList l => S (list_sum (map (fun x => S (size x)) l))
  | JDict d => S (list_sum (map (fun kv => S (size (snd kv))) d))
  | _ => 1
  end.

(** A text after which a number ends. *)
Definition delimited (rest : string) : bool :=
  match rest with
  | EmptyString => true
  | String c _ => negb (Reader.number_char c)
  end.


(** ** Rounding, allocation and sizes *)

Definition ulp : Q := 1 # 4503599627370496.

Definition weight (mw : positive) (ew : Z) : Q :=
  (inject_Z (Zpos mw) * 2 ^ ew)%Q.

Definition neg_result (r : result Z) : result Z :=
  match r with
  | Ok c => Ok (- c)
  | Raise e => Raise e
  end.

(** Counts that all have the sign of the total. *)
Definition same_sign (n : Z) (cs : list Z) : Prop :=
  (0 <= n -> Forall (fun c => 0 <= c) cs) /\
  (n <= 0 -> Forall (fun c => c <= 0) cs).

(** The identifiers of [count] log entries of one kind. *)
Definition kind_ids (k : log_kind) (count : Z) : list (option string) :=
  map (fun i => Some (fmt_id (LogsGenerator.kind_name k) i)) (range count).

(** [sum(len(json.dumps(doc).encode('utf-8')) for doc in documents)] *)
Definition serialised_size {RT : Runtime} (documents : list Document) : Z :=
  fold_right Z.add 0
    (map (fun doc => Z.of_nat (String.length (json_dumps doc))) documents).

(** The trace of a file written for an empty corpus. *)
Definition empty_file (fmt : format) : list io_event :=
  match fmt with
  | Ndjson => [EvOpen; EvClose]
  | Json => [EvOpen; EvWrite "[]"; EvClose]
  end.

(** [m] and then [k] on its value, written on the outcome of [m]. *)
Definition and_then {RT : Runtime} {A B : Type}
  (r : result A * Ambient) (k : A -> Gen B) : result B * Ambient :=
  match r with
  | (Ok x, a) => k x a
  | (Raise e, a) => (Raise e, a)
  end.

(** The documents of a tier and the next identifier, generated in one
    pass. *)
Definition one_pass {RT : Runtime} {SH : Shapes}
  (self : PerformanceGenerator) (t : tier) (count : Z)
  (st : list Document * Z) : Gen (list Document * Z) :=
  fun a =>
    and_then (PerformanceGen.generate_batch self t (snd st) count a)
      (fun d => ret ((fst st ++ d)%list, snd st + Z.max 0 count)).

(** The keys of a time-series document built on the small template. *)
Definition time_series_keys : list string :=
  ["id"; "timestamp"; "level"; "service"; "message"; "user_id"; "session";
   "duration"; "status"; "sequence_id"; "time_bucket"; "metrics"].

(** What the loop of [generate_time_series_data] makes of the [i]-th
    document. *)
Definition series_point {RT : Runtime} (start_time : Z) (t : tier) (i : Z)
  (d : Document) : Prop :=
  let timestamp := start_time + PerformanceGen.microseconds (i * 60) in
  doc_id d = Some (fmt_id "ts" i) /\
  dict_get "timestamp" d = Some (JStr (isoformat timestamp)) /\
  dict_get "sequence_id" d = Some (JInt i) /\
  dict_get "time_bucket" d = Some (JStr (strftime_hour timestamp)) /\
  (exists value trend anomaly_score,
      dict_get "metrics" d
      = Some (JDict [("value", JFloat value); ("trend", trend);
                     ("anomaly_score", JFloat anomaly_score)])) /\
  (t = small -> map fst d = time_series_keys).

(** ** White space in JSON text *)

(** Where a reader of JSON text stands: between tokens, in a string
    literal, or just after a backslash in one. *)
Inductive lex_state : Type := Outside | Inside | Escaped.

Definition lex_step (st : lex_state) (c : ascii) : lex_state :=
  match st with
  | Outside => if Ascii.eqb c "034"%char then Inside else Outside
  | Inside =>
      if Ascii.eqb c "\"%char then Escaped
      else if Ascii.eqb c "034"%char then Outside
      else Inside
  | Escaped => Inside
  end.

(** The white space JSON allows between tokens. *)
Definition is_blank (c : ascii) : bool :=
  (Ascii.eqb c " "%char || Ascii.eqb c "010"%char
   || Ascii.eqb c "013"%char || Ascii.eqb c "009"%char)%bool.

(** A text without the white space between its tokens. *)
Fixpoint squeeze (st : lex_state) (s : string) : string :=
  match s with
  | EmptyString => EmptyString
  | String c s' =>
      let rest := squeeze (lex_step st c) s' in
      match st with
      | Outside => if is_blank c then rest else String c rest
      | _ => String c rest
      end
  end.

(** A string with no white space and no quote in it. *)
Fixpoint token (s : string) : bool :=
  match s with
  | EmptyString => true
  | String c s' =>
      (negb (is_blank c) && negb (Ascii.eqb c "034"%char) && token s')%bool
  end.

Fixpoint blank (s : string) : bool :=
  match s with
  | EmptyString => true
  | String c s' => (is_blank c && blank s')%bool
  end.

(** [json.dumps(v, separators=(',', ':'))]: the serialisation with no
    white space between tokens. *)
Fixpoint dumps_compact {RT : Runtime} (v : json) : string :=
  match v with
  | JList l => "[" ++ join "," (map dumps_compact l) ++ "]"
  | JDict d =>
      "{" ++ join ","
               (map (fun kv => let '(k, x) := kv in
                               encode_str k ++ ":" ++ dumps_compact x) d)
          ++ "}"
  | _ => dumps v
  end.

(** ** The report of the log types

    The loop of [main] in [logs_generator.py] that counts the entries by
    their [type]; an entry without the key counts as [application]. *)

(** [log.get('type', 'application')] *)
Definition log_type_of (log : Document) : json :=
  match dict_get "type" log with
  | Some v => v
  | None => JStr "application"
  end.

(** [type_counts.get(k, 0)] and [type_counts[k] = n] on a [dict] from
    [str] to [int]. *)
Fixpoint count_get (k : string) (type_counts : list (string * Z)) : Z :=
  match type_counts with
  | [] => 0
  | (k', n) :: rest => if String.eqb k k' then n else count_get k rest
  end.

Fixpoint count_set (k : string) (n : Z) (type_counts : list (string * Z))
  : list (string * Z) :=
  match type_counts with
  | [] => [(k, n)]
  | (k', n') :: rest =>
      if String.eqb k k' then (k', n) :: rest
      else (k', n') :: count_set k n rest
  end.

(** One turn of the loop; the types the templates write are [str], and
    [None] stands for a type that is not. *)
Definition count_log (type_counts : option (list (string * Z)))
  (log : Document) : option (list (string * Z)) :=
  match type_counts, log_type_of log with
  | Some counts, JStr log_type =>
      Some (count_set log_type (count_get log_type counts + 1) counts)
  | _, _ => None
  end.

Definition type_counts (logs : list Document)
  : option (list (string * Z)) :=
  fold_left count_log logs (Some []).

(** The [type] an entry of a family is counted under. *)
Definition type_name (k : log_kind) : string :=
  match k with
  | log_app => "application"
  | log_access => "access"
  | log_metric => "metric"
  | log_security => "security"
  end.

(** The number of [logs] counted under [k]. *)
Definition logs_of_type (k : string) (logs : list Document) : Z :=
  len (filter (fun log => is_str k (log_type_of log)) logs).

(** The keys of an application log. *)
Definition application_log_keys : list string :=
  ["id"; "timestamp"; "level"; "message"; "service"; "host"; "environment";
   "thread"; "logger"; "correlation_id"; "session_id"; "user_id";
   "request_id"; "duration_ms"; "memory_usage"; "exception"; "tags";
   "metadata"].

(** The opening of the message of a level. *)
Definition message_prefix (level : json) : string :=
  if is_str "ERROR" level then "Error processing request: "
  else if is_str "WARN" level then "Warning: "
  else if is_str "INFO" level then "Successfully processed: "
  else if is_str "DEBUG" level then "Debug info: "
  else "Critical system failure: ".

(** * Properties *)

(** ** Numerals and a sample runtime *)

(** Decimal numerals are one line. *)
Lemma one_line_app (a b : string) :
  one_line (a ++ b) = one_line a && one_line b.
Proof.
  induction a as [|c a IH]; simpl; [reflexivity|].
  rewrite IH. apply andb_assoc.
Qed.

Lemma uint_one_line (d : Decimal.uint) :
  one_line (NilEmpty.string_of_uint d) = true.
Proof. induction d; simpl; auto. Qed.

Lemma str_of_int_one_line (z : Z) : one_line (str_of_int z) = true.
Proof.
  unfold str_of_int, NilZero.string_of_int, NilZero.string_of_uint.
  destruct (Z.to_int z) as [d|d]; destruct d; simpl; auto using uint_one_line.
Qed.

(** ** A sample runtime

    A small deterministic implementation of the interface, on which runs
    can be evaluated: linear congruential draws, a counter for [fake], a
    clock that ticks at every reading, a shuffle that reverses. *)
Module Sample.

Definition next (s : Z) : Z := (s * 1103515245 + 12345) mod 2147483648.

Definition choice (l : list json) (r : Z) : json * Z :=
  (nth (Z.to_nat (r mod len l)) l JNull, next r).

Definition randint (a b r : Z) : Z * Z := (a + r mod (b - a + 1), next r).

Definition uniform (a b r : Z) : spec_float * Z :=
  (binary_normalize PyFloat.prec PyFloat.emax (a + r mod (b - a + 1)) 0 false,
   next r).

Definition shuffle (l : list Document) (r : Z) : list Document * Z :=
  (rev l, next r).

Definition numbered (prefix : string) (k : Z) : string * Z :=
  (prefix ++ str_of_int k, k + 1).

Definition uuid4 (k : Z) : string * Z :=
  (str_of_int (10000000 + k mod 10000000) ++ "-0000-4000-8000-000000000000",
   k + 1).

Definition repr (x : spec_float) : string :=
  match x with
  | S754_zero false => "0.0"
  | S754_zero true => "-0.0"
  | S754_infinity false => "Infinity"
  | S754_infinity true => "-Infinity"
  | S754_nan => "NaN"
  | S754_finite s m e =>
      (if s then "-" else "") ++ str_of_int (Zpos m) ++ "e" ++ str_of_int e
  end.

Lemma repr_one_line (x : spec_float) : one_line (repr x) = true.
Proof.
  destruct x as [[]|[]| |s m e]; try reflexivity.
  unfold repr. rewrite !one_line_app, !str_of_int_one_line.
  destruct s; reflexivity.
Qed.

#[export] Instance runtime : Runtime := {|
  Rnd := Z;
  Fk := Z;
  Env := Z;
  random_seed := fun s => Z.abs s;
  fake_seed_instance := fun s => 7 * s + 1;
  random_choice := choice;
  random_randint := randint;
  random_uniform := uniform;
  random_shuffle := shuffle;
  fake_word := numbered "word";
  fake_sentence := numbered "Sentence number ";
  fake_paragraph := numbered "Paragraph number ";
  fake_name := numbered "Name ";
  fake_company := numbered "Company ";
  fake_uuid4 := uuid4;
  datetime_now := fun e => (e, e + 1);
  uuid_uuid4 := uuid4;
  isoformat := fun t => "T+" ++ str_of_int t;
  strftime_hour := fun t => "H+" ++ str_of_int (t / 3600000000);
  float_repr := repr;
  random_shuffle_perm := fun l r => Permutation_sym (Permutation_rev l);
  float_repr_one_line := repr_one_line
|}.

(** Shapes with one field after [id], drawn from [random]. *)
Definition rest (label : string) (a : Ambient) : Document * Ambient :=
  ([("shape", JStr label); ("draw", JInt (rnd a mod 100))],
   mkAmbient runtime (next (rnd a)) (fk a) (env a)).

#[export] Instance shapes : Shapes := {|
  doc_small_rest := rest "small";
  doc_medium_rest := rest "medium";
  doc_large_rest := rest "large";
  doc_huge_rest := rest "huge";
  perf_medium_rest := fun _ => rest "medium";
  perf_large_rest := fun _ => rest "large";
  perf_huge_rest := fun _ => rest "huge";
  log_draws := fun _ a =>
    ([("level", JInt (rnd a mod 5))],
     mkAmbient runtime (next (rnd a)) (fk a) (env a));
  log_fields := fun _ drawn a => (drawn, a)
|}.

Definition world (r k e : Z) : Ambient := mkAmbient runtime r k e.

End Sample.

(** A clock that advances at every reading. *)
Module SampleTimer.

Definition env_state : Type := @Env Sample.runtime.

Definition ticking (e : env_state) : spec_float * env_state :=
  (binary_normalize PyFloat.prec PyFloat.emax e 0 false, e + 1).

#[export] Instance timer : @Timer Sample.runtime := {|
  time_time := ticking
|}.

End SampleTimer.

(** [float] on the texts of [Sample.repr]. *)
Module SampleFloat.

(** The text before the first [e] and the text after it. *)
Fixpoint split_exponent (s : string) : string * string :=
  match s with
  | EmptyString => (EmptyString, EmptyString)
  | String c s' =>
      if Ascii.eqb c "e" then (EmptyString, s')
      else let (mantissa, exponent) := split_exponent s' in
           (String c mantissa, exponent)
  end.

Definition float_of_string (s : string) : option spec_float :=
  if String.eqb s "0.0" then Some (S754_zero false)
  else if String.eqb s "-0.0" then Some (S754_zero true)
  else
    let negative := starts_with "-" s in
    let (mantissa, exponent) :=
      split_exponent (if negative then Reader.skip 1 s else s) in
    match NilZero.int_of_string mantissa,
          NilZero.int_of_string exponent with
    | Some m, Some e =>
        match Z.of_int m with
        | Zpos p => Some (S754_finite negative p (Z.of_int e))
        | _ => None
        end
    | _, _ => None
    end.

End SampleFloat.

(** A runtime for the draws of the log templates, over [Sample]. *)
Module SampleLog.

Definition rnd_state : Type := @Rnd Sample.runtime.
Definition fk_state : Type := @Fk Sample.runtime.

Definition unit_draw (r : rnd_state) : spec_float * rnd_state :=
  (S754_finite false 4503599627370496 (-53 - r mod 4), Sample.next r).

Definition moment (start_date : string) (k : fk_state) : Z * fk_state :=
  (k, k + 1).

Definition random_int (lo hi : Z) (k : fk_state) : Z * fk_state :=
  (lo + k mod (hi - lo + 1), k + 1).

Definition numbered (prefix : string) (k : fk_state) : string * fk_state :=
  Sample.numbered prefix k.

Definition coordinate (k : fk_state) : spec_float * fk_state :=
  (binary_normalize PyFloat.prec PyFloat.emax (k mod 90) 0 false, k + 1).

#[export] Instance log_runtime : @LogRuntime Sample.runtime := {|
  random_random := unit_draw;
  fake_date_time_between := moment;
  fake_random_int := random_int;
  fake_country_code := numbered "C";
  fake_ipv4 := numbered "10.0.0.";
  fake_user_name := numbered "user";
  fake_uri_path := numbered "path/";
  fake_url := numbered "http://host/";
  fake_city := numbered "City ";
  fake_domain_name := numbered "domain";
  fake_file_path := numbered "/file/";
  fake_latitude := coordinate;
  fake_longitude := coordinate;
  py_round := fun x _ => x
|}.

End SampleLog.

Section GenLemmas.
Context {RT : Runtime}.

Lemma ensures_ret {A} (x : A) a (P : A -> Ambient -> Prop) Q :
  P x a -> ensures (ret x) a P Q.
Proof. intro H. exact H. Qed.

Lemma ensures_bind {A B} (m : Gen A) (f : A -> Gen B) a
  (P : B -> Ambient -> Prop) Q :
  ensures m a (fun x a' => ensures (f x) a' P Q) Q ->
  ensures (bind m f) a P Q.
Proof.
  unfold ensures, bind. destruct (m a) as [[x|e] a']; auto.
Qed.

Lemma ensures_weaken {A} (m : Gen A) a (P P' : A -> Ambient -> Prop)
  (Q Q' : exn -> Ambient -> Prop) :
  ensures m a P Q ->
  (forall x a', P x a' -> P' x a') ->
  (forall e a', Q e a' -> Q' e a') ->
  ensures m a P' Q'.
Proof.
  unfold ensures. destruct (m a) as [[x|e] a']; auto.
Qed.

Lemma ensures_total {A} (f : Ambient -> A * Ambient) a
  (P : A -> Ambient -> Prop) Q :
  P (fst (f a)) (snd (f a)) -> ensures (total f) a P Q.
Proof.
  unfold ensures, total. destruct (f a); auto.
Qed.

Lemma ensures_on_rnd {A} (f : Rnd -> A * Rnd) a
  (P : A -> Ambient -> Prop) Q :
  P (fst (f (rnd a))) (mkAmbient RT (snd (f (rnd a))) (fk a) (env a)) ->
  ensures (on_rnd f) a P Q.
Proof.
  unfold ensures, on_rnd. destruct (f (rnd a)); auto.
Qed.

Lemma ensures_on_fk {A} (f : Fk -> A * Fk) a
  (P : A -> Ambient -> Prop) Q :
  P (fst (f (fk a))) (mkAmbient RT (rnd a) (snd (f (fk a))) (env a)) ->
  ensures (on_fk f) a P Q.
Proof.
  unfold ensures, on_fk. destruct (f (fk a)); auto.
Qed.

Lemma ensures_on_env {A} (f : Env -> A * Env) a
  (P : A -> Ambient -> Prop) Q :
  P (fst (f (env a))) (mkAmbient RT (rnd a) (fk a) (snd (f (env a)))) ->
  ensures (on_env f) a P Q.
Proof.
  unfold ensures, on_env. destruct (f (env a)); auto.
Qed.

Lemma ensures_lift_result {A} (r : result A) a
  (P : A -> Ambient -> Prop) (Q : exn -> Ambient -> Prop) :
  match r with Ok x => P x a | Raise e => Q e a end ->
  ensures (lift_result r) a P Q.
Proof. unfold ensures, lift_result. destruct r; auto. Qed.

(** A comprehension whose body cannot raise relates every element to
    the value built from it. *)
Lemma ensures_mapM {A B} (f : A -> Gen B) (R : A -> B -> Prop) Q xs :
  (forall x a, In x xs -> ensures (f x) a (fun y _ => R x y) Q) ->
  forall a, ensures (mapM f xs) a (fun ys _ => Forall2 R xs ys) Q.
Proof.
  intros Hf. induction xs as [|x xs IH]; intro a; simpl.
  - apply ensures_ret. constructor.
  - apply ensures_bind.
    eapply ensures_weaken; [apply Hf; left; reflexivity| |auto].
    intros y a1 Hy. apply ensures_bind.
    eapply ensures_weaken;
      [apply IH; intros; apply Hf; right; assumption| |auto].
    intros ys a2 Hys. apply ensures_ret. constructor; assumption.
Qed.

(** A loop with an invariant on its local variables. *)
Lemma ensures_foldM {A S} (f : S -> A -> Gen S) (I : S -> Prop) Q xs :
  (forall s x a, In x xs -> I s -> ensures (f s x) a (fun s' _ => I s') Q) ->
  forall s a, I s -> ensures (foldM f s xs) a (fun s' _ => I s') Q.
Proof.
  intro Hf. induction xs as [|x xs IH]; intros s a Hs; simpl.
  - apply ensures_ret. assumption.
  - apply ensures_bind.
    eapply ensures_weaken; [apply Hf; [left; reflexivity|assumption]| |auto].
    intros s' a' Hs'. apply IH; [|assumption].
    intros; apply Hf; [right|]; assumption.
Qed.

End GenLemmas.

(** ** Strings and identifiers *)

Lemma append_inv_head (p x y : string) : p ++ x = p ++ y -> x = y.
Proof.
  induction p as [|c p IH]; simpl; intro H; [assumption|].
  injection H as H. auto.
Qed.

Lemma append_length (x y : string) :
  String.length (x ++ y) = (String.length x + String.length y)%nat.
Proof. induction x as [|c x IH]; simpl; [reflexivity|]. now rewrite IH. Qed.


Lemma append_assoc (x y z : string) : (x ++ y) ++ z = x ++ (y ++ z).
Proof. induction x as [|c x IH]; simpl; [reflexivity|]. now rewrite IH. Qed.


(** [str] is injective on integers. *)
Lemma str_of_int_inj (a b : Z) : str_of_int a = str_of_int b -> a = b.
Proof.
  unfold str_of_int. intro H.
  apply DecimalZ.to_int_inj.
  assert (Hn : forall z, Z.to_int z <> Decimal.Pos Decimal.Nil
                         /\ Z.to_int z <> Decimal.Neg Decimal.Nil).
  { intros [|p|p]; simpl; split; try discriminate;
      intro E; injection E as E;
      exact (DecimalPos.Unsigned.to_uint_nonnil p E). }
  apply (f_equal NilZero.int_of_string) in H.
  rewrite !NilZero.isi in H by apply Hn.
  now injection H.
Qed.

Lemma fmt_id_inj (prefix : string) (a b : Z) :
  fmt_id prefix a = fmt_id prefix b -> a = b.
Proof.
  unfold fmt_id. intro H.
  apply append_inv_head in H. apply (append_inv_head "_") in H.
  now apply str_of_int_inj.
Qed.


Lemma Forall2_map_eq {A B C} (g : B -> C) (h : A -> C) xs ys :
  Forall2 (fun x y => g y = h x) xs ys -> map g ys = map h xs.
Proof. induction 1; simpl; congruence. Qed.

Lemma range_NoDup (n : Z) : NoDup (range n).
Proof.
  unfold range. apply Finite.Injective_map_NoDup; [|apply seq_NoDup].
  intros x y H. lia.
Qed.

Lemma range_bounds (n i : Z) : In i (range n) -> 0 <= i < n.
Proof.
  unfold range. rewrite in_map_iff. intros [k [<- Hk]].
  apply in_seq in Hk. lia.
Qed.

Lemma NoDup_app_disjoint {A} (l1 l2 : list A) :
  NoDup l1 -> NoDup l2 -> (forall x, In x l1 -> In x l2 -> False) ->
  NoDup (l1 ++ l2).
Proof.
  induction 1 as [|x l1 Hx H1 IH]; simpl; intros H2 Hd; [assumption|].
  constructor.
  - rewrite in_app_iff. intros [H|H]; [contradiction|].
    apply (Hd x); [left; reflexivity|assumption].
  - apply IH; [assumption|]. intros y Hy. apply Hd. right. assumption.
Qed.

(** ** Identifiers of the document generator *)
Section DocumentIds.
Context {RT : Runtime} {SH : Shapes}.

Lemma id_or_uuid_given (prefix : string) (n : Z) (c : ascii) (p : string) :
  prefix = String c p ->
  id_or_uuid (Some (fmt_id prefix n)) = ret (fmt_id prefix n).
Proof. intros ->. reflexivity. Qed.

Lemma doc_with_id_spec (doc_id0 : string) rest a :
  (exists c s, doc_id0 = String c s) ->
  ensures (DocumentGenerator.with_id (Some doc_id0) rest) a
    (fun d _ => doc_id d = Some doc_id0) no_raise.
Proof.
  intros [c [s ->]]. unfold DocumentGenerator.with_id. simpl id_or_uuid.
  apply ensures_bind, ensures_ret, ensures_bind, ensures_total, ensures_ret.
  reflexivity.
Qed.

Lemma tier_name_nonempty (t : tier) (n : Z) :
  exists c s, fmt_id (tier_name t) n = String c s.
Proof. destruct t; unfold fmt_id; simpl; eauto. Qed.

Lemma generate_document_id (t : tier) (n : Z) a :
  ensures (DocumentGenerator.generate_document t
             (Some (fmt_id (tier_name t) n))) a
    (fun d _ => doc_id d = tier_key_id (t, n)) no_raise.
Proof.
  destruct t; apply doc_with_id_spec;
    apply (tier_name_nonempty _ n).
Qed.

Lemma tier_documents_ids (t : tier) (count : Z) a :
  ensures (DocumentGenerator.tier_documents t count) a
    (fun docs _ => map doc_id docs = map tier_key_id (map (pair t) (range count)))
    no_raise.
Proof.
  unfold DocumentGenerator.tier_documents.
  eapply ensures_weaken.
  - apply (ensures_mapM _ (fun i d => doc_id d = tier_key_id (t, i))).
    intros i a0 _. apply generate_document_id.
  - intros docs a' H. simpl in H. rewrite map_map.
    apply Forall2_map_eq. exact H.
  - auto.
Qed.

End DocumentIds.







Lemma range_nonpos (n : Z) : n <= 0 -> range n = [].
Proof.
  intro H. unfold range. destruct n; try reflexivity. lia.
Qed.

Lemma range_succ (n : Z) : 0 <= n -> range (n + 1) = (range n ++ [n])%list.
Proof.
  intro H. unfold range.
  replace (Z.to_nat (n + 1)) with (Z.to_nat n + 1)%nat by lia.
  rewrite seq_app, map_app. simpl. f_equal. f_equal. lia.
Qed.

Lemma range_add (n m : Z) :
  0 <= n -> 0 <= m ->
  range (n + m) = (range n ++ map (Z.add n) (range m))%list.
Proof.
  intros Hn Hm. unfold range.
  replace (Z.to_nat (n + m)) with (Z.to_nat n + Z.to_nat m)%nat by lia.
  rewrite seq_app, map_app. f_equal.
  rewrite map_map.
  assert (G : forall k s, map Z.of_nat (seq (Z.to_nat n + s) k)
              = map (fun x => n + Z.of_nat x) (seq s k)).
  { induction k as [|k IH]; intro s; simpl; [reflexivity|].
    f_equal; [lia|].
    rewrite <- IH. f_equal. f_equal. lia. }
  rewrite <- G. f_equal. f_equal. lia.
Qed.

Lemma block_keys_add (t : tier) (start n m : Z) :
  0 <= n -> 0 <= m ->
  block_keys (t, start, n + m)
  = (block_keys (t, start, n) ++ block_keys (t, start + n, m))%list.
Proof.
  intros Hn Hm. simpl. rewrite range_add by assumption.
  rewrite map_app, map_map. f_equal.
  apply map_ext. intro i. f_equal. lia.
Qed.

Lemma len_app {A} (l1 l2 : list A) : len (l1 ++ l2) = len l1 + len l2.
Proof. unfold len. rewrite length_app. lia. Qed.

Lemma len_range (n : Z) : len (range n) = Z.max 0 n.
Proof. unfold len, range. rewrite length_map, length_seq. lia. Qed.

Lemma len_cons {A} (x : A) (l : list A) : len (x :: l) = 1 + len l.
Proof. unfold len. simpl Datatypes.length. lia. Qed.

Lemma len_map {A B} (f : A -> B) (l : list A) : len (map f l) = len l.
Proof. unfold len. now rewrite length_map. Qed.

(** A loop over [range] whose invariant follows the loop index. *)
Lemma ensures_foldM_seq {RT : Runtime} {S} (f : S -> Z -> Gen S)
  (I : nat -> S -> Prop) Q (n : nat) :
  forall s0,
    (forall k s a, (s0 <= k < s0 + n)%nat -> I k s ->
                   ensures (f s (Z.of_nat k)) a
                     (fun s' _ => I (Datatypes.S k) s') Q) ->
    forall s a, I s0 s ->
      ensures (foldM f s (map Z.of_nat (seq s0 n))) a
        (fun s' _ => I (s0 + n)%nat s') Q.
Proof.
  induction n as [|n IH]; intros s0 Hf s a Hs; simpl.
  - apply ensures_ret. now rewrite Nat.add_0_r.
  - apply ensures_bind.
    eapply ensures_weaken; [apply Hf; [lia|eassumption]| |auto].
    intros s' a' Hs'. simpl in Hs'.
    eapply ensures_weaken; [apply (IH (Datatypes.S s0))| |auto].
    + intros k s1 a1 Hk. apply Hf. lia.
    + exact Hs'.
    + intros s2 a2 H2. simpl in H2.
      now replace (s0 + Datatypes.S n)%nat with (Datatypes.S s0 + n)%nat by lia.
Qed.

(** ** Batches of the performance generator *)
Section PerformanceBatches.
Context {RT : Runtime} {SH : Shapes}.

Lemma batch_template_id self (t : tier) (i : string) a :
  ensures (PerformanceGen.batch_templates self t i) a
    (fun d _ => doc_id d = Some i) no_raise.
Proof.
  destruct t; simpl.
  - unfold PerformanceGen.generate_small_template.
    apply ensures_bind, ensures_on_env.
    apply ensures_bind, ensures_on_rnd.
    apply ensures_bind, ensures_on_rnd.
    apply ensures_bind, ensures_on_rnd.
    apply ensures_bind, ensures_on_rnd.
    apply ensures_bind, ensures_on_fk.
    apply ensures_bind, ensures_on_rnd.
    apply ensures_bind, ensures_on_rnd.
    apply ensures_ret. reflexivity.
  - apply ensures_bind, ensures_total, ensures_ret. reflexivity.
  - apply ensures_bind, ensures_total, ensures_ret. reflexivity.
  - apply ensures_bind, ensures_total, ensures_ret. reflexivity.
Qed.

Lemma generate_batch_ids self (t : tier) (start count : Z) a :
  ensures (PerformanceGen.generate_batch self t start count) a
    (fun docs _ => map doc_id docs = map tier_key_id (block_keys (t, start, count)))
    no_raise.
Proof.
  unfold PerformanceGen.generate_batch.
  eapply ensures_weaken.
  - apply (ensures_mapM _
             (fun i d => doc_id d = tier_key_id (t, start + i))).
    intros i a0 _. apply batch_template_id.
  - intros docs a' H. simpl in H. simpl. rewrite map_map.
    apply Forall2_map_eq. exact H.
  - auto.
Qed.

Lemma appended_nothing t st : appended t 0 st st.
Proof.
  exists []. rewrite app_nil_r, Z.add_0_r. repeat split; reflexivity.
Qed.

Lemma tier_batches_zero self t count st a :
  PerformanceGen.tier_batches self t count 0 st a
  = (Raise ZeroDivisionError, a).
Proof. reflexivity. Qed.

Lemma tier_batches_spec self t count batch_size st a :
  batch_size <> 0 ->
  ensures (PerformanceGen.tier_batches self t count batch_size st) a
    (fun st' _ => appended t (quota count batch_size) st st') no_raise.
Proof.
  intro Hbs. unfold PerformanceGen.tier_batches, floor_div.
  destruct (Z.eqb_spec batch_size 0) as [E|_]; [contradiction|].
  apply ensures_bind, ensures_lift_result.
  unfold quota. destruct (Z.ltb_spec 0 batch_size) as [Hpos|Hneg].
  - (* a positive batch size *)
    set (c := Z.max 0 count).
    set (B := (count + batch_size - 1) / batch_size).
    assert (HB1 : B * batch_size <= count + batch_size - 1).
    { unfold B. rewrite Z.mul_comm. apply Z.mul_div_le. lia. }
    assert (HB2 : count + batch_size - 1 < (B + 1) * batch_size).
    { unfold B. rewrite Z.mul_comm.
      replace ((count + batch_size - 1) / batch_size + 1)
        with (Z.succ ((count + batch_size - 1) / batch_size)) by lia.
      apply Z.mul_succ_div_gt. lia. }
    unfold range.
    eapply ensures_weaken.
    + apply (ensures_foldM_seq _
               (fun k st' => appended t (Z.min (Z.of_nat k * batch_size) c)
                                      st st') no_raise).
      * intros k [docs cur] a0 Hk [new [H1 [H2 H3]]]. simpl in H1, H2.
        assert (Hlt : Z.of_nat k * batch_size < count) by nia.
        assert (Hc : c = count) by (unfold c; nia).
        assert (Hstep : Z.min (Z.of_nat (Datatypes.S k) * batch_size) c
                        = Z.min (Z.of_nat k * batch_size) c
                          + Z.min batch_size
                              (count - Z.of_nat k * batch_size)).
        { rewrite Nat2Z.inj_succ, Hc.
          replace (Z.succ (Z.of_nat k) * batch_size)
            with (Z.of_nat k * batch_size + batch_size) by ring.
          lia. }
        destruct (Z.ltb_spec 0
                    (Z.min batch_size (count - Z.of_nat k * batch_size)))
          as [Hb|Hb]; [|lia].
        apply ensures_bind.
        eapply ensures_weaken; [apply generate_batch_ids| |auto].
        intros batch a1 Hbatch. simpl in Hbatch. apply ensures_ret.
        exists (new ++ batch)%list. simpl fst. simpl snd.
        split; [rewrite H1; symmetry; apply app_assoc|].
        split; [rewrite Hstep; lia|].
        rewrite Hstep.
        rewrite block_keys_add by lia.
        rewrite !map_app. f_equal; [exact H3|].
        rewrite Hbatch. subst cur. reflexivity.
      * simpl. replace (Z.min 0 c) with 0 by (unfold c; lia).
        apply appended_nothing.
    + intros st' a' H. simpl in H.
      replace (Z.min (Z.of_nat (Z.to_nat B) * batch_size) c) with c in H;
        [exact H|].
      unfold c. destruct (Z.le_gt_cases B 0); nia.
    + auto.
  - (* a negative batch size: no batch has a positive count *)
    eapply ensures_weaken.
    + apply (ensures_foldM _ (fun st' => st' = st) no_raise); [|reflexivity].
      intros s x a0 _ ->. destruct st as [docs cur].
      destruct (Z.ltb_spec 0 (Z.min batch_size (count - x * batch_size)));
        [lia|].
      apply ensures_ret. reflexivity.
    + intros st' a' ->. apply appended_nothing.
    + auto.
Qed.

End PerformanceBatches.


Lemma type_distribution_tiers total_count distribution :
  PerformanceGen.type_distribution total_count = Ok distribution ->
  map fst distribution = [small; medium; large; huge].
Proof.
  unfold PerformanceGen.type_distribution.
  destruct (PyFloat.int_mul total_count PyFloat.lit_0_4); [|discriminate].
  destruct (PyFloat.int_mul total_count PyFloat.lit_0_35); [|discriminate].
  destruct (PyFloat.int_mul total_count PyFloat.lit_0_2); [|discriminate].
  destruct (PyFloat.int_mul total_count PyFloat.lit_0_05); [|discriminate].
  intro H. injection H as <-. reflexivity.
Qed.



Section PerformancePlan.
Context {RT : Runtime} {SH : Shapes}.

Lemma distribution_loop_spec self batch_size distribution :
  batch_size <> 0 ->
  forall st a,
    ensures
      (foldM (fun st (item : tier * Z) =>
                PerformanceGen.tier_batches self (fst item) (snd item)
                                            batch_size st)
             st distribution) a
      (fun st' _ =>
         exists new,
           fst st' = (fst st ++ new)%list /\
           map doc_id new
           = map tier_key_id
               (keys_of (plan_blocks distribution batch_size (snd st))))
      no_raise.
Proof.
  intro Hbs. induction distribution as [|[t c] rest IH]; intros st a; simpl.
  - apply ensures_ret. exists []. now rewrite app_nil_r.
  - apply ensures_bind.
    eapply ensures_weaken; [apply tier_batches_spec; assumption| |auto].
    intros st1 a1 [new1 [H1 [H2 H3]]].
    eapply ensures_weaken; [apply IH| |auto].
    intros st2 a2 [new2 [H4 H5]]. simpl in *.
    exists (new1 ++ new2)%list. split.
    + rewrite H4, H1. symmetry. apply app_assoc.
    + rewrite !map_app, H3, H5, H2. reflexivity.
Qed.

(** The corpus before the shuffle carries the identifiers of the plan,
    block after block. *)
Lemma mixed_sequential_spec self total_count batch_size a :
  batch_size <> 0 ->
  ensures (PerformanceGen.mixed_sequential self total_count batch_size) a
    (fun docs _ =>
       exists blocks,
         planned total_count Mixed batch_size = Ok blocks /\
         map doc_id docs = map tier_key_id (keys_of blocks))
    (fun e _ => planned total_count Mixed batch_size = Raise e).
Proof.
  intro Hbs. unfold PerformanceGen.mixed_sequential, planned.
  apply ensures_bind, ensures_lift_result.
  destruct (PerformanceGen.type_distribution total_count) as [d|e];
    [|reflexivity].
  apply ensures_bind.
  eapply ensures_weaken;
    [apply distribution_loop_spec; assumption| |intros ? ? []].
  intros st a' [new [H1 H2]]. apply ensures_ret. simpl in *.
  exists (plan_blocks d batch_size 0). split; [reflexivity|].
  now rewrite H1.
Qed.

Lemma generate_performance_dataset_spec self total_count doc_type
  batch_size a :
  batch_size <> 0 ->
  ensures (PerformanceGen.generate_performance_dataset self total_count
             doc_type batch_size) a
    (fun docs _ =>
       exists blocks,
         planned total_count doc_type batch_size = Ok blocks /\
         Permutation (map doc_id docs) (map tier_key_id (keys_of blocks)))
    (fun e _ => planned total_count doc_type batch_size = Raise e).
Proof.
  intro Hbs. destruct doc_type as [t|]; simpl.
  - apply ensures_bind.
    eapply ensures_weaken;
      [apply tier_batches_spec; assumption| |intros ? ? []].
    intros st a' [new [H1 [H2 H3]]]. apply ensures_ret. simpl in *.
    eexists. split; [reflexivity|].
    rewrite H1. simpl. rewrite app_nil_r, H3. apply Permutation_refl.
  - apply ensures_bind.
    eapply ensures_weaken;
      [apply mixed_sequential_spec; assumption| |auto].
    intros docs a' [blocks [H1 H2]]. apply ensures_on_rnd.
    exists blocks. split; [exact H1|].
    rewrite <- H2. apply Permutation_map, random_shuffle_perm.
Qed.

Lemma generate_performance_dataset_zero self total_count doc_type a :
  exists e a',
    PerformanceGen.generate_performance_dataset self total_count doc_type 0 a
    = (Raise e, a').
Proof.
  destruct doc_type as [t|]; simpl.
  - exists ZeroDivisionError, a. reflexivity.
  - unfold PerformanceGen.mixed_sequential, bind, lift_result.
    destruct (PerformanceGen.type_distribution total_count) as [d|e] eqn:E.
    + exists ZeroDivisionError, a.
      pose proof (type_distribution_tiers _ _ E) as Ht.
      destruct d as [|[t c] d]; [discriminate|]. reflexivity.
    + exists e, a. reflexivity.
Qed.

End PerformancePlan.

(** ** Identifiers of whole corpora *)

Lemma dict_get_set_other (q k : string) (v : json) (d : Document) :
  k <> q -> dict_get q (dict_set k v d) = dict_get q d.
Proof.
  intro Hk. induction d as [|[k' v'] d IH]; simpl.
  - destruct (String.eqb_spec q k); [congruence|reflexivity].
  - destruct (String.eqb_spec k k') as [E|E]; simpl.
    + subst k'. destruct (String.eqb_spec q k); [congruence|reflexivity].
    + now rewrite IH.
Qed.

Lemma doc_id_set_other (k : string) (v : json) (d : Document) :
  k <> "id" -> doc_id (dict_set k v d) = doc_id d.
Proof. intro H. unfold doc_id. now rewrite dict_get_set_other. Qed.

Lemma documents_of_ensures {RT : Runtime} (m : Gen (list Document)) a
  (P : list Document -> Ambient -> Prop) (Q : exn -> Ambient -> Prop)
  (G : list Document -> Prop) :
  ensures m a P Q ->
  (forall docs a', P docs a' -> G docs) ->
  G [] ->
  G (documents_of (m a)).
Proof.
  unfold ensures, documents_of. destruct (m a) as [[docs|e] a']; simpl; eauto.
Qed.


Section CorpusIds.
Context {RT : Runtime} {SH : Shapes}.

Lemma tier_documents_block (t : tier) (count : Z) a :
  ensures (DocumentGenerator.tier_documents t count) a
    (fun docs _ => map doc_id docs = map tier_key_id (block_keys (t, 0, count)))
    no_raise.
Proof. exact (tier_documents_ids t count a). Qed.

Lemma generate_mixed_documents_spec total_count a :
  ensures (DocumentGenerator.generate_mixed_documents total_count) a
    (fun docs _ =>
       exists c1 c2 c3 c4,
         DocumentGenerator.mixed_counts total_count = Ok (c1, c2, c3, c4) /\
         Permutation (map doc_id docs)
           (map tier_key_id
              (keys_of [(small, 0, c1); (medium, 0, c2);
                        (large, 0, c3); (huge, 0, c4)])))
    (fun e _ => DocumentGenerator.mixed_counts total_count = Raise e).
Proof.
  unfold DocumentGenerator.generate_mixed_documents.
  apply ensures_bind, ensures_lift_result.
  destruct (DocumentGenerator.mixed_counts total_count)
    as [[[[c1 c2] c3] c4]|e]; [|reflexivity].
  apply ensures_bind.
  eapply ensures_weaken; [apply tier_documents_block| |intros ? ? []].
  intros d1 a1 H1. apply ensures_bind.
  eapply ensures_weaken; [apply tier_documents_block| |intros ? ? []].
  intros d2 a2 H2. apply ensures_bind.
  eapply ensures_weaken; [apply tier_documents_block| |intros ? ? []].
  intros d3 a3 H3. apply ensures_bind.
  eapply ensures_weaken; [apply tier_documents_block| |intros ? ? []].
  intros d4 a4 H4. apply ensures_on_rnd.
  exists c1, c2, c3, c4. split; [reflexivity|].
  eapply Permutation_trans;
    [apply Permutation_map, random_shuffle_perm|].
  unfold keys_of. cbn [flat_map]. rewrite app_nil_r.
  rewrite !map_app, H1, H2, H3, H4. apply Permutation_refl.
Qed.


Lemma init_returns a :
  ensures PerformanceGen.init a (fun _ _ => True) no_raise.
Proof.
  unfold PerformanceGen.init, replicateM.
  repeat (apply ensures_bind;
          eapply ensures_weaken;
          [apply (ensures_mapM _ (fun _ _ => True) no_raise);
           intros; apply ensures_on_fk; exact I
          |intros ? ? _|auto]).
  apply ensures_ret. exact I.
Qed.

End CorpusIds.

Lemma unique_nil : NoDup (@nil (option string)) /\ ~ In None (@nil (option string)).
Proof. split; [constructor|intros []]. Qed.


Lemma unique_documents_of {RT : Runtime} (m : Gen (list Document)) a
  (P : list Document -> Ambient -> Prop) (Q : exn -> Ambient -> Prop) :
  ensures m a P Q ->
  (forall docs a', P docs a' ->
                   NoDup (map doc_id docs) /\ ~ In None (map doc_id docs)) ->
  NoDup (map doc_id (documents_of (m a)))
  /\ ~ In None (map doc_id (documents_of (m a))).
Proof.
  intros H HP.
  apply (documents_of_ensures m a P Q
           (fun docs => NoDup (map doc_id docs)
                        /\ ~ In None (map doc_id docs)) H HP).
  apply unique_nil.
Qed.



(** ** The [main] functions *)
Section Mains.
Context {RT : Runtime} {SH : Shapes}.

Lemma streaming_loop_ok chunk_size documents :
  chunk_size <> 0 ->
  forall i, snd (streaming_loop chunk_size i documents) = Ok tt.
Proof.
  intro Hc. induction documents as [|d rest IH]; intro i; simpl;
    [reflexivity|].
  destruct (Z.eqb_spec chunk_size 0); [contradiction|].
  specialize (IH (i + 1)).
  destruct (streaming_loop chunk_size (i + 1) rest) as [evs r].
  simpl in IH. subst r.
  destruct ((i + 1) mod chunk_size =? 0); reflexivity.
Qed.

Lemma save_ok args documents :
  snd (PerformanceGen.save args documents) = Ok tt.
Proof.
  unfold PerformanceGen.save, save_as_ndjson_streaming.
  destruct (PerformanceGen.use_streaming args documents); [|reflexivity].
  pose proof (streaming_loop_ok 1000 documents ltac:(lia) 0) as H.
  destruct (streaming_loop 1000 0 documents) as [evs r]. exact H.
Qed.

(** [main] of the performance generator once the documents exist. *)
Lemma perf_main_generated args a documents a2 :
  PerformanceGen.generate args (seed_step (PerformanceGen.arg_seed args) a)
  = (Ok documents, a2) ->
  PerformanceGen.main args a
  = let sink := fst (PerformanceGen.save args documents) in
    mkOutcome
      (match true_div (getsize sink) (len documents) with
       | Raise e => Raise e
       | Ok avg_size =>
           Ok (mkStats (len documents) (getsize sink) avg_size)
       end)
      sink a2.
Proof.
  intro H. unfold PerformanceGen.main. rewrite H.
  pose proof (save_ok args documents) as Hs.
  destruct (PerformanceGen.save args documents) as [sink r].
  simpl in Hs. subst r. simpl.
  destruct (true_div (getsize sink) (len documents)); reflexivity.
Qed.

Lemma perf_main_raised args a e a2 :
  PerformanceGen.generate args (seed_step (PerformanceGen.arg_seed args) a)
  = (Raise e, a2) ->
  PerformanceGen.main args a = mkOutcome (Raise e) [] a2.
Proof. intro H. unfold PerformanceGen.main. now rewrite H. Qed.

(** [generate] is the dataset step run after [__init__]. *)
Lemma perf_generate_unfold args a :
  exists generator a1,
    PerformanceGen.init a = (Ok generator, a1) /\
    PerformanceGen.generate args a
    = match PerformanceGen.arg_type args with
      | PerformanceGen.Timeseries =>
          PerformanceGen.generate_time_series_data
            generator (PerformanceGen.arg_count args) small a1
      | PerformanceGen.Sel s =>
          PerformanceGen.generate_performance_dataset
            generator (PerformanceGen.arg_count args) s
            (PerformanceGen.arg_batch_size args) a1
      end.
Proof.
  pose proof (init_returns a) as H. unfold ensures in H.
  unfold PerformanceGen.generate, bind.
  destruct (PerformanceGen.init a) as [[g|e] a1]; [|destruct H].
  exists g, a1. split; [reflexivity|].
  destruct (PerformanceGen.arg_type args); reflexivity.
Qed.


Lemma map_doc_id_nil (docs : list Document) :
  Permutation (map doc_id docs) [] -> docs = [].
Proof.
  intro H. apply Permutation_sym, Permutation_nil in H.
  destruct docs; [reflexivity|discriminate].
Qed.

End Mains.

(** ** Tier allocation *)

(** The last count of the document generator is what the other three
    leave, so the four counts add up to the total. *)
Lemma document_mixed_counts_sum total_count c1 c2 c3 c4 :
  DocumentGenerator.mixed_counts total_count = Ok (c1, c2, c3, c4) ->
  c1 + c2 + c3 + c4 = total_count.
Proof.
  unfold DocumentGenerator.mixed_counts.
  destruct (PyFloat.int_mul total_count PyFloat.lit_0_4); [|discriminate].
  destruct (PyFloat.int_mul total_count PyFloat.lit_0_35); [|discriminate].
  destruct (PyFloat.int_mul total_count PyFloat.lit_0_2); [|discriminate].
  intro H. injection H as <- <- <- <-. lia.
Qed.

Lemma logs_mixed_counts_sum count c1 c2 c3 c4 :
  LogsGenerator.mixed_counts count = Ok (c1, c2, c3, c4) ->
  c1 + c2 + c3 + c4 = count.
Proof.
  unfold LogsGenerator.mixed_counts.
  destruct (PyFloat.int_mul count PyFloat.lit_0_5); [|discriminate].
  destruct (PyFloat.int_mul count PyFloat.lit_0_3); [|discriminate].
  destruct (PyFloat.int_mul count PyFloat.lit_0_15); [|discriminate].
  intro H. injection H as <- <- <- <-. lia.
Qed.

(** C5.  Ten documents under the weights 0.4, 0.35, 0.2 and the remainder:
    the binary64 products are 4.0, 3.5 and 2.0, their truncations 4, 3 and
    2, and the last tier receives 10 - 4 - 3 - 2 = 1. *)
Theorem mixed_counts_of_ten :
  PyFloat.int_mul 10 PyFloat.lit_0_4 = Ok 4 /\
  PyFloat.int_mul 10 PyFloat.lit_0_35 = Ok 3 /\
  PyFloat.int_mul 10 PyFloat.lit_0_2 = Ok 2 /\
  DocumentGenerator.mixed_counts 10 = Ok (4, 3, 2, 1) /\
  4 + 3 + 2 + 1 = 10.
Proof. repeat split; vm_compute; reflexivity. Qed.


(** ** An empty request *)
Section EmptyRequest.
Context {RT : Runtime} {SH : Shapes}.

Lemma shuffle_nil r : fst (random_shuffle [] r) = [].
Proof.
  pose proof (random_shuffle_perm [] r) as H.
  apply Permutation_sym, Permutation_nil in H. exact H.
Qed.

Lemma document_generate_zero doc_type a :
  exists a', DocumentGenerator.generate_documents doc_type 0 a = (Ok [], a').
Proof.
  destruct doc_type as [t|].
  - exists a. reflexivity.
  - cbv [DocumentGenerator.generate_documents
           DocumentGenerator.generate_mixed_documents].
    unfold bind at 1. unfold lift_result.
    replace (DocumentGenerator.mixed_counts 0) with
      (@Ok (Z * Z * Z * Z) (0, 0, 0, 0)) by (vm_compute; reflexivity).
    change (DocumentGenerator.tier_documents small 0) with (@ret RT _ (@nil Document)).
    change (DocumentGenerator.tier_documents medium 0) with (@ret RT _ (@nil Document)).
    change (DocumentGenerator.tier_documents large 0) with (@ret RT _ (@nil Document)).
    change (DocumentGenerator.tier_documents huge 0) with (@ret RT _ (@nil Document)).
    cbv [bind ret on_rnd List.app].
    pose proof (shuffle_nil (rnd a)) as H.
    destruct (random_shuffle [] (rnd a)) as [docs r]. simpl in H. subst docs.
    eexists. reflexivity.
Qed.

Lemma performance_dataset_zero self doc_type batch_size a :
  exists r a',
    PerformanceGen.generate_performance_dataset self 0 doc_type batch_size a
    = (r, a') /\ (r = Ok [] \/ r = Raise ZeroDivisionError).
Proof.
  destruct (Z.eq_dec batch_size 0) as [->|Hbs].
  - exists (Raise ZeroDivisionError), a. split; [|right; reflexivity].
    destruct doc_type; reflexivity.
  - pose proof (generate_performance_dataset_spec self 0 doc_type batch_size a
                  Hbs) as H.
    unfold ensures in H.
    destruct (PerformanceGen.generate_performance_dataset
                self 0 doc_type batch_size a) as [[docs|e] a'].
    + exists (Ok docs), a'. split; [reflexivity|left].
      destruct H as [blocks [Hplan Hperm]]. f_equal.
      apply map_doc_id_nil.
      assert (Hk : keys_of blocks = []).
      { destruct doc_type; simpl in Hplan.
        - injection Hplan as <-. unfold quota.
          destruct (0 <? batch_size); reflexivity.
        - replace (PerformanceGen.type_distribution 0) with
            (@Ok (list (tier * Z))
                 [(small, 0); (medium, 0); (large, 0); (huge, 0)])
            in Hplan by (vm_compute; reflexivity).
          injection Hplan as <-. simpl. unfold quota.
          destruct (0 <? batch_size); reflexivity. }
      now rewrite Hk in Hperm.
    + exfalso. destruct doc_type; simpl in H; [discriminate|].
      replace (PerformanceGen.type_distribution 0) with
        (@Ok (list (tier * Z))
             [(small, 0); (medium, 0); (large, 0); (huge, 0)])
        in H by (vm_compute; reflexivity).
      discriminate.
Qed.

Lemma performance_generate_zero kind batch_size seed streaming a :
  exists r a',
    PerformanceGen.generate
      (PerformanceGen.mkArgs 0 kind batch_size seed streaming) a = (r, a')
    /\ (r = Ok [] \/ r = Raise ZeroDivisionError).
Proof.
  destruct (perf_generate_unfold
              (PerformanceGen.mkArgs 0 kind batch_size seed streaming) a)
    as [g [a1 [_ ->]]].
  destruct kind as [s|]; cbn [PerformanceGen.arg_type PerformanceGen.arg_count
                                PerformanceGen.arg_batch_size].
  - apply performance_dataset_zero.
  - unfold PerformanceGen.generate_time_series_data, bind, on_env.
    destruct (datetime_now (env a1)) as [now e].
    eexists _, _. split; [reflexivity|left; reflexivity].
Qed.

End EmptyRequest.

(** C3.  A request for zero documents does not complete: both [main]
    functions write the file, empty for the line-delimited format, and then
    divide the total size by the number of documents; with a batch size of
    0 the performance generator raises before it opens the file.  No
    statistics are reported. *)
Theorem zero_count_raises {RT : Runtime} {SH : Shapes} :
  (forall doc_type fmt seed a,
      let o := DocumentGenerator.main
                 (DocumentGenerator.mkArgs doc_type 0 fmt seed) a in
      out_result o = Raise ZeroDivisionError /\
      (fmt = Ndjson -> out_sink o = [EvOpen; EvClose]
                       /\ sink_content (out_sink o) = EmptyString)) /\
  (forall kind batch_size seed streaming a,
      let o := PerformanceGen.main
                 (PerformanceGen.mkArgs 0 kind batch_size seed streaming) a in
      out_result o = Raise ZeroDivisionError /\
      sink_content (out_sink o) = EmptyString).
Proof.
  split.
  - intros doc_type fmt seed a o. subst o.
    unfold DocumentGenerator.main.
    cbn [DocumentGenerator.arg_seed DocumentGenerator.arg_type
           DocumentGenerator.arg_count DocumentGenerator.arg_format].
    destruct (document_generate_zero doc_type (seed_step seed a)) as [a' ->].
    split; [destruct fmt; reflexivity|].
    intros ->. split; reflexivity.
  - intros kind batch_size seed streaming a o. subst o.
    set (args := PerformanceGen.mkArgs 0 kind batch_size seed streaming).
    destruct (performance_generate_zero kind batch_size seed streaming
                (seed_step seed a)) as [r [a' [Hgen [->| ->]]]].
    + rewrite (perf_main_generated args a [] a' Hgen).
      unfold PerformanceGen.save, PerformanceGen.use_streaming.
      destruct streaming; split; reflexivity.
    + rewrite (perf_main_raised args a _ a' Hgen). split; reflexivity.
Qed.

(** ** The flushes of the streaming writer *)

Lemma mod_succ (i c : Z) :
  0 < c ->
  (i + 1) mod c = if i mod c + 1 =? c then 0 else i mod c + 1.
Proof.
  intro Hc. pose proof (Z.mod_pos_bound i c Hc) as Hr.
  rewrite <- Zplus_mod_idemp_l.
  destruct (Z.eqb_spec (i mod c + 1) c) as [E|E].
  - rewrite E. apply Z_mod_same_full.
  - apply Z.mod_small. lia.
Qed.

Lemma div_succ (i c : Z) :
  0 < c ->
  (i + 1) / c = i / c + (if (i + 1) mod c =? 0 then 1 else 0).
Proof.
  intro Hc.
  pose proof (Z.div_mod i c ltac:(lia)) as H1.
  pose proof (Z.div_mod (i + 1) c ltac:(lia)) as H2.
  pose proof (Z.mod_pos_bound i c Hc) as Hr.
  pose proof (Z.mod_pos_bound (i + 1) c Hc) as Hr'.
  destruct (Z.eqb_spec ((i + 1) mod c) 0) as [E|E]; nia.
Qed.

Section StreamingWriter.
Context {RT : Runtime}.

Lemma streaming_loop_flushes chunk_size documents :
  0 < chunk_size ->
  forall i,
    flush_count (fst (streaming_loop chunk_size i documents))
    = (i + len documents) / chunk_size - i / chunk_size.
Proof.
  intro Hc. induction documents as [|d rest IH]; intro i.
  - simpl. unfold flush_count, len. simpl. rewrite Z.add_0_r. lia.
  - simpl. destruct (Z.eqb_spec chunk_size 0); [lia|].
    specialize (IH (i + 1)).
    destruct (streaming_loop chunk_size (i + 1) rest) as [evs r].
    simpl in IH.
    rewrite len_cons.
    replace (i + (1 + len rest)) with (i + 1 + len rest) by lia.
    rewrite (div_succ i chunk_size Hc) in IH.
    destruct ((i + 1) mod chunk_size =? 0); simpl;
      unfold flush_count in *; simpl filter.
    + rewrite len_cons. lia.
    + lia.
Qed.

Lemma streaming_loop_runs chunk_size documents :
  0 < chunk_size ->
  forall i,
    unflushed_run (fst (streaming_loop chunk_size i documents) ++ [EvClose])
                  (i mod chunk_size)
    <= chunk_size.
Proof.
  intro Hc. induction documents as [|d rest IH]; intro i.
  - simpl. pose proof (Z.mod_pos_bound i chunk_size Hc). lia.
  - simpl. destruct (Z.eqb_spec chunk_size 0); [lia|].
    specialize (IH (i + 1)).
    destruct (streaming_loop chunk_size (i + 1) rest) as [evs r].
    simpl in IH.
    pose proof (Z.mod_pos_bound i chunk_size Hc) as Hr.
    rewrite (mod_succ i chunk_size Hc) in *.
    destruct (Z.eqb_spec (i mod chunk_size + 1) chunk_size) as [E|E];
      simpl.
    + lia.
    + destruct (Z.eqb_spec (i mod chunk_size + 1) 0); [lia|].
      simpl. exact IH.
Qed.

Lemma streaming_loop_runs_lower chunk_size documents :
  0 < chunk_size ->
  forall i,
    Z.min chunk_size (i mod chunk_size + len documents)
    <= unflushed_run (fst (streaming_loop chunk_size i documents) ++ [EvClose])
                     (i mod chunk_size).
Proof.
  intro Hc. induction documents as [|d rest IH]; intro i.
  - simpl. change (len (@nil Document)) with 0. lia.
  - simpl. destruct (Z.eqb_spec chunk_size 0); [lia|].
    specialize (IH (i + 1)). rewrite len_cons, Z.add_assoc.
    set (k := len rest) in *.
    destruct (streaming_loop chunk_size (i + 1) rest) as [evs r].
    simpl in IH.
    pose proof (Z.mod_pos_bound i chunk_size Hc) as Hr.
    assert (Hl : 0 <= k) by apply Zle_0_nat.
    rewrite (mod_succ i chunk_size Hc) in *.
    destruct (Z.eqb_spec (i mod chunk_size + 1) chunk_size) as [E|E];
      simpl.
    + lia.
    + destruct (Z.eqb_spec (i mod chunk_size + 1) 0); [lia|].
      simpl. lia.
Qed.

(** The streaming writer with a positive chunk size: every [chunk_size]-th
    document is followed by a flush, and by nothing else. *)
Lemma save_as_ndjson_streaming_spec documents chunk_size :
  0 < chunk_size ->
  let tr := fst (save_as_ndjson_streaming documents chunk_size) in
  Z.min chunk_size (len documents) <= longest_unflushed tr <= chunk_size /\
  flush_count tr = len documents / chunk_size.
Proof.
  intros Hc tr. subst tr. unfold save_as_ndjson_streaming.
  pose proof (streaming_loop_runs chunk_size documents Hc 0) as H1.
  pose proof (streaming_loop_runs_lower chunk_size documents Hc 0) as H3.
  pose proof (streaming_loop_flushes chunk_size documents Hc 0) as H2.
  destruct (streaming_loop chunk_size 0 documents) as [evs r].
  simpl fst in *. split.
  - unfold longest_unflushed. simpl.
    rewrite Zmod_0_l in H1, H3. lia.
  - unfold flush_count in *. simpl filter.
    rewrite filter_app. simpl filter. rewrite app_nil_r.
    rewrite H2, Zdiv_0_l, Z.add_0_l. lia.
Qed.

Lemma save_as_ndjson_no_flush documents :
  flush_count (save_as_ndjson documents) = 0.
Proof.
  unfold save_as_ndjson, flush_count. simpl filter.
  rewrite filter_app. simpl filter. rewrite app_nil_r.
  induction documents as [|d rest IH]; [reflexivity|exact IH].
Qed.

End StreamingWriter.

(** ** The save step of the performance generator *)



(** A single-tier request with a positive batch size and a count that is
    not negative returns exactly that many documents. *)
Lemma perf_tier_corpus {RT : Runtime} {SH : Shapes} t count batch_size
  seed streaming a :
  0 < batch_size -> 0 <= count ->
  exists docs a2,
    PerformanceGen.generate
      (PerformanceGen.mkArgs count (PerformanceGen.Sel (Tier t)) batch_size
                             seed streaming) a
    = (Ok docs, a2) /\ len docs = count.
Proof.
  intros Hbs Hcount.
  destruct (perf_generate_unfold
              (PerformanceGen.mkArgs count (PerformanceGen.Sel (Tier t))
                                     batch_size seed streaming) a)
    as [g [a1 [_ ->]]].
  cbn [PerformanceGen.arg_type PerformanceGen.arg_count
         PerformanceGen.arg_batch_size].
  pose proof (generate_performance_dataset_spec g count (Tier t) batch_size a1
                ltac:(lia)) as H.
  unfold ensures in H.
  destruct (PerformanceGen.generate_performance_dataset g count (Tier t)
              batch_size a1) as [[docs|e] a2]; [|discriminate H].
  exists docs, a2. split; [reflexivity|].
  destruct H as [blocks [Hplan Hperm]]. simpl in Hplan.
  injection Hplan as <-.
  apply Permutation_length in Hperm.
  unfold keys_of in Hperm. simpl in Hperm.
  rewrite app_nil_r, !length_map in Hperm.
  unfold len. rewrite Hperm. fold (len (range (quota count batch_size))).
  rewrite len_range. unfold quota.
  destruct (Z.ltb_spec 0 batch_size); lia.
Qed.

(** C6, as the code has it.  The streaming writer of [main] flushes after
    every 1000th document: 1000 is the default of its own [chunk_size]
    parameter, which [main] never sets, so the request's batch size plays
    no part.  No more than 1000 documents are written between two flushes
    (exactly 1000 once the corpus has that many), and a corpus of [n]
    documents is flushed [n / 1000] times, rounded down, before the file is
    closed.  With another positive chunk size the writer does the same at
    that interval. *)
Theorem streaming_flush_interval {RT : Runtime}
  (args : PerformanceGen.Args) (documents : list Document) :
  PerformanceGen.use_streaming args documents = true ->
  let tr := fst (PerformanceGen.save args documents) in
  PerformanceGen.save args documents = save_as_ndjson_streaming documents 1000
  /\ Z.min 1000 (len documents) <= longest_unflushed tr <= 1000
  /\ flush_count tr = len documents / 1000
  /\ (forall batch_size,
         PerformanceGen.save
           (PerformanceGen.mkArgs (PerformanceGen.arg_count args)
                                  (PerformanceGen.arg_type args)
                                  batch_size
                                  (PerformanceGen.arg_seed args)
                                  (PerformanceGen.arg_streaming args))
           documents
         = PerformanceGen.save args documents)
  /\ (forall chunk_size,
         0 < chunk_size ->
         let tr' := fst (save_as_ndjson_streaming documents chunk_size) in
         Z.min chunk_size (len documents) <= longest_unflushed tr'
                                          <= chunk_size
         /\ flush_count tr' = len documents / chunk_size).
Proof.
  intros Hs tr. subst tr.
  assert (E : PerformanceGen.save args documents
              = save_as_ndjson_streaming documents 1000).
  { unfold PerformanceGen.save. now rewrite Hs. }
  split; [exact E|]. rewrite E.
  destruct (save_as_ndjson_streaming_spec documents 1000 ltac:(lia))
    as [H1 H2].
  split; [exact H1|]. split; [exact H2|]. split.
  - intro batch_size. rewrite <- E. reflexivity.
  - intros chunk_size Hc. apply save_as_ndjson_streaming_spec, Hc.
Qed.

(** Three documents written with the flag set: no flush before the file
    is closed. *)
Lemma streaming_flush_interval_witness :
  let args := PerformanceGen.mkArgs 3 (PerformanceGen.Sel (Tier small))
                                    2 None true in
  let docs := repeat (@nil (string * json)) 3 in
  flush_count (fst (PerformanceGen.save (RT := Sample.runtime) args docs))
  = 3 / 1000.
Proof.
  intros args docs.
  exact (proj1 (proj2 (proj2 (@streaming_flush_interval
                                Sample.runtime args docs eq_refl)))).
Defined.

(** C6 as the specification words it, refuted: 1500 documents requested
    with a batch size of 500 and the streaming flag are written with runs
    of 1000 documents between flushes, and flushed once. *)
Lemma flush_interval_is_not_batch_size :
  let args := PerformanceGen.mkArgs 1500 (PerformanceGen.Sel (Tier small))
                                    500 None true in
  let o := PerformanceGen.main (RT := Sample.runtime) (SH := Sample.shapes)
                               args (Sample.world 1 2 3) in
  ~ (longest_unflushed (out_sink o) <= PerformanceGen.arg_batch_size args)
  /\ ~ (1500 / PerformanceGen.arg_batch_size args <= flush_count (out_sink o)).
Proof.
  intros args o. subst o.
  destruct (@perf_tier_corpus Sample.runtime Sample.shapes small 1500 500
              None true (Sample.world 1 2 3) ltac:(lia) ltac:(lia))
    as [docs [a2 [Hgen Hlen]]].
  rewrite (perf_main_generated args (Sample.world 1 2 3) docs a2 Hgen).
  cbv zeta. cbn [out_sink].
  change (PerformanceGen.save args docs)
    with (save_as_ndjson_streaming (RT := Sample.runtime) docs 1000).
  destruct (save_as_ndjson_streaming_spec (RT := Sample.runtime) docs 1000
              ltac:(lia)) as [H1 H2].
  rewrite Hlen in H1, H2.
  change (1500 / 1000) with 1 in H2.
  change (1500 / PerformanceGen.arg_batch_size args) with 3.
  change (PerformanceGen.arg_batch_size args) with 500.
  split; lia.
Qed.

(** ** Seeding *)

(** With a seed that is not zero a run depends on the ambient state
    through the environment alone. *)
Lemma seeded_step_env {RT : Runtime} (s : Z) (a a' : Ambient) :
  s <> 0 -> env a = env a' -> seed_step (Some s) a = seed_step (Some s) a'.
Proof.
  intros Hs He. unfold seed_step.
  destruct (Z.eqb_spec s 0); [contradiction|]. now rewrite He.
Qed.

(** Two runs of any of the three programs with the same seed, not zero,
    and the same request agree in everything (result, file and final
    state) when their environments (the clock, the system's entropy) do:
    the state of the two random sources before the run plays no part. *)
Lemma seeded_runs_agree {RT : Runtime} {SH : Shapes} (s : Z) (a a' : Ambient) :
  s <> 0 -> env a = env a' ->
  (forall t c f,
      DocumentGenerator.main (DocumentGenerator.mkArgs t c f (Some s)) a
      = DocumentGenerator.main (DocumentGenerator.mkArgs t c f (Some s)) a') /\
  (forall c t b st,
      PerformanceGen.main (PerformanceGen.mkArgs c t b (Some s) st) a
      = PerformanceGen.main (PerformanceGen.mkArgs c t b (Some s) st) a') /\
  (forall c t f,
      LogsGenerator.main (LogsGenerator.mkArgs c t f (Some s)) a
      = LogsGenerator.main (LogsGenerator.mkArgs c t f (Some s)) a').
Proof.
  intros Hs He. pose proof (seeded_step_env s a a' Hs He) as E.
  repeat split; intros;
    unfold DocumentGenerator.main, PerformanceGen.main, LogsGenerator.main;
    cbn [DocumentGenerator.arg_seed PerformanceGen.arg_seed
           LogsGenerator.arg_seed];
    now rewrite E.
Qed.

(** C10.  [if args.seed:] tests the seed for truth: with seed 0 the
    seeding step leaves both random sources as they are, exactly as with
    no seed, and the three [main] functions run as if none had been given;
    any other seed installs the seeded state of [random] and of [fake]. *)
Theorem seed_zero_is_unseeded {RT : Runtime} {SH : Shapes} :
  (forall a, seed_step (Some 0) a = a /\ seed_step None a = a) /\
  (forall s a,
      s <> 0 ->
      seed_step (Some s) a
      = mkAmbient RT (random_seed s) (fake_seed_instance s) (env a)) /\
  (forall t c f a,
      DocumentGenerator.main (DocumentGenerator.mkArgs t c f (Some 0)) a
      = DocumentGenerator.main (DocumentGenerator.mkArgs t c f None) a) /\
  (forall c t b st a,
      PerformanceGen.main (PerformanceGen.mkArgs c t b (Some 0) st) a
      = PerformanceGen.main (PerformanceGen.mkArgs c t b None st) a) /\
  (forall c t f a,
      LogsGenerator.main (LogsGenerator.mkArgs c t f (Some 0)) a
      = LogsGenerator.main (LogsGenerator.mkArgs c t f None) a).
Proof.
  split; [|split; [|split; [|split]]].
  - intro a. split; reflexivity.
  - intros s a Hs. unfold seed_step.
    destruct (Z.eqb_spec s 0); [contradiction|reflexivity].
  - reflexivity.
  - reflexivity.
  - reflexivity.
Qed.

(** Seed 42 on the sample runtime: both sources are replaced. *)
Lemma seed_zero_is_unseeded_witness :
  42 <> 0 /\
  seed_step (RT := Sample.runtime) (Some 42) (Sample.world 1 2 3)
  = Sample.world 42 295 3.
Proof.
  split; [discriminate|].
  exact (proj1 (proj2 (@seed_zero_is_unseeded Sample.runtime Sample.shapes))
               42 (Sample.world 1 2 3) ltac:(discriminate)).
Defined.

(** On the sample runtime two runs with seed 0 that start from different
    states of [random] write different files. *)
Example seed_zero_runs_differ :
  let args := DocumentGenerator.mkArgs (Tier small) 1 Ndjson (Some 0) in
  sink_content
    (out_sink (DocumentGenerator.main (RT := Sample.runtime)
                 (SH := Sample.shapes) args (Sample.world 1 2 3)))
  <> sink_content
       (out_sink (DocumentGenerator.main (RT := Sample.runtime)
                    (SH := Sample.shapes) args (Sample.world 5 2 3))).
Proof. vm_compute. discriminate. Qed.

(** ** Line-delimited output *)

Lemma split_lines_line (a rest : string) :
  one_line a = true ->
  split_lines ((a ++ newline) ++ rest) = a :: split_lines rest.
Proof.
  induction a as [|c a IH]; simpl; intro H; [reflexivity|].
  apply andb_true_iff in H. destruct H as [Hc Ha].
  apply negb_true_iff in Hc. rewrite Hc, (IH Ha). reflexivity.
Qed.

Lemma escape_char_one_line (c : ascii) : one_line (escape_char c) = true.
Proof. destruct c as [[] [] [] [] [] [] [] []]; reflexivity. Qed.

Lemma escape_one_line (s : string) : one_line (escape s) = true.
Proof.
  induction s as [|c s IH]; simpl; [reflexivity|].
  now rewrite one_line_app, escape_char_one_line, IH.
Qed.

Lemma encode_str_one_line (s : string) : one_line (encode_str s) = true.
Proof.
  unfold encode_str. simpl. now rewrite one_line_app, escape_one_line.
Qed.

Lemma join_one_line (sep : string) (parts : list string) :
  one_line sep = true ->
  Forall (fun p => one_line p = true) parts ->
  one_line (join sep parts) = true.
Proof.
  intros Hsep H. induction H as [|p ps Hp Hps IH]; [reflexivity|].
  destruct ps as [|q ps]; [exact Hp|].
  change (join sep (p :: q :: ps)) with (p ++ sep ++ join sep (q :: ps)).
  now rewrite !one_line_app, Hp, Hsep, IH.
Qed.

(** Induction on a JSON value, through its lists and dictionaries. *)
Lemma json_nested_ind (P : json -> Prop) :
  P JNull ->
  (forall b, P (JBool b)) ->
  (forall z, P (JInt z)) ->
  (forall x, P (JFloat x)) ->
  (forall s, P (JStr s)) ->
  (forall l, Forall P l -> P (JList l)) ->
  (forall d, Forall (fun kv => P (snd kv)) d -> P (JDict d)) ->
  forall v, P v.
Proof.
  intros Hn Hb Hi Hf Hs Hl Hd.
  fix IH 1. intros [| b | z | x | s | l | d].
  - exact Hn.
  - apply Hb.
  - apply Hi.
  - apply Hf.
  - apply Hs.
  - apply Hl. induction l as [|v l IHl]; constructor; [apply IH|exact IHl].
  - apply Hd. induction d as [|[k v] d IHd]; constructor;
      [apply IH|exact IHd].
Qed.

Section NdjsonLines.
Context {RT : Runtime}.

(** [json.dumps] never emits a line feed: it escapes the ones in
    strings. *)
Lemma dumps_one_line (v : json) : one_line (dumps v) = true.
Proof.
  induction v as [| [] | z | x | s | l IH | d IH] using json_nested_ind;
    try reflexivity.
  - apply str_of_int_one_line.
  - apply float_repr_one_line.
  - apply encode_str_one_line.
  - simpl. rewrite one_line_app. simpl.
    rewrite join_one_line; [reflexivity|reflexivity|].
    rewrite Forall_map. exact IH.
  - simpl. rewrite one_line_app. simpl.
    rewrite join_one_line; [reflexivity|reflexivity|].
    rewrite Forall_map. eapply Forall_impl; [|exact IH].
    intros [k v] H. cbn [snd] in H. simpl.
    rewrite !one_line_app, escape_one_line. simpl. exact H.
Qed.

Lemma save_as_ndjson_content documents :
  sink_content (save_as_ndjson documents) = ndjson_text documents.
Proof.
  unfold save_as_ndjson. simpl.
  induction documents as [|d rest IH]; [reflexivity|].
  simpl. now rewrite IH.
Qed.

Lemma split_ndjson_text documents :
  split_lines (ndjson_text documents)
  = (map json_dumps documents ++ [EmptyString])%list.
Proof.
  induction documents as [|d rest IH]; [reflexivity|].
  change (ndjson_text (d :: rest))
    with ((json_dumps d ++ newline) ++ ndjson_text rest).
  rewrite split_lines_line by apply dumps_one_line.
  rewrite IH. reflexivity.
Qed.

End NdjsonLines.

(** ** The order of a mixed corpus *)








Section MixedOrder.
Context {RT : Runtime} {SH : Shapes}.

Lemma streaming_loop_content chunk_size documents :
  chunk_size <> 0 ->
  forall i,
    sink_content (fst (streaming_loop chunk_size i documents))
    = ndjson_text documents.
Proof.
  intro Hc. induction documents as [|d rest IH]; intro i; [reflexivity|].
  simpl streaming_loop. destruct (Z.eqb_spec chunk_size 0); [contradiction|].
  specialize (IH (i + 1)).
  destruct (streaming_loop chunk_size (i + 1) rest) as [evs r].
  simpl fst in IH.
  destruct ((i + 1) mod chunk_size =? 0); simpl; now rewrite IH.
Qed.

(** Both save paths write the documents in the order of the list. *)
Lemma save_content args documents :
  sink_content (fst (PerformanceGen.save args documents))
  = ndjson_text documents.
Proof.
  unfold PerformanceGen.save.
  destruct (PerformanceGen.use_streaming args documents).
  - unfold save_as_ndjson_streaming.
    pose proof (streaming_loop_content 1000 documents ltac:(lia) 0) as H.
    destruct (streaming_loop 1000 0 documents) as [evs r].
    simpl in *.
    assert (G : forall tr, sink_content (tr ++ [EvClose]) = sink_content tr).
    { induction tr as [|ev tr IHtr]; [reflexivity|].
      destruct ev; simpl; now rewrite IHtr. }
    now rewrite G.
  - apply save_as_ndjson_content.
Qed.


End MixedOrder.


Lemma range_In (n i : Z) : 0 <= i < n -> In i (range n).
Proof.
  intro H. unfold range. apply in_map_iff.
  exists (Z.to_nat i). split; [lia|]. apply in_seq. lia.
Qed.




Lemma len_block_keys (b : tier * Z * Z) :
  len (block_keys b) = Z.max 0 (snd b).
Proof. destruct b as [[t start] n]. simpl. now rewrite len_map, len_range. Qed.



(** ** Where the clock enters a seeded run *)



Section SerialisedTimestamp.
Context {RT : Runtime}.


End SerialisedTimestamp.

Section ClockDependence.
Context {RT : Runtime} {SH : Shapes}.







End ClockDependence.

Section SeededRuns.
Context {RT : Runtime} {SH : Shapes}.



End SeededRuns.



(** ** Further properties of the runs *)

(** Seven documents: 2, 2, 1 and the remaining 2. *)
Lemma document_mixed_counts_sum_witness :
  DocumentGenerator.mixed_counts 7 = Ok (2, 2, 1, 2) /\ 2 + 2 + 1 + 2 = 7.
Proof.
  assert (E : DocumentGenerator.mixed_counts 7 = Ok (2, 2, 1, 2))
    by (vm_compute; reflexivity).
  split; [exact E|exact (document_mixed_counts_sum 7 2 2 1 2 E)].
Defined.

(** Seven log entries. *)
Lemma logs_mixed_counts_sum_witness :
  LogsGenerator.mixed_counts 7 = Ok (3, 2, 1, 1) /\ 3 + 2 + 1 + 1 = 7.
Proof.
  assert (E : LogsGenerator.mixed_counts 7 = Ok (3, 2, 1, 1))
    by (vm_compute; reflexivity).
  split; [exact E|exact (logs_mixed_counts_sum 7 3 2 1 1 E)].
Defined.

(** Seed 42 on the sample runtime, from two states of the random sources
    and the same environment. *)
Lemma seeded_runs_agree_witness :
  let args := PerformanceGen.mkArgs 3 (PerformanceGen.Sel Mixed) 2
                                    (Some 42) false in
  PerformanceGen.main (RT := Sample.runtime) (SH := Sample.shapes)
                      args (Sample.world 1 2 3)
  = PerformanceGen.main (RT := Sample.runtime) (SH := Sample.shapes)
                        args (Sample.world 7 8 3).
Proof.
  intro args.
  exact (proj1 (proj2 (@seeded_runs_agree Sample.runtime Sample.shapes 42
                         (Sample.world 1 2 3) (Sample.world 7 8 3)
                         ltac:(discriminate) eq_refl))
           3 (PerformanceGen.Sel Mixed) 2 false).
Defined.

(** A batch size of zero: the number of batches is a division by the
    batch size, so the performance generator raises before any document
    exists, nothing is written and no statistics are reported. *)
Theorem zero_batch_size_raises {RT : Runtime} {SH : Shapes}
  (count : Z) (s : selector) (seed : option Z) (streaming : bool)
  (a : Ambient) :
  let o := PerformanceGen.main
             (PerformanceGen.mkArgs count (PerformanceGen.Sel s) 0
                                    seed streaming) a in
  (exists e, out_result o = Raise e) /\ out_sink o = [].
Proof.
  intro o. subst o.
  set (args := PerformanceGen.mkArgs count (PerformanceGen.Sel s) 0
                                     seed streaming).
  destruct (perf_generate_unfold args
              (seed_step (PerformanceGen.arg_seed args) a))
    as [g [a1 [_ Hgen]]].
  change (PerformanceGen.generate args
            (seed_step (PerformanceGen.arg_seed args) a)
          = PerformanceGen.generate_performance_dataset g count s 0 a1)
    in Hgen.
  destruct (generate_performance_dataset_zero g count s a1) as [e [a2 E]].
  rewrite E in Hgen.
  rewrite (perf_main_raised args a e a2 Hgen).
  split; [exists e|]; reflexivity.
Qed.

(** The count that chooses the writer is the one generated, not the one
    requested: a mixed request for 50001 documents without the flag is
    allocated 20000, 17500, 10000 and 2500, so 50000 documents exist, the
    plain writer saves them and the file is never flushed. *)
Theorem generated_count_chooses_writer {RT : Runtime} {SH : Shapes}
  (seed : option Z) (a : Ambient) :
  let args := PerformanceGen.mkArgs 50001 (PerformanceGen.Sel Mixed) 1000
                                    seed false in
  exists docs a2,
    PerformanceGen.generate args (seed_step seed a) = (Ok docs, a2) /\
    len docs = 50000 /\
    PerformanceGen.use_streaming args docs = false /\
    out_sink (PerformanceGen.main args a) = save_as_ndjson docs /\
    flush_count (out_sink (PerformanceGen.main args a)) = 0.
Proof.
  intro args.
  destruct (perf_generate_unfold args (seed_step seed a))
    as [g [a1 [_ Hgen]]].
  change (PerformanceGen.generate args (seed_step seed a)
          = PerformanceGen.generate_performance_dataset
              g 50001 Mixed 1000 a1) in Hgen.
  assert (Hplanned :
            planned 50001 Mixed 1000
            = Ok [(small, 0, 20000); (medium, 20000, 17500);
                  (large, 37500, 10000); (huge, 47500, 2500)]).
  { vm_compute. reflexivity. }
  pose proof (generate_performance_dataset_spec g 50001 Mixed 1000 a1
                ltac:(lia)) as Hspec.
  unfold ensures in Hspec.
  destruct (PerformanceGen.generate_performance_dataset g 50001 Mixed 1000
              a1) as [[docs|e] a2];
    [|rewrite Hplanned in Hspec; discriminate Hspec].
  destruct Hspec as [blocks [Hplan Hperm]].
  rewrite Hplanned in Hplan. injection Hplan as <-.
  assert (Hlen : len docs = 50000).
  { apply Permutation_length in Hperm.
    unfold len. rewrite <- (length_map doc_id docs), Hperm.
    fold (len (map tier_key_id
                 (keys_of [(small, 0, 20000); (medium, 20000, 17500);
                           (large, 37500, 10000); (huge, 47500, 2500)]))).
    rewrite len_map. unfold keys_of. cbn [flat_map].
    rewrite app_nil_r, !len_app, !len_block_keys. reflexivity. }
  assert (Hs : PerformanceGen.use_streaming args docs = false).
  { unfold PerformanceGen.use_streaming. rewrite Hlen. reflexivity. }
  exists docs, a2. split; [exact Hgen|]. split; [exact Hlen|].
  split; [exact Hs|].
  assert (Hgen' : PerformanceGen.generate args
                    (seed_step (PerformanceGen.arg_seed args) a)
                  = (Ok docs, a2)) by exact Hgen.
  rewrite (perf_main_generated args a docs a2 Hgen').
  cbv zeta. cbn [out_sink].
  unfold PerformanceGen.save. rewrite Hs. cbn [fst].
  split; [reflexivity|apply save_as_ndjson_no_flush].
Qed.

(** ** Binary64: rounding to 53 bits *)

Lemma digits2_pos_spec (p : positive) :
  2 ^ (Zpos (digits2_pos p) - 1) <= Zpos p < 2 ^ Zpos (digits2_pos p).
Proof.
  induction p as [p IH|p IH|]; cbn [digits2_pos].
  - rewrite Pos2Z.inj_succ, (Pos2Z.inj_xI p).
    replace (Z.succ (Zpos (digits2_pos p)) - 1)
      with (Z.succ (Zpos (digits2_pos p) - 1)) by lia.
    rewrite !Z.pow_succ_r by lia. lia.
  - rewrite Pos2Z.inj_succ, (Pos2Z.inj_xO p).
    replace (Z.succ (Zpos (digits2_pos p)) - 1)
      with (Z.succ (Zpos (digits2_pos p) - 1)) by lia.
    rewrite !Z.pow_succ_r by lia. lia.
  - simpl. lia.
Qed.

Lemma digits2_pos_unique (m : positive) (k : Z) :
  2 ^ (k - 1) <= Zpos m < 2 ^ k -> Zpos (digits2_pos m) = k.
Proof.
  intros [H1 H2]. pose proof (digits2_pos_spec m) as [H3 H4].
  set (d := Zpos (digits2_pos m)) in *.
  destruct (Z.lt_trichotomy d k) as [H|[H|H]]; [|exact H|].
  - assert (2 ^ d <= 2 ^ (k - 1)) by (apply Z.pow_le_mono_r; lia). lia.
  - assert (0 <= k).
    { destruct (Z.le_gt_cases 0 k); [assumption|].
      rewrite (Z.pow_neg_r 2 k) in H2 by lia. lia. }
    assert (2 ^ k <= 2 ^ (d - 1)) by (apply Z.pow_le_mono_r; lia). lia.
Qed.

Lemma shr_1_m (mrs : shr_record) :
  0 <= shr_m mrs -> shr_m (shr_1 mrs) = shr_m mrs / 2.
Proof.
  destruct mrs as [m r s]. simpl. intro H.
  destruct m as [|[p|p|]|]; simpl; try reflexivity; try lia.
  - apply Z.div_unique with (r := 1); lia.
  - apply Z.div_unique with (r := 0); lia.
Qed.

Lemma iter_shr_m (p : positive) :
  forall mrs, 0 <= shr_m mrs ->
              shr_m (iter_pos shr_1 p mrs) = shr_m mrs / 2 ^ Zpos p.
Proof.
  induction p as [p IH|p IH|]; intros mrs H; cbn [iter_pos].
  - assert (H1 : 0 <= shr_m (shr_1 mrs)).
    { rewrite shr_1_m by assumption. apply Z.div_pos; lia. }
    assert (H2 : 0 <= shr_m (iter_pos shr_1 p (shr_1 mrs))).
    { rewrite IH by assumption. apply Z.div_pos; [assumption|].
      apply Z.pow_pos_nonneg; lia. }
    rewrite IH, IH, shr_1_m by assumption.
    rewrite !Z.div_div by (try apply Z.pow_pos_nonneg; lia).
    f_equal. rewrite (Pos2Z.inj_xI p).
    replace (2 * Zpos p + 1) with (1 + Zpos p + Zpos p) by lia.
    rewrite !Z.pow_add_r by lia. lia.
  - assert (H2 : 0 <= shr_m (iter_pos shr_1 p mrs)).
    { rewrite IH by assumption. apply Z.div_pos; [assumption|].
      apply Z.pow_pos_nonneg; lia. }
    rewrite IH, IH by assumption.
    rewrite !Z.div_div by (try apply Z.pow_pos_nonneg; lia).
    f_equal. rewrite (Pos2Z.inj_xO p).
    replace (2 * Zpos p) with (Zpos p + Zpos p) by lia.
    rewrite !Z.pow_add_r by lia. lia.
  - rewrite shr_1_m by assumption. reflexivity.
Qed.

Lemma round_nearest_even_bounds (m : Z) (l : location) :
  m <= round_nearest_even m l <= m + 1.
Proof.
  destruct l as [|[]]; simpl; try lia. destruct (Z.even m); lia.
Qed.

(** The second shift of [binary_round_aux]: a mantissa that rounding
    carried to [2 ^ 53] is halved, exactly. *)
Lemma round_carry (sx : bool) (m1 e1 : Z) :
  2 ^ 52 <= m1 <= 2 ^ 53 -> -1074 <= e1 ->
  exists (m' : positive) (e' : Z),
    (let '(mrs, e2) := shr_fexp 53 1024 m1 e1 loc_Exact in
     match shr_m mrs with
     | Z0 => S754_zero sx
     | Zpos m => if e2 <=? 1024 - 53 then S754_finite sx m e2
                 else S754_infinity sx
     | Zneg _ => S754_nan
     end)
    = (if e' <=? 971 then S754_finite sx m' e' else S754_infinity sx) /\
    Zpos (digits2_pos m') = 53 /\
    e1 <= e' <= e1 + 1 /\
    Zpos m' * 2 ^ (e' - e1) = m1.
Proof.
  intros [Hlo Hhi] He.
  destruct m1 as [|p1|p1]; try (simpl in Hlo; lia).
  destruct (Z.eq_dec (Zpos p1) (2 ^ 53)) as [E|E].
  - assert (p1 = 9007199254740992%positive) by (simpl in E; lia). subst p1.
    exists 4503599627370496%positive, (e1 + 1).
    unfold shr_fexp. cbn [Zdigits2 digits2_pos Pos.succ].
    assert (F : fexp 53 1024 (54 + e1) - e1 = 1)
      by (unfold fexp, emin; lia).
    rewrite F. cbn. replace (e1 + 1 - e1) with 1 by lia.
    repeat split; try lia.
  - assert (D : Zpos (digits2_pos p1) = 53).
    { apply digits2_pos_unique. lia. }
    exists p1, e1. unfold shr_fexp. cbn [Zdigits2]. rewrite D.
    assert (F : fexp 53 1024 (53 + e1) - e1 = 0)
      by (unfold fexp, emin; lia).
    rewrite F. cbn. rewrite Z.sub_diag. simpl.
    repeat split; try lia.
Qed.

Lemma binary_round_aux_spec (sx : bool) (m : positive) (e : Z) :
  53 <= Zpos (digits2_pos m) -> -1074 <= e ->
  exists (m' : positive) (e' : Z),
    binary_round_aux 53 1024 sx (Zpos m) e loc_Exact
    = (if e' <=? 971 then S754_finite sx m' e' else S754_infinity sx) /\
    Zpos (digits2_pos m') = 53 /\
    Zpos (digits2_pos m) + e - 53 <= e' <= Zpos (digits2_pos m) + e - 52 /\
    2 ^ 52 * Z.abs (Zpos m' * 2 ^ (e' - e) - Zpos m) <= Zpos m.
Proof.
  intros Hd He. pose proof (digits2_pos_spec m) as [Hm1 Hm2].
  unfold binary_round_aux. unfold shr_fexp at 1. cbn [Zdigits2].
  remember (Zpos (digits2_pos m)) as d eqn:Dd.
  assert (F : fexp 53 1024 (d + e) - e = d - 53)
    by (unfold fexp, emin; lia).
  rewrite F.
  destruct (Z.eq_dec d 53) as [E|E].
  - rewrite E in *. change (53 - 53) with 0. change (53 - 1) with 52 in Hm1.
    cbn [shr shr_record_of_loc].
    cbn [shr_m loc_of_shr_record round_nearest_even].
    destruct (round_carry sx (Zpos m) e) as [m' [e' [H1 [H2 [H3 H4]]]]];
      [lia|lia|].
    exists m', e'. split; [exact H1|]. split; [exact H2|].
    split; [lia|]. rewrite H4. rewrite Z.sub_diag. simpl. lia.
  - destruct (d - 53) as [|p|p] eqn:Ep; try lia.
    cbn [shr shr_record_of_loc].
    set (mrs := iter_pos shr_1 p (Build_shr_record (Zpos m) false false)).
    assert (Hq : shr_m mrs = Zpos m / 2 ^ Zpos p).
    { unfold mrs. rewrite iter_shr_m; [reflexivity|simpl; lia]. }
    set (q := shr_m mrs) in *.
    set (P := 2 ^ Zpos p) in *.
    assert (HP : 0 < P) by (apply Z.pow_pos_nonneg; lia).
    assert (Hd1 : 2 ^ (d - 1) = P * 2 ^ 52).
    { unfold P. rewrite <- Z.pow_add_r by lia. f_equal. lia. }
    assert (Hd2 : 2 ^ d = P * 2 ^ 53).
    { unfold P. rewrite <- Z.pow_add_r by lia. f_equal. lia. }
    assert (Hq1 : 2 ^ 52 <= q).
    { rewrite Hq. apply Z.div_le_lower_bound; lia. }
    assert (Hq2 : q < 2 ^ 53).
    { rewrite Hq. apply Z.div_lt_upper_bound; lia. }
    pose proof (round_nearest_even_bounds q (loc_of_shr_record mrs)) as Hr.
    set (m1 := round_nearest_even q (loc_of_shr_record mrs)) in *.
    destruct (round_carry sx m1 (e + Zpos p)) as [m' [e' [H1 [H2 [H3 H4]]]]];
      [lia|lia|].
    exists m', e'. split; [exact H1|]. split; [exact H2|].
    split; [lia|].
    replace (e' - e) with ((e' - (e + Zpos p)) + Zpos p) by lia.
    rewrite Z.pow_add_r by lia. fold P. rewrite Z.mul_assoc, H4.
    assert (Hm : q * P <= Zpos m < (q + 1) * P).
    { rewrite Hq. split.
      - rewrite Z.mul_comm. apply Z.mul_div_le. lia.
      - pose proof (Z.mul_succ_div_gt (Zpos m) P HP). lia. }
    assert (Hc : m1 = q \/ m1 = q + 1) by lia.
    destruct Hc as [-> | ->]; lia.
Qed.

Lemma iter_xO (d m : positive) :
  Zpos (Pos.iter xO m d) = Zpos m * 2 ^ Zpos d.
Proof.
  induction d as [|d IH] using Pos.peano_ind.
  - simpl. lia.
  - rewrite Pos.iter_succ, (Pos2Z.inj_xO (Pos.iter xO m d)), IH.
    rewrite Pos2Z.inj_succ, Z.pow_succ_r by lia. lia.
Qed.

Lemma digits2_pos_mul (a b : positive) :
  Zpos (digits2_pos a) + Zpos (digits2_pos b) - 1
  <= Zpos (digits2_pos (a * b))
  <= Zpos (digits2_pos a) + Zpos (digits2_pos b).
Proof.
  pose proof (digits2_pos_spec a) as [A1 A2].
  pose proof (digits2_pos_spec b) as [B1 B2].
  set (da := Zpos (digits2_pos a)) in *.
  set (db := Zpos (digits2_pos b)) in *.
  assert (Hda : 1 <= da) by (unfold da; lia).
  assert (Hdb : 1 <= db) by (unfold db; lia).
  assert (L : 2 ^ (da + db - 2) <= Zpos (a * b)).
  { replace (da + db - 2) with ((da - 1) + (db - 1)) by lia.
    rewrite Z.pow_add_r, Pos2Z.inj_mul by lia.
    apply Z.mul_le_mono_nonneg; try lia; apply Z.pow_nonneg; lia. }
  assert (U : Zpos (a * b) < 2 ^ (da + db)).
  { rewrite Z.pow_add_r, Pos2Z.inj_mul by lia.
    apply Z.mul_lt_mono_nonneg; lia. }
  destruct (Z.lt_ge_cases (Zpos (a * b)) (2 ^ (da + db - 1))) as [H|H].
  - rewrite (digits2_pos_unique (a * b) (da + db - 1)); [lia|].
    replace (da + db - 1 - 1) with (da + db - 2) by lia. lia.
  - rewrite (digits2_pos_unique (a * b) (da + db)); [lia|]. lia.
Qed.

(** From the integer error bound to the rationals. *)
Lemma rounding_error_Q (m m' : positive) (e e' : Z) :
  e <= e' ->
  2 ^ 52 * Z.abs (Zpos m' * 2 ^ (e' - e) - Zpos m) <= Zpos m ->
  let v := (inject_Z (Zpos m) * 2 ^ e)%Q in
  let r := (inject_Z (Zpos m') * 2 ^ e')%Q in
  (v * (1 - ulp) <= r /\ r <= v * (1 + ulp))%Q.
Proof.
  intros He Herr v r.
  assert (X : (0 < 2 ^ e)%Q) by (apply Qpower_0_lt; reflexivity).
  set (D := Zpos m' * 2 ^ (e' - e) - Zpos m) in *.
  assert (Er : (r == (inject_Z D + inject_Z (Zpos m)) * 2 ^ e)%Q).
  { unfold r, D. replace e' with ((e' - e) + e) at 1 by lia.
    rewrite Qpower_plus by discriminate.
    unfold Z.sub at 2. rewrite inject_Z_plus, inject_Z_opp, inject_Z_mult.
    rewrite Zpower_Qpower by lia. change (inject_Z 2) with 2%Q. ring. }
  assert (H1 : (- inject_Z (Zpos m) <= 4503599627370496 * inject_Z D)%Q).
  { change 4503599627370496%Q with (inject_Z (2 ^ 52)).
    rewrite <- inject_Z_mult, <- inject_Z_opp, <- Zle_Qle. lia. }
  assert (H2 : (4503599627370496 * inject_Z D <= inject_Z (Zpos m))%Q).
  { change 4503599627370496%Q with (inject_Z (2 ^ 52)).
    rewrite <- inject_Z_mult, <- Zle_Qle. lia. }
  rewrite Er. unfold v, ulp.
  set (iD := inject_Z D) in *. set (im := inject_Z (Zpos m)) in *.
  set (P := (2 ^ e)%Q) in *.
  split.
  - setoid_replace (im * P * (1 - (1 # 4503599627370496)))%Q
      with (im * (1 - (1 # 4503599627370496)) * P)%Q by ring.
    apply Qmult_le_compat_r; [lra|lra].
  - setoid_replace (im * P * (1 + (1 # 4503599627370496)))%Q
      with (im * (1 + (1 # 4503599627370496)) * P)%Q by ring.
    apply Qmult_le_compat_r; [lra|lra].
Qed.

(** [float(n)] of a positive [int]. *)
Lemma of_int_spec (n : positive) :
  exists (m : positive) (e : Z),
    PyFloat.of_int (Zpos n)
    = (if e <=? 971 then Ok (S754_finite false m e)
       else Raise OverflowError) /\
    Zpos (digits2_pos m) = 53 /\
    Zpos (digits2_pos n) - 53 <= e <= Zpos (digits2_pos n) - 52 /\
    (inject_Z (Zpos n) * (1 - ulp) <= inject_Z (Zpos m) * 2 ^ e
     /\ inject_Z (Zpos m) * 2 ^ e <= inject_Z (Zpos n) * (1 + ulp))%Q.
Proof.
  pose proof (digits2_pos_spec n) as [N1 N2].
  unfold PyFloat.of_int, binary_normalize, binary_round, PyFloat.prec,
    PyFloat.emax.
  remember (Zpos (digits2_pos n)) as dn eqn:Dn.
  assert (Hdn : 1 <= dn) by lia.
  assert (F : fexp 53 1024 (dn + 0) = dn - 53) by (unfold fexp, emin; lia).
  rewrite F. unfold shl_align.
  destruct (dn - 53 - 0) as [|p|p] eqn:Ep.
  - destruct (binary_round_aux_spec false n 0) as [m [e [H1 [H2 [H3 H4]]]]];
      [lia|lia|].
    exists m, e. rewrite <- Dn in H3. split; [|split; [exact H2|split; [lia|]]].
    + rewrite H1. destruct (e <=? 971); reflexivity.
    + pose proof (rounding_error_Q n m 0 e ltac:(lia) H4) as R.
      cbv zeta in R.
      change (2 ^ 0)%Q with 1%Q in R. rewrite !Qmult_1_r in R. exact R.
  - destruct (binary_round_aux_spec false n 0) as [m [e [H1 [H2 [H3 H4]]]]];
      [lia|lia|].
    exists m, e. rewrite <- Dn in H3. split; [|split; [exact H2|split; [lia|]]].
    + rewrite H1. destruct (e <=? 971); reflexivity.
    + pose proof (rounding_error_Q n m 0 e ltac:(lia) H4) as R.
      cbv zeta in R.
      change (2 ^ 0)%Q with 1%Q in R. rewrite !Qmult_1_r in R. exact R.
  - set (mz := Pos.iter xO n p).
    assert (Hmz : Zpos mz = Zpos n * 2 ^ Zpos p) by apply iter_xO.
    assert (Hp : Zpos p = 53 - dn) by lia.
    assert (Dz : Zpos (digits2_pos mz) = 53).
    { assert (E1 : 2 ^ (53 - 1) = 2 ^ (dn - 1) * 2 ^ Zpos p)
        by (rewrite <- Z.pow_add_r by lia; f_equal; lia).
      assert (E2 : 2 ^ 53 = 2 ^ dn * 2 ^ Zpos p)
        by (rewrite <- Z.pow_add_r by lia; f_equal; lia).
      apply digits2_pos_unique. rewrite Hmz, E1, E2. split.
      - apply Z.mul_le_mono_nonneg_r; [apply Z.pow_nonneg; lia|lia].
      - apply Z.mul_lt_mono_pos_r; [apply Z.pow_pos_nonneg; lia|lia]. }
    destruct (binary_round_aux_spec false mz (dn - 53))
      as [m [e [H1 [H2 [H3 H4]]]]]; [lia|lia|].
    exists m, e. rewrite Dz in H3. split; [|split; [exact H2|split; [lia|]]].
    + rewrite H1. destruct (e <=? 971); reflexivity.
    + pose proof (rounding_error_Q mz m (dn - 53) e ltac:(lia) H4) as R.
      cbv zeta in R.
      assert (V : (inject_Z (Zpos mz) * 2 ^ (dn - 53) == inject_Z (Zpos n))%Q).
      { rewrite Hmz, inject_Z_mult, Zpower_Qpower by lia.
        change (inject_Z 2) with 2%Q.
        rewrite <- Qmult_assoc, <- Qpower_plus by discriminate.
        replace (Zpos p + (dn - 53)) with 0 by lia.
        change (2 ^ 0)%Q with 1%Q. ring. }
      rewrite V in R. exact R.
Qed.

(** [int(x)] of a positive float is the floor of its value. *)
Lemma to_int_spec (m : positive) (e : Z) :
  exists c, PyFloat.to_int (S754_finite false m e) = Ok c /\ 0 <= c /\
    (inject_Z c <= inject_Z (Zpos m) * 2 ^ e /\
     inject_Z (Zpos m) * 2 ^ e < inject_Z c + 1)%Q.
Proof.
  unfold PyFloat.to_int. destruct e as [|p|p].
  - exists (Zpos m). change (2 ^ 0)%Q with 1%Q.
    split; [reflexivity|]. split; [lia|]. rewrite Qmult_1_r. split; lra.
  - exists (Zpos m * 2 ^ Zpos p). split; [reflexivity|].
    split; [apply Z.mul_nonneg_nonneg; [lia|apply Z.pow_nonneg; lia]|].
    rewrite inject_Z_mult, Zpower_Qpower by lia.
    change (inject_Z 2) with 2%Q.
    set (v := (inject_Z (Zpos m) * 2 ^ Zpos p)%Q). split; lra.
  - set (P := 2 ^ Zpos p).
    assert (HP : 0 < P) by (apply Z.pow_pos_nonneg; lia).
    exists (Zpos m / P). split; [reflexivity|].
    split; [apply Z.div_pos; lia|].
    assert (Hc : Zpos m / P * P <= Zpos m < (Zpos m / P + 1) * P).
    { split.
      - rewrite Z.mul_comm. apply Z.mul_div_le. lia.
      - pose proof (Z.mul_succ_div_gt (Zpos m) P HP). lia. }
    set (c := Zpos m / P) in *.
    assert (iP : (0 < inject_Z P)%Q).
    { change 0%Q with (inject_Z 0). rewrite <- Zlt_Qlt. exact HP. }
    assert (V : (inject_Z (Zpos m) * 2 ^ Zneg p * inject_Z P
                 == inject_Z (Zpos m))%Q).
    { unfold P. rewrite Zpower_Qpower by lia. change (inject_Z 2) with 2%Q.
      rewrite <- Qmult_assoc, <- Qpower_plus by discriminate.
      replace (Zneg p + Zpos p) with 0 by lia.
      change (2 ^ 0)%Q with 1%Q. ring. }
    split.
    + apply (Qmult_le_r _ _ (inject_Z P) iP). rewrite V.
      rewrite <- inject_Z_mult, <- Zle_Qle. lia.
    + apply (Qmult_lt_r _ _ (inject_Z P) iP). rewrite V.
      change 1%Q with (inject_Z 1).
      rewrite <- inject_Z_plus, <- inject_Z_mult, <- Zlt_Qlt. lia.
Qed.

(** The product of two normal floats. *)
Lemma mul_spec (mx mw : positive) (ex ew : Z) :
  Zpos (digits2_pos mx) = 53 -> Zpos (digits2_pos mw) = 53 ->
  -1074 <= ex + ew ->
  exists (m : positive) (e : Z),
    PyFloat.mul (S754_finite false mx ex) (S754_finite false mw ew)
    = (if e <=? 971 then S754_finite false m e else S754_infinity false) /\
    e <= ex + ew + 54 /\
    let v := ((inject_Z (Zpos mx) * 2 ^ ex)
              * (inject_Z (Zpos mw) * 2 ^ ew))%Q in
    (v * (1 - ulp) <= inject_Z (Zpos m) * 2 ^ e
     /\ inject_Z (Zpos m) * 2 ^ e <= v * (1 + ulp))%Q.
Proof.
  intros Dx Dw He. pose proof (digits2_pos_mul mx mw) as [D1 D2].
  rewrite Dx, Dw in D1, D2.
  destruct (binary_round_aux_spec false (mx * mw) (ex + ew))
    as [m [e [H1 [H2 [H3 H4]]]]]; [lia|lia|].
  exists m, e. split; [exact H1|]. split; [lia|].
  pose proof (rounding_error_Q (mx * mw) m (ex + ew) e ltac:(lia) H4) as R.
  cbv zeta in R |- *.
  assert (V : (inject_Z (Zpos (mx * mw)) * 2 ^ (ex + ew)
               == inject_Z (Zpos mx) * 2 ^ ex
                  * (inject_Z (Zpos mw) * 2 ^ ew))%Q).
  { rewrite Pos2Z.inj_mul, inject_Z_mult, Qpower_plus by discriminate. ring. }
  rewrite V in R. exact R.
Qed.

(** [int(n * w)] for a count that is not negative and a weight below 1:
    the result is the floor of a product that was rounded twice. *)
Lemma int_mul_bounds (n : Z) (mw : positive) (ew : Z) :
  0 <= n < 2 ^ 1022 ->
  Zpos (digits2_pos mw) = 53 -> -1000 <= ew <= -53 ->
  exists c,
    PyFloat.int_mul n (S754_finite false mw ew) = Ok c /\ 0 <= c /\
    (inject_Z c <= inject_Z n * weight mw ew * (1 + ulp) * (1 + ulp) /\
     inject_Z n * weight mw ew * (1 - ulp) * (1 - ulp) < inject_Z c + 1)%Q.
Proof.
  intros [Hn0 Hn] Dw Hew. destruct n as [|n|n]; [| |lia].
  - exists 0. split; [reflexivity|]. split; [lia|].
    change (inject_Z 0) with 0%Q. split; lra.
  - pose proof (digits2_pos_spec n) as [N1 N2].
    assert (Hdn : Zpos (digits2_pos n) <= 1022).
    { destruct (Z.le_gt_cases (Zpos (digits2_pos n)) 1022); [assumption|].
      assert (2 ^ 1022 <= 2 ^ (Zpos (digits2_pos n) - 1))
        by (apply Z.pow_le_mono_r; lia).
      lia. }
    destruct (of_int_spec n) as [mx [ex [X1 [X2 [X3 [X4 X5]]]]]].
    destruct (mul_spec mx mw ex ew X2 Dw ltac:(lia))
      as [m [e [M1 [M2 [M3 M4]]]]].
    destruct (to_int_spec m e) as [c [C1 [C2 [C3 C4]]]].
    exists c. unfold PyFloat.int_mul. rewrite X1.
    replace (ex <=? 971) with true by (symmetry; apply Z.leb_le; lia).
    rewrite M1.
    replace (e <=? 971) with true by (symmetry; apply Z.leb_le; lia).
    split; [exact C1|]. split; [exact C2|].
    fold (weight mw ew) in M3, M4.
    assert (W : (0 < weight mw ew)%Q).
    { unfold weight. apply Qmult_lt_0_compat;
        [reflexivity|apply Qpower_0_lt; reflexivity]. }
    set (w := weight mw ew) in *.
    set (x := (inject_Z (Zpos mx) * 2 ^ ex)%Q) in *.
    set (r := (inject_Z (Zpos m) * 2 ^ e)%Q) in *.
    set (q := inject_Z (Zpos n)) in *.
    assert (U1 : (0 < 1 - ulp)%Q) by reflexivity.
    assert (U2 : (0 < 1 + ulp)%Q) by reflexivity.
    assert (A : (q * w * (1 - ulp) <= x * w)%Q).
    { setoid_replace (q * w * (1 - ulp))%Q with (q * (1 - ulp) * w)%Q by ring.
      apply Qmult_le_compat_r; [exact X4|lra]. }
    assert (B : (x * w <= q * w * (1 + ulp))%Q).
    { setoid_replace (q * w * (1 + ulp))%Q with (q * (1 + ulp) * w)%Q by ring.
      apply Qmult_le_compat_r; [exact X5|lra]. }
    assert (A' : (q * w * (1 - ulp) * (1 - ulp) <= x * w * (1 - ulp))%Q)
      by (apply Qmult_le_compat_r; [exact A|lra]).
    assert (B' : (x * w * (1 + ulp) <= q * w * (1 + ulp) * (1 + ulp))%Q)
      by (apply Qmult_le_compat_r; [exact B|lra]).
    split.
    + apply Qle_trans with r; [exact C3|].
      apply Qle_trans with (x * w * (1 + ulp))%Q; assumption.
    + apply Qle_lt_trans with r; [|exact C4].
      apply Qle_trans with (x * w * (1 - ulp))%Q; assumption.
Qed.

Lemma binary_round_aux_opp (s : bool) (m e : Z) (l : location) :
  binary_round_aux 53 1024 (negb s) m e l
  = SFopp (binary_round_aux 53 1024 s m e l).
Proof.
  unfold binary_round_aux.
  destruct (shr_fexp 53 1024 m e l) as [mrs e1].
  destruct (shr_fexp 53 1024 _ e1 loc_Exact) as [mrs2 e2].
  destruct (shr_m mrs2); try reflexivity.
  destruct (e2 <=? 1024 - 53); reflexivity.
Qed.

Lemma to_int_opp (x : spec_float) :
  PyFloat.to_int (SFopp x) = neg_result (PyFloat.to_int x).
Proof.
  destruct x as [s|s| |s m e]; try reflexivity.
  simpl. destruct s; simpl; [|reflexivity].
  now rewrite Z.opp_involutive.
Qed.

Lemma mul_opp (x : spec_float) (mw : positive) (ew : Z) :
  PyFloat.mul (SFopp x) (S754_finite false mw ew)
  = SFopp (PyFloat.mul x (S754_finite false mw ew)).
Proof.
  destruct x as [s|s| |s m e]; try reflexivity.
  - simpl. now destruct s.
  - simpl. now destruct s.
  - unfold PyFloat.mul, SFmul, SFopp.
    rewrite !xorb_false_r. apply binary_round_aux_opp.
Qed.

Lemma of_int_opp (n : Z) :
  n <> 0 ->
  PyFloat.of_int (- n)
  = match PyFloat.of_int n with
    | Ok x => Ok (SFopp x)
    | Raise e => Raise e
    end.
Proof.
  intro Hn. destruct n as [|p|p]; [contradiction| |].
  - unfold PyFloat.of_int, PyFloat.prec, PyFloat.emax.
    cbn [Z.opp binary_normalize]. unfold binary_round.
    destruct (shl_align _ _ _) as [mz ez].
    rewrite (binary_round_aux_opp false).
    destruct (binary_round_aux 53 1024 false (Zpos mz) ez loc_Exact);
      reflexivity.
  - unfold PyFloat.of_int, PyFloat.prec, PyFloat.emax.
    cbn [Z.opp binary_normalize]. unfold binary_round.
    destruct (shl_align _ _ _) as [mz ez].
    rewrite (binary_round_aux_opp true).
    destruct (binary_round_aux 53 1024 true (Zpos mz) ez loc_Exact);
      reflexivity.
Qed.

(** [int(-n * w) = -int(n * w)]: rounding and truncation are symmetric. *)
Lemma int_mul_opp (n : Z) (mw : positive) (ew : Z) :
  PyFloat.int_mul (- n) (S754_finite false mw ew)
  = neg_result (PyFloat.int_mul n (S754_finite false mw ew)).
Proof.
  destruct (Z.eq_dec n 0) as [->|Hn]; [reflexivity|].
  unfold PyFloat.int_mul. rewrite of_int_opp by assumption.
  destruct (PyFloat.of_int n) as [x|e]; [|reflexivity].
  now rewrite mul_opp, to_int_opp.
Qed.

(** An [int] of 1025 bits or more has no [float]. *)
Lemma of_int_overflow (n : Z) :
  2 ^ 1024 <= Z.abs n -> PyFloat.of_int n = Raise OverflowError.
Proof.
  assert (P : forall p, 2 ^ 1024 <= Zpos p ->
                        PyFloat.of_int (Zpos p) = Raise OverflowError).
  { intros p Hp. pose proof (digits2_pos_spec p) as [_ N2].
    assert (Hd : 1025 <= Zpos (digits2_pos p)).
    { destruct (Z.le_gt_cases 1025 (Zpos (digits2_pos p))); [assumption|].
      assert (2 ^ Zpos (digits2_pos p) <= 2 ^ 1024)
        by (apply Z.pow_le_mono_r; lia).
      lia. }
    destruct (of_int_spec p) as [m [e [X1 [_ [X3 _]]]]].
    rewrite X1.
    replace (e <=? 971) with false by (symmetry; apply Z.leb_gt; lia).
    reflexivity. }
  intro H. destruct n as [|p|p].
  - simpl in H. lia.
  - apply P. exact H.
  - change (Zneg p) with (- Zpos p).
    rewrite of_int_opp, P; [reflexivity|exact H|discriminate].
Qed.

(** The weights of the three sources. *)
Lemma weight_0_4 : (weight 7205759403792794 (-54) == 7205759403792794 # 18014398509481984)%Q.
Proof. reflexivity. Qed.

(** ** Truncated shares of a total *)

(** Three truncated shares whose weights add up to less than 1 leave a
    remainder that is not negative. *)
Lemma shares_below_total (n : Z) (m1 m2 m3 : positive) (e1 e2 e3 : Z) :
  0 <= n < 2 ^ 1022 ->
  Zpos (digits2_pos m1) = 53 -> -1000 <= e1 <= -53 ->
  Zpos (digits2_pos m2) = 53 -> -1000 <= e2 <= -53 ->
  Zpos (digits2_pos m3) = 53 -> -1000 <= e3 <= -53 ->
  ((weight m1 e1 + weight m2 e2 + weight m3 e3) * (1 + ulp) * (1 + ulp)
   <= 1)%Q ->
  exists c1 c2 c3,
    PyFloat.int_mul n (S754_finite false m1 e1) = Ok c1 /\
    PyFloat.int_mul n (S754_finite false m2 e2) = Ok c2 /\
    PyFloat.int_mul n (S754_finite false m3 e3) = Ok c3 /\
    0 <= c1 /\ 0 <= c2 /\ 0 <= c3 /\ c1 + c2 + c3 <= n.
Proof.
  intros Hn D1 E1 D2 E2 D3 E3 K.
  destruct (int_mul_bounds n m1 e1 Hn D1 E1) as [c1 [A1 [B1 [U1 _]]]].
  destruct (int_mul_bounds n m2 e2 Hn D2 E2) as [c2 [A2 [B2 [U2 _]]]].
  destruct (int_mul_bounds n m3 e3 Hn D3 E3) as [c3 [A3 [B3 [U3 _]]]].
  exists c1, c2, c3. repeat (split; [assumption|]).
  rewrite Zle_Qle, !inject_Z_plus.
  assert (Q0 : (0 <= inject_Z n)%Q).
  { change 0%Q with (inject_Z 0). rewrite <- Zle_Qle. lia. }
  set (q := inject_Z n) in *.
  set (w1 := weight m1 e1) in *. set (w2 := weight m2 e2) in *.
  set (w3 := weight m3 e3) in *.
  apply Qle_trans
    with (((w1 + w2 + w3) * (1 + ulp) * (1 + ulp)) * q)%Q.
  - setoid_replace ((w1 + w2 + w3) * (1 + ulp) * (1 + ulp) * q)%Q
      with (q * w1 * (1 + ulp) * (1 + ulp) + q * w2 * (1 + ulp) * (1 + ulp)
            + q * w3 * (1 + ulp) * (1 + ulp))%Q by ring.
    lra.
  - setoid_replace q with (1 * q)%Q at 2 by ring.
    apply Qmult_le_compat_r; assumption.
Qed.

(** The four truncated shares of the performance generator. *)
Lemma four_shares (n : Z) (m1 m2 m3 m4 : positive) (e1 e2 e3 e4 : Z) :
  0 <= n < 2 ^ 50 ->
  Zpos (digits2_pos m1) = 53 -> -1000 <= e1 <= -53 ->
  Zpos (digits2_pos m2) = 53 -> -1000 <= e2 <= -53 ->
  Zpos (digits2_pos m3) = 53 -> -1000 <= e3 <= -53 ->
  Zpos (digits2_pos m4) = 53 -> -1000 <= e4 <= -53 ->
  ((weight m1 e1 + weight m2 e2 + weight m3 e3 + weight m4 e4)
   * (1 + ulp) * (1 + ulp) <= 1 + (1 # 2 ^ 50))%Q ->
  (1 - (1 # 2 ^ 50)
   <= (weight m1 e1 + weight m2 e2 + weight m3 e3 + weight m4 e4)
      * (1 - ulp) * (1 - ulp))%Q ->
  exists c1 c2 c3 c4,
    PyFloat.int_mul n (S754_finite false m1 e1) = Ok c1 /\
    PyFloat.int_mul n (S754_finite false m2 e2) = Ok c2 /\
    PyFloat.int_mul n (S754_finite false m3 e3) = Ok c3 /\
    PyFloat.int_mul n (S754_finite false m4 e4) = Ok c4 /\
    0 <= c1 /\ 0 <= c2 /\ 0 <= c3 /\ 0 <= c4 /\
    n - 4 <= c1 + c2 + c3 + c4 <= n.
Proof.
  intros Hn D1 E1 D2 E2 D3 E3 D4 E4 KU KL.
  assert (Hn' : 0 <= n < 2 ^ 1022).
  { split; [lia|]. apply Z.lt_trans with (2 ^ 50); [lia|].
    apply Z.pow_lt_mono_r; lia. }
  destruct (int_mul_bounds n m1 e1 Hn' D1 E1) as [c1 [A1 [B1 [U1 L1]]]].
  destruct (int_mul_bounds n m2 e2 Hn' D2 E2) as [c2 [A2 [B2 [U2 L2]]]].
  destruct (int_mul_bounds n m3 e3 Hn' D3 E3) as [c3 [A3 [B3 [U3 L3]]]].
  destruct (int_mul_bounds n m4 e4 Hn' D4 E4) as [c4 [A4 [B4 [U4 L4]]]].
  exists c1, c2, c3, c4. repeat (split; [assumption|]).
  assert (Q0 : (0 <= inject_Z n)%Q).
  { change 0%Q with (inject_Z 0). rewrite <- Zle_Qle. lia. }
  assert (Q1 : (inject_Z n * (1 # 2 ^ 50) < 1)%Q).
  { assert (H : (inject_Z n < inject_Z (2 ^ 50))%Q)
      by (rewrite <- Zlt_Qlt; lia).
    change (inject_Z (2 ^ 50)) with (1125899906842624 # 1)%Q in H.
    change (1 # 2 ^ 50)%Q with (1 # 1125899906842624)%Q. lra. }
  set (q := inject_Z n) in *.
  set (w1 := weight m1 e1) in *. set (w2 := weight m2 e2) in *.
  set (w3 := weight m3 e3) in *. set (w4 := weight m4 e4) in *.
  set (s := inject_Z (c1 + c2 + c3 + c4)).
  assert (Es : (s == inject_Z c1 + inject_Z c2 + inject_Z c3 + inject_Z c4)%Q)
    by (unfold s; rewrite !inject_Z_plus; reflexivity).
  assert (HU : (s <= ((w1 + w2 + w3 + w4) * (1 + ulp) * (1 + ulp)) * q)%Q).
  { setoid_replace ((w1 + w2 + w3 + w4) * (1 + ulp) * (1 + ulp) * q)%Q
      with (q * w1 * (1 + ulp) * (1 + ulp) + q * w2 * (1 + ulp) * (1 + ulp)
            + q * w3 * (1 + ulp) * (1 + ulp)
            + q * w4 * (1 + ulp) * (1 + ulp))%Q by ring.
    lra. }
  assert (HL : (((w1 + w2 + w3 + w4) * (1 - ulp) * (1 - ulp)) * q < s + 4)%Q).
  { setoid_replace ((w1 + w2 + w3 + w4) * (1 - ulp) * (1 - ulp) * q)%Q
      with (q * w1 * (1 - ulp) * (1 - ulp) + q * w2 * (1 - ulp) * (1 - ulp)
            + q * w3 * (1 - ulp) * (1 - ulp)
            + q * w4 * (1 - ulp) * (1 - ulp))%Q by ring.
    lra. }
  assert (HU' : (s <= (1 + (1 # 2 ^ 50)) * q)%Q).
  { apply Qle_trans with (1 := HU). apply Qmult_le_compat_r; assumption. }
  assert (HL' : ((1 - (1 # 2 ^ 50)) * q < s + 4)%Q).
  { apply Qle_lt_trans with (2 := HL). apply Qmult_le_compat_r; assumption. }
  assert (S1 : (s < q + 1)%Q) by lra.
  assert (S2 : (q - 5 < s)%Q) by lra.
  unfold s, q in S1, S2.
  change 1%Q with (inject_Z 1) in S1. change 5%Q with (inject_Z 5) in S2.
  rewrite <- inject_Z_plus, <- Zlt_Qlt in S1.
  unfold Qminus in S2.
  rewrite <- inject_Z_opp, <- inject_Z_plus, <- Zlt_Qlt in S2.
  lia.
Qed.

Lemma document_weights :
  ((weight 7205759403792794 (-54) + weight 6305039478318694 (-54)
    + weight 7205759403792794 (-55)) * (1 + ulp) * (1 + ulp) <= 1)%Q.
Proof. vm_compute. discriminate. Qed.

Lemma logs_weights :
  ((weight 4503599627370496 (-53) + weight 5404319552844595 (-54)
    + weight 5404319552844595 (-55)) * (1 + ulp) * (1 + ulp) <= 1)%Q.
Proof. vm_compute. discriminate. Qed.

Lemma performance_weights :
  let w := (weight 7205759403792794 (-54) + weight 6305039478318694 (-54)
            + weight 7205759403792794 (-55)
            + weight 7205759403792794 (-57))%Q in
  (w * (1 + ulp) * (1 + ulp) <= 1 + (1 # 2 ^ 50))%Q /\
  (1 - (1 # 2 ^ 50) <= w * (1 - ulp) * (1 - ulp))%Q.
Proof. split; vm_compute; discriminate. Qed.

Lemma int_mul_neg (n : Z) (mw : positive) (ew : Z) :
  PyFloat.int_mul n (S754_finite false mw ew)
  = neg_result (PyFloat.int_mul (- n) (S754_finite false mw ew)).
Proof. now rewrite <- int_mul_opp, Z.opp_involutive. Qed.

Lemma document_mixed_counts_signed (total_count : Z) :
  Z.abs total_count < 2 ^ 1022 ->
  exists c1 c2 c3 c4,
    DocumentGenerator.mixed_counts total_count = Ok (c1, c2, c3, c4) /\
    c1 + c2 + c3 + c4 = total_count /\
    same_sign total_count [c1; c2; c3; c4].
Proof.
  intro Hn. unfold DocumentGenerator.mixed_counts, PyFloat.lit_0_4,
    PyFloat.lit_0_35, PyFloat.lit_0_2.
  destruct (Z.le_gt_cases 0 total_count) as [H0|H0].
  - destruct (shares_below_total total_count
                7205759403792794 6305039478318694 7205759403792794
                (-54) (-54) (-55))
      as [c1 [c2 [c3 [E1 [E2 [E3 [P1 [P2 [P3 S]]]]]]]]];
      try reflexivity; try lia; [exact document_weights|].
    rewrite E1, E2, E3.
    exists c1, c2, c3, (total_count - c1 - c2 - c3).
    split; [reflexivity|]. split; [lia|]. split; intro H.
    + repeat constructor; lia.
    + repeat constructor; lia.
  - destruct (shares_below_total (- total_count)
                7205759403792794 6305039478318694 7205759403792794
                (-54) (-54) (-55))
      as [c1 [c2 [c3 [E1 [E2 [E3 [P1 [P2 [P3 S]]]]]]]]];
      try reflexivity; try lia; [exact document_weights|].
    rewrite !(int_mul_neg total_count), E1, E2, E3. cbn [neg_result].
    exists (- c1), (- c2), (- c3), (total_count - - c1 - - c2 - - c3).
    split; [reflexivity|]. split; [lia|]. split; intro H.
    + lia.
    + repeat constructor; lia.
Qed.

Lemma logs_mixed_counts_signed (count : Z) :
  Z.abs count < 2 ^ 1022 ->
  exists c1 c2 c3 c4,
    LogsGenerator.mixed_counts count = Ok (c1, c2, c3, c4) /\
    c1 + c2 + c3 + c4 = count /\
    same_sign count [c1; c2; c3; c4].
Proof.
  intro Hn. unfold LogsGenerator.mixed_counts, PyFloat.lit_0_5,
    PyFloat.lit_0_3, PyFloat.lit_0_15.
  destruct (Z.le_gt_cases 0 count) as [H0|H0].
  - destruct (shares_below_total count
                4503599627370496 5404319552844595 5404319552844595
                (-53) (-54) (-55))
      as [c1 [c2 [c3 [E1 [E2 [E3 [P1 [P2 [P3 S]]]]]]]]];
      try reflexivity; try lia; [exact logs_weights|].
    rewrite E1, E2, E3.
    exists c1, c2, c3, (count - c1 - c2 - c3).
    split; [reflexivity|]. split; [lia|]. split; intro H.
    + repeat constructor; lia.
    + repeat constructor; lia.
  - destruct (shares_below_total (- count)
                4503599627370496 5404319552844595 5404319552844595
                (-53) (-54) (-55))
      as [c1 [c2 [c3 [E1 [E2 [E3 [P1 [P2 [P3 S]]]]]]]]];
      try reflexivity; try lia; [exact logs_weights|].
    rewrite !(int_mul_neg count), E1, E2, E3. cbn [neg_result].
    exists (- c1), (- c2), (- c3), (count - - c1 - - c2 - - c3).
    split; [reflexivity|]. split; [lia|]. split; intro H.
    + lia.
    + repeat constructor; lia.
Qed.

Lemma performance_distribution_signed (total_count : Z) :
  Z.abs total_count < 2 ^ 50 ->
  exists c1 c2 c3 c4,
    PerformanceGen.type_distribution total_count
    = Ok [(small, c1); (medium, c2); (large, c3); (huge, c4)] /\
    PyFloat.int_mul total_count PyFloat.lit_0_4 = Ok c1 /\
    same_sign total_count [c1; c2; c3; c4] /\
    (0 <= total_count ->
     total_count - 4 <= c1 + c2 + c3 + c4 <= total_count).
Proof.
  intro Hn. unfold PerformanceGen.type_distribution, PyFloat.lit_0_4,
    PyFloat.lit_0_35, PyFloat.lit_0_2, PyFloat.lit_0_05.
  destruct performance_weights as [KU KL]. cbv zeta in KU, KL.
  destruct (Z.le_gt_cases 0 total_count) as [H0|H0].
  - destruct (four_shares total_count
                7205759403792794 6305039478318694 7205759403792794
                7205759403792794 (-54) (-54) (-55) (-57))
      as [c1 [c2 [c3 [c4 [E1 [E2 [E3 [E4 [P1 [P2 [P3 [P4 S]]]]]]]]]]]];
      try reflexivity; try lia; try assumption.
    rewrite E1, E2, E3, E4. exists c1, c2, c3, c4.
    split; [reflexivity|]. split; [reflexivity|].
    split; [|intros _; exact S]. split; intro H.
    + repeat constructor; lia.
    + repeat constructor; lia.
  - destruct (four_shares (- total_count)
                7205759403792794 6305039478318694 7205759403792794
                7205759403792794 (-54) (-54) (-55) (-57))
      as [c1 [c2 [c3 [c4 [E1 [E2 [E3 [E4 [P1 [P2 [P3 [P4 S]]]]]]]]]]]];
      try reflexivity; try lia; try assumption.
    rewrite !(int_mul_neg total_count), E1, E2, E3, E4. cbn [neg_result].
    exists (- c1), (- c2), (- c3), (- c4).
    split; [reflexivity|]. split; [reflexivity|].
    split; [|lia]. split; intro H.
    + lia.
    + repeat constructor; lia.
Qed.

(** Three documents or more: the small tier gets at least one. *)
Lemma small_share_positive (n : Z) :
  3 <= n < 2 ^ 1022 ->
  exists c, PyFloat.int_mul n PyFloat.lit_0_4 = Ok c /\ 1 <= c.
Proof.
  intros [H3 Hn]. unfold PyFloat.lit_0_4.
  destruct (int_mul_bounds n 7205759403792794 (-54))
    as [c [E [_ [_ L]]]]; try reflexivity; try lia.
  exists c. split; [exact E|].
  assert (K : (1 <= 3 * (weight 7205759403792794 (-54)
                         * (1 - ulp) * (1 - ulp)))%Q)
    by (vm_compute; discriminate).
  assert (W : (0 <= weight 7205759403792794 (-54) * (1 - ulp) * (1 - ulp))%Q)
    by (vm_compute; discriminate).
  assert (Q3 : (3 <= inject_Z n)%Q).
  { change 3%Q with (inject_Z 3). rewrite <- Zle_Qle. exact H3. }
  set (q := inject_Z n) in *.
  set (k := (weight 7205759403792794 (-54) * (1 - ulp) * (1 - ulp))%Q) in *.
  assert (M : (3 * k <= q * k)%Q) by (apply Qmult_le_compat_r; assumption).
  assert (L' : (q * k < inject_Z c + 1)%Q).
  { setoid_replace (q * k)%Q
      with (q * weight 7205759403792794 (-54) * (1 - ulp) * (1 - ulp))%Q
      by (unfold k; ring).
    exact L. }
  assert (C : (0 < inject_Z c)%Q) by lra.
  change 0%Q with (inject_Z 0) in C. rewrite <- Zlt_Qlt in C. lia.
Qed.

(** A count of 1025 bits or more cannot be multiplied by a weight. *)
Lemma mixed_counts_overflow (n : Z) :
  2 ^ 1024 <= Z.abs n ->
  DocumentGenerator.mixed_counts n = Raise OverflowError /\
  LogsGenerator.mixed_counts n = Raise OverflowError /\
  PerformanceGen.type_distribution n = Raise OverflowError.
Proof.
  intro H. pose proof (of_int_overflow n H) as E.
  unfold DocumentGenerator.mixed_counts, LogsGenerator.mixed_counts,
    PerformanceGen.type_distribution, PyFloat.int_mul.
  rewrite E. repeat split.
Qed.

(** ** The size of a corpus *)

Lemma ensures_returns {RT : Runtime} {A} (m : Gen A) a
  (P : A -> Ambient -> Prop) :
  ensures m a P no_raise -> exists x a', m a = (Ok x, a') /\ P x a'.
Proof.
  unfold ensures. destruct (m a) as [[x|e] a']; [eauto|intros []].
Qed.

Lemma same_sign_max (n c1 c2 c3 c4 : Z) :
  same_sign n [c1; c2; c3; c4] -> c1 + c2 + c3 + c4 = n ->
  Z.max 0 c1 + Z.max 0 c2 + Z.max 0 c3 + Z.max 0 c4 = Z.max 0 n.
Proof.
  intros [Hp Hn] Hs. destruct (Z.le_gt_cases 0 n) as [H|H].
  - specialize (Hp H). inversion_clear Hp as [|? ? P1 Hp1].
    inversion_clear Hp1 as [|? ? P2 Hp2].
    inversion_clear Hp2 as [|? ? P3 Hp3].
    inversion_clear Hp3 as [|? ? P4 _]. lia.
  - specialize (Hn ltac:(lia)). inversion_clear Hn as [|? ? P1 Hp1].
    inversion_clear Hp1 as [|? ? P2 Hp2].
    inversion_clear Hp2 as [|? ? P3 Hp3].
    inversion_clear Hp3 as [|? ? P4 _]. lia.
Qed.

Lemma len_perm {A} (l1 l2 : list A) : Permutation l1 l2 -> len l1 = len l2.
Proof. intro H. unfold len. now rewrite (Permutation_length H). Qed.

Lemma len_four_blocks (t1 t2 t3 t4 : tier) (s1 s2 s3 s4 c1 c2 c3 c4 : Z) :
  len (keys_of [(t1, s1, c1); (t2, s2, c2); (t3, s3, c3); (t4, s4, c4)])
  = Z.max 0 c1 + Z.max 0 c2 + Z.max 0 c3 + Z.max 0 c4.
Proof.
  unfold keys_of. cbn [flat_map].
  rewrite app_nil_r, !len_app, !len_block_keys. cbn [snd]. lia.
Qed.

Section CorpusSizes.
Context {RT : Runtime} {SH : Shapes}.

Lemma document_corpus_size_lemma doc_type count a :
  Z.abs count < 2 ^ 1022 ->
  exists docs a',
    DocumentGenerator.generate_documents doc_type count a = (Ok docs, a') /\
    len docs = Z.max 0 count.
Proof.
  intro Hn. destruct doc_type as [t|]; cbn [DocumentGenerator.generate_documents].
  - destruct (ensures_returns _ _ _ (tier_documents_block t count a))
      as [docs [a' [E H]]].
    exists docs, a'. split; [exact E|].
    rewrite <- (len_map doc_id), H, len_map, len_block_keys. reflexivity.
  - destruct (document_mixed_counts_signed count Hn)
      as [c1 [c2 [c3 [c4 [E [Hs Hg]]]]]].
    pose proof (generate_mixed_documents_spec count a) as S.
    unfold ensures in S.
    destruct (DocumentGenerator.generate_mixed_documents count a)
      as [[docs|e] a']; [|congruence].
    destruct S as [d1 [d2 [d3 [d4 [E' P]]]]].
    rewrite E in E'. injection E' as <- <- <- <-.
    exists docs, a'. split; [reflexivity|].
    rewrite <- (len_map doc_id), (len_perm _ _ P), len_map, len_four_blocks.
    now apply same_sign_max.
Qed.

(** *** The logs generator *)

Lemma generate_log_id (k : log_kind) (n : Z) a :
  ensures (LogsGenerator.generate_log k
             (Some (fmt_id (LogsGenerator.kind_name k) n))) a
    (fun d _ => doc_id d = Some (fmt_id (LogsGenerator.kind_name k) n))
    no_raise.
Proof.
  unfold LogsGenerator.generate_log.
  apply ensures_bind, ensures_total.
  replace (id_or_uuid (Some (fmt_id (LogsGenerator.kind_name k) n)))
    with (ret (fmt_id (LogsGenerator.kind_name k) n))
    by (destruct k; reflexivity).
  apply ensures_bind, ensures_ret, ensures_bind, ensures_total, ensures_ret.
  reflexivity.
Qed.

Lemma kind_logs_ids (k : log_kind) (count : Z) a :
  ensures (LogsGenerator.kind_logs k count) a
    (fun logs _ => map doc_id logs = kind_ids k count) no_raise.
Proof.
  unfold LogsGenerator.kind_logs, kind_ids.
  eapply ensures_weaken.
  - apply (ensures_mapM _
             (fun i d => doc_id d
                         = Some (fmt_id (LogsGenerator.kind_name k) i))).
    intros i a0 _. apply generate_log_id.
  - intros logs a' H. simpl in H. apply Forall2_map_eq. exact H.
  - auto.
Qed.

Lemma generate_mixed_logs_spec count a :
  ensures (LogsGenerator.generate_mixed_logs count) a
    (fun logs _ =>
       exists c1 c2 c3 c4,
         LogsGenerator.mixed_counts count = Ok (c1, c2, c3, c4) /\
         Permutation (map doc_id logs)
           (kind_ids log_app c1 ++ kind_ids log_access c2
            ++ kind_ids log_metric c3 ++ kind_ids log_security c4))
    (fun e _ => LogsGenerator.mixed_counts count = Raise e).
Proof.
  unfold LogsGenerator.generate_mixed_logs.
  apply ensures_bind, ensures_lift_result.
  destruct (LogsGenerator.mixed_counts count)
    as [[[[c1 c2] c3] c4]|e]; [|reflexivity].
  apply ensures_bind.
  eapply ensures_weaken; [apply kind_logs_ids| |intros ? ? []].
  intros d1 a1 H1. apply ensures_bind.
  eapply ensures_weaken; [apply kind_logs_ids| |intros ? ? []].
  intros d2 a2 H2. apply ensures_bind.
  eapply ensures_weaken; [apply kind_logs_ids| |intros ? ? []].
  intros d3 a3 H3. apply ensures_bind.
  eapply ensures_weaken; [apply kind_logs_ids| |intros ? ? []].
  intros d4 a4 H4. apply ensures_on_rnd.
  exists c1, c2, c3, c4. split; [reflexivity|].
  eapply Permutation_trans;
    [apply Permutation_map, random_shuffle_perm|].
  rewrite !map_app, H1, H2, H3, H4. apply Permutation_refl.
Qed.

Lemma len_kind_ids k count : len (kind_ids k count) = Z.max 0 count.
Proof. unfold kind_ids. now rewrite len_map, len_range. Qed.

Lemma logs_corpus_size_lemma count log_type fmt seed a :
  Z.abs count < 2 ^ 1022 ->
  exists logs a',
    LogsGenerator.generate (LogsGenerator.mkArgs count log_type fmt seed) a
    = (Ok logs, a') /\
    len logs = Z.max 0 count.
Proof.
  intro Hn. unfold LogsGenerator.generate.
  cbn [LogsGenerator.arg_type LogsGenerator.arg_count].
  destruct log_type as [k|].
  - destruct (ensures_returns _ _ _ (kind_logs_ids k count a))
      as [logs [a' [E H]]].
    exists logs, a'. split; [exact E|].
    now rewrite <- (len_map doc_id), H, len_kind_ids.
  - destruct (logs_mixed_counts_signed count Hn)
      as [c1 [c2 [c3 [c4 [E [Hs Hg]]]]]].
    pose proof (generate_mixed_logs_spec count a) as S.
    unfold ensures in S.
    destruct (LogsGenerator.generate_mixed_logs count a)
      as [[logs|e] a']; [|congruence].
    destruct S as [d1 [d2 [d3 [d4 [E' P]]]]].
    rewrite E in E'. injection E' as <- <- <- <-.
    exists logs, a'. split; [reflexivity|].
    rewrite <- (len_map doc_id), (len_perm _ _ P), !len_app, !len_kind_ids.
    rewrite !Z.add_assoc. now apply same_sign_max.
Qed.

End CorpusSizes.

Lemma kind_name_inj (k1 k2 : log_kind) (i j : Z) :
  fmt_id (LogsGenerator.kind_name k1) i = fmt_id (LogsGenerator.kind_name k2) j
  -> k1 = k2.
Proof.
  unfold fmt_id. destruct k1, k2; simpl; intro H;
    try reflexivity; discriminate H.
Qed.

Lemma kind_ids_NoDup (k : log_kind) (count : Z) : NoDup (kind_ids k count).
Proof.
  unfold kind_ids. apply Finite.Injective_map_NoDup; [|apply range_NoDup].
  intros i j H. apply (fmt_id_inj (LogsGenerator.kind_name k)). congruence.
Qed.

Lemma kind_ids_kind (k : log_kind) (count : Z) (x : option string) :
  In x (kind_ids k count) ->
  exists i, x = Some (fmt_id (LogsGenerator.kind_name k) i).
Proof.
  unfold kind_ids. rewrite in_map_iff. intros [i [<- _]]. eauto.
Qed.

Lemma kind_ids_disjoint (k1 k2 : log_kind) (c1 c2 : Z) (x : option string) :
  k1 <> k2 -> In x (kind_ids k1 c1) -> In x (kind_ids k2 c2) -> False.
Proof.
  intros Hk H1 H2.
  apply kind_ids_kind in H1 as [i ->]. apply kind_ids_kind in H2 as [j H].
  injection H as H. apply kind_name_inj in H. contradiction.
Qed.

Lemma mixed_log_ids_NoDup (c1 c2 c3 c4 : Z) :
  NoDup (kind_ids log_app c1 ++ kind_ids log_access c2
         ++ kind_ids log_metric c3 ++ kind_ids log_security c4).
Proof.
  apply NoDup_app_disjoint; [apply kind_ids_NoDup| |].
  - apply NoDup_app_disjoint; [apply kind_ids_NoDup| |].
    + apply NoDup_app_disjoint; try apply kind_ids_NoDup.
      intros x H1 H2.
      (refine (kind_ids_disjoint _ _ _ _ x _ H1 H2); discriminate).
    + intros x H1 H2. rewrite !in_app_iff in H2.
      destruct H2 as [H2|H2];
        (refine (kind_ids_disjoint _ _ _ _ x _ H1 H2); discriminate).
  - intros x H1 H2. rewrite !in_app_iff in H2.
    destruct H2 as [H2|[H2|H2]];
      (refine (kind_ids_disjoint _ _ _ _ x _ H1 H2); discriminate).
Qed.

(** ** What the programs report *)

Lemma len_nil_inv {A} (l : list A) : len l = 0 -> l = [].
Proof. destruct l; [reflexivity|]. unfold len. simpl. lia. Qed.

Section MainOutcomes.
Context {RT : Runtime} {SH : Shapes}.

Lemma ndjson_text_size (documents : list Document) :
  Z.of_nat (String.length (ndjson_text documents))
  = serialised_size documents + len documents.
Proof.
  induction documents as [|d rest IH]; [reflexivity|].
  change (ndjson_text (d :: rest))
    with ((json_dumps d ++ newline) ++ ndjson_text rest).
  unfold serialised_size in *. cbn [map fold_right].
  rewrite !append_length, len_cons.
  change (String.length newline) with 1%nat. lia.
Qed.

Lemma save_as_ndjson_size (documents : list Document) :
  getsize (save_as_ndjson documents)
  = serialised_size documents + len documents.
Proof.
  unfold getsize. rewrite save_as_ndjson_content. apply ndjson_text_size.
Qed.

Lemma performance_corpus_size_lemma self n doc_type bs a :
  0 < bs -> Z.abs n < 2 ^ 50 ->
  exists docs a',
    PerformanceGen.generate_performance_dataset self n doc_type bs a
    = (Ok docs, a') /\
    n - 4 <= len docs <= Z.max 0 n /\
    (forall t, doc_type = Tier t -> len docs = Z.max 0 n) /\
    (3 <= n -> 1 <= len docs).
Proof.
  intros Hbs Hn.
  pose proof (generate_performance_dataset_spec self n doc_type bs a
                ltac:(lia)) as S.
  unfold ensures in S.
  assert (Q : forall c, quota c bs = Z.max 0 c).
  { intro c. unfold quota. destruct (Z.ltb_spec 0 bs); [reflexivity|lia]. }
  destruct doc_type as [t|].
  - destruct (PerformanceGen.generate_performance_dataset self n (Tier t) bs a)
      as [[docs|e] a']; [|discriminate S].
    destruct S as [blocks [Hp P]]. cbn [planned] in Hp. injection Hp as <-.
    assert (L : len docs = Z.max 0 n).
    { rewrite <- (len_map doc_id), (len_perm _ _ P), len_map.
      unfold keys_of. cbn [flat_map].
      rewrite app_nil_r, len_block_keys. cbn [snd]. rewrite Q. lia. }
    exists docs, a'. split; [reflexivity|]. rewrite L.
    split; [lia|]. split; [reflexivity|lia].
  - assert (Hn' : Z.abs n < 2 ^ 1022).
    { apply Z.lt_trans with (2 ^ 50); [exact Hn|].
      apply Z.pow_lt_mono_r; lia. }
    destruct (performance_distribution_signed n Hn)
      as [c1 [c2 [c3 [c4 [E [E1 [Hs Hb]]]]]]].
    cbn [planned] in S. rewrite E in S.
    destruct (PerformanceGen.generate_performance_dataset self n Mixed bs a)
      as [[docs|e] a']; [|discriminate S].
    destruct S as [blocks [Hp P]]. injection Hp as <-.
    cbn [plan_blocks] in P.
    assert (L : len docs
                = Z.max 0 c1 + Z.max 0 c2 + Z.max 0 c3 + Z.max 0 c4).
    { rewrite <- (len_map doc_id), (len_perm _ _ P), len_map.
      rewrite len_four_blocks, !Q. lia. }
    exists docs, a'. split; [reflexivity|]. rewrite L.
    destruct Hs as [Hpos Hneg].
    destruct (Z.le_gt_cases 0 n) as [H|H].
    + specialize (Hpos H). specialize (Hb H).
      inversion_clear Hpos as [|? ? P1 Hp1].
      inversion_clear Hp1 as [|? ? P2 Hp2].
      inversion_clear Hp2 as [|? ? P3 Hp3].
      inversion_clear Hp3 as [|? ? P4 _].
      split; [lia|]. split; [discriminate|].
      intro H3. destruct (small_share_positive n ltac:(lia)) as [c [Ec Hc]].
      rewrite E1 in Ec. injection Ec as <-. lia.
    + specialize (Hneg ltac:(lia)).
      inversion_clear Hneg as [|? ? P1 Hp1].
      inversion_clear Hp1 as [|? ? P2 Hp2].
      inversion_clear Hp2 as [|? ? P3 Hp3].
      inversion_clear Hp3 as [|? ? P4 _].
      split; [lia|]. split; [discriminate|lia].
Qed.

(** [main] of the document generator once the documents exist. *)
Lemma document_main_generated args a documents a2 :
  DocumentGenerator.generate_documents
    (DocumentGenerator.arg_type args) (DocumentGenerator.arg_count args)
    (seed_step (DocumentGenerator.arg_seed args) a)
  = (Ok documents, a2) ->
  DocumentGenerator.main args a
  = let sink := match DocumentGenerator.arg_format args with
                | Ndjson => save_as_ndjson documents
                | Json => save_as_json documents
                end in
    mkOutcome
      (match true_div (serialised_size documents) (len documents) with
       | Raise e => Raise e
       | Ok avg_size =>
           Ok (mkStats (len documents) (serialised_size documents) avg_size)
       end)
      sink a2.
Proof.
  intro H. unfold DocumentGenerator.main. rewrite H. cbv zeta.
  fold (serialised_size documents).
  destruct (true_div (serialised_size documents) (len documents));
    reflexivity.
Qed.

Lemma logs_main_generated args a logs a2 :
  LogsGenerator.generate args (seed_step (LogsGenerator.arg_seed args) a)
  = (Ok logs, a2) ->
  LogsGenerator.main args a
  = let sink := match LogsGenerator.arg_format args with
                | Ndjson => save_as_ndjson logs
                | Json => save_as_json logs
                end in
    mkOutcome
      (match true_div (serialised_size logs) (len logs) with
       | Raise e => Raise e
       | Ok avg_size =>
           Ok (mkStats (len logs) (serialised_size logs) avg_size)
       end)
      sink a2.
Proof.
  intro H. unfold LogsGenerator.main. rewrite H. cbv zeta.
  fold (serialised_size logs).
  destruct (true_div (serialised_size logs) (len logs)); reflexivity.
Qed.

Lemma true_div_ok (a b : Z) :
  b <> 0 -> true_div a b = Ok (inject_Z a / inject_Z b)%Q.
Proof.
  intro H. unfold true_div. destruct (Z.eqb_spec b 0); [contradiction|].
  reflexivity.
Qed.

End MainOutcomes.

(** A request for a positive number of documents or log entries: [main]
    returns, the corpus has exactly that many entries, the average is the
    total over the count, and the size it reports is the sum of the
    serialised lengths, which is the size of a line-delimited file less
    one byte a line. *)
Theorem document_main_completes {RT : Runtime} {SH : Shapes}
  (doc_type : selector) (count : Z) (fmt : format) (seed : option Z)
  (a : Ambient) :
  0 < count < 2 ^ 1022 ->
  let o := DocumentGenerator.main
             (DocumentGenerator.mkArgs doc_type count fmt seed) a in
  exists stats,
    out_result o = Ok stats /\
    documentCount stats = count /\
    averageBytes stats = (inject_Z (totalBytes stats) / inject_Z count)%Q /\
    (fmt = Ndjson -> getsize (out_sink o) = totalBytes stats + count).
Proof.
  intros Hc o. subst o.
  set (args := DocumentGenerator.mkArgs doc_type count fmt seed).
  destruct (document_corpus_size_lemma doc_type count
              (seed_step seed a) ltac:(lia)) as [docs [a2 [G L]]].
  rewrite (document_main_generated args a docs a2 G). cbv zeta.
  rewrite Z.max_r in L by lia. rewrite L.
  rewrite true_div_ok by lia.
  eexists. split; [reflexivity|]. cbn [documentCount totalBytes averageBytes
                                        out_sink].
  split; [reflexivity|]. split; [reflexivity|].
  intros ->. cbn [DocumentGenerator.arg_format args].
  rewrite save_as_ndjson_size, L. reflexivity.
Qed.

Theorem logs_main_completes {RT : Runtime} {SH : Shapes}
  (log_type : LogsGenerator.log_type) (count : Z) (fmt : format)
  (seed : option Z) (a : Ambient) :
  0 < count < 2 ^ 1022 ->
  let o := LogsGenerator.main
             (LogsGenerator.mkArgs count log_type fmt seed) a in
  exists stats,
    out_result o = Ok stats /\
    documentCount stats = count /\
    averageBytes stats = (inject_Z (totalBytes stats) / inject_Z count)%Q /\
    (fmt = Ndjson -> getsize (out_sink o) = totalBytes stats + count).
Proof.
  intros Hc o. subst o.
  set (args := LogsGenerator.mkArgs count log_type fmt seed).
  destruct (logs_corpus_size_lemma count log_type fmt seed
              (seed_step seed a) ltac:(lia)) as [logs [a2 [G L]]].
  rewrite (logs_main_generated args a logs a2 G). cbv zeta.
  rewrite Z.max_r in L by lia. rewrite L.
  rewrite true_div_ok by lia.
  eexists. split; [reflexivity|]. cbn [documentCount totalBytes averageBytes
                                        out_sink].
  split; [reflexivity|]. split; [reflexivity|].
  intros ->. cbn [LogsGenerator.arg_format args].
  rewrite save_as_ndjson_size, L. reflexivity.
Qed.

(** A count that is zero or negative, and above -2^1022, in the document
    and the logs generator: every [range] is empty, the file is written
    with no entry in it and the average raises.  (From -2^1024 down the
    shares of a mixed request overflow before anything is written.) *)
Theorem nonpositive_count_raises {RT : Runtime} {SH : Shapes} (count : Z) :
  - 2 ^ 1022 < count <= 0 ->
  (forall doc_type fmt seed a,
      let o := DocumentGenerator.main
                 (DocumentGenerator.mkArgs doc_type count fmt seed) a in
      out_result o = Raise ZeroDivisionError /\
      out_sink o = empty_file fmt) /\
  (forall log_type fmt seed a,
      let o := LogsGenerator.main
                 (LogsGenerator.mkArgs count log_type fmt seed) a in
      out_result o = Raise ZeroDivisionError /\
      out_sink o = empty_file fmt).
Proof.
  intro Hc. split.
  - intros doc_type fmt seed a o. subst o.
    set (args := DocumentGenerator.mkArgs doc_type count fmt seed).
    destruct (document_corpus_size_lemma doc_type count
                (seed_step seed a) ltac:(lia)) as [docs [a2 [G L]]].
    rewrite Z.max_l in L by lia. apply len_nil_inv in L. subst docs.
    rewrite (document_main_generated args a [] a2 G).
    split; [reflexivity|]. destruct fmt; reflexivity.
  - intros log_type fmt seed a o. subst o.
    set (args := LogsGenerator.mkArgs count log_type fmt seed).
    destruct (logs_corpus_size_lemma count log_type fmt seed
                (seed_step seed a) ltac:(lia)) as [logs [a2 [G L]]].
    rewrite Z.max_l in L by lia. apply len_nil_inv in L. subst logs.
    rewrite (logs_main_generated args a [] a2 G).
    split; [reflexivity|]. destruct fmt; reflexivity.
Qed.

Section PerformanceOutcomes.
Context {RT : Runtime} {SH : Shapes}.

Lemma perf_main_empty args a a2 :
  PerformanceGen.generate args (seed_step (PerformanceGen.arg_seed args) a)
  = (Ok [], a2) ->
  out_result (PerformanceGen.main args a) = Raise ZeroDivisionError /\
  sink_content (out_sink (PerformanceGen.main args a)) = EmptyString.
Proof.
  intro G. rewrite (perf_main_generated args a [] a2 G). cbv zeta.
  cbn [out_result out_sink]. split; [reflexivity|].
  rewrite save_content. reflexivity.
Qed.

Lemma perf_dataset_unfold s count bs seed streaming a :
  exists g a1,
    PerformanceGen.generate
      (PerformanceGen.mkArgs count (PerformanceGen.Sel s) bs seed streaming) a
    = PerformanceGen.generate_performance_dataset g count s bs a1.
Proof.
  destruct (perf_generate_unfold
              (PerformanceGen.mkArgs count (PerformanceGen.Sel s) bs seed
                                     streaming) a) as [g [a1 [_ E]]].
  exists g, a1. exact E.
Qed.

Lemma perf_dataset_zero_batch g count s a :
  Z.abs count < 2 ^ 50 ->
  exists a',
    PerformanceGen.generate_performance_dataset g count s 0 a
    = (Raise ZeroDivisionError, a').
Proof.
  intro Hn. destruct s as [t|]; simpl.
  - exists a. reflexivity.
  - destruct (performance_distribution_signed count Hn)
      as [c1 [c2 [c3 [c4 [E _]]]]].
    unfold PerformanceGen.mixed_sequential, bind, lift_result.
    rewrite E. exists a. reflexivity.
Qed.

Lemma perf_dataset_negative_batch g count s bs a :
  bs < 0 -> Z.abs count < 2 ^ 50 ->
  exists a',
    PerformanceGen.generate_performance_dataset g count s bs a = (Ok [], a').
Proof.
  intros Hbs Hn.
  pose proof (generate_performance_dataset_spec g count s bs a
                ltac:(lia)) as S.
  unfold ensures in S.
  assert (Q : forall c, quota c bs = 0).
  { intro c. unfold quota. destruct (Z.ltb_spec 0 bs); [lia|reflexivity]. }
  assert (P0 : exists blocks,
             planned count s bs = Ok blocks /\ len (keys_of blocks) = 0).
  { destruct s as [t|]; cbn [planned].
    - eexists. split; [reflexivity|].
      unfold keys_of. cbn [flat_map].
      now rewrite app_nil_r, len_block_keys, Q.
    - destruct (performance_distribution_signed count Hn)
        as [c1 [c2 [c3 [c4 [E _]]]]].
      rewrite E. eexists. split; [reflexivity|].
      cbn [plan_blocks]. now rewrite len_four_blocks, !Q. }
  destruct P0 as [blocks [Hp L]]. rewrite Hp in S.
  destruct (PerformanceGen.generate_performance_dataset g count s bs a)
    as [[docs|e] a']; [|discriminate S].
  destruct S as [blocks' [Hp' P]]. injection Hp' as <-.
  apply len_perm in P. rewrite !len_map, L in P.
  apply len_nil_inv in P. subst docs. exists a'. reflexivity.
Qed.

Lemma perf_dataset_tiny_mixed g count bs a :
  0 < bs -> 1 <= count <= 2 ->
  exists a',
    PerformanceGen.generate_performance_dataset g count Mixed bs a
    = (Ok [], a').
Proof.
  intros Hbs Hc.
  pose proof (generate_performance_dataset_spec g count Mixed bs a
                ltac:(lia)) as S.
  unfold ensures in S.
  assert (E : PerformanceGen.type_distribution count
              = Ok [(small, 0); (medium, 0); (large, 0); (huge, 0)]).
  { assert (C : count = 1 \/ count = 2) by lia.
    destruct C as [-> | ->]; vm_compute; reflexivity. }
  cbn [planned] in S. rewrite E in S.
  destruct (PerformanceGen.generate_performance_dataset g count Mixed bs a)
    as [[docs|e] a']; [|discriminate S].
  destruct S as [blocks' [Hp' P]]. injection Hp' as <-.
  apply len_perm in P. cbn [plan_blocks] in P.
  rewrite !len_map, len_four_blocks in P.
  assert (Q : quota 0 bs = 0).
  { unfold quota. destruct (Z.ltb_spec 0 bs); reflexivity. }
  rewrite Q in P. simpl in P.
  apply len_nil_inv in P. subst docs. exists a'. reflexivity.
Qed.

End PerformanceOutcomes.

(** A count of 1025 bits or more: a mixed request raises [OverflowError]
    when it multiplies the count by the first weight, before any file is
    opened, in the three programs. *)
Theorem huge_count_overflows {RT : Runtime} {SH : Shapes} (count : Z) :
  2 ^ 1024 <= Z.abs count ->
  (forall fmt seed a,
      let o := DocumentGenerator.main
                 (DocumentGenerator.mkArgs Mixed count fmt seed) a in
      out_result o = Raise OverflowError /\ out_sink o = []) /\
  (forall fmt seed a,
      let o := LogsGenerator.main
                 (LogsGenerator.mkArgs count LogsGenerator.MixedLogs fmt seed)
                 a in
      out_result o = Raise OverflowError /\ out_sink o = []) /\
  (forall batch_size seed streaming a,
      let o := PerformanceGen.main
                 (PerformanceGen.mkArgs count (PerformanceGen.Sel Mixed)
                                        batch_size seed streaming) a in
      out_result o = Raise OverflowError /\ out_sink o = []).
Proof.
  intro H. destruct (mixed_counts_overflow count H) as [E1 [E2 E3]].
  split; [|split].
  - intros fmt seed a o. subst o. unfold DocumentGenerator.main.
    cbn [DocumentGenerator.arg_type DocumentGenerator.arg_count
           DocumentGenerator.arg_seed DocumentGenerator.generate_documents].
    unfold DocumentGenerator.generate_mixed_documents, bind, lift_result.
    rewrite E1. split; reflexivity.
  - intros fmt seed a o. subst o. unfold LogsGenerator.main.
    unfold LogsGenerator.generate.
    cbn [LogsGenerator.arg_type LogsGenerator.arg_count
           LogsGenerator.arg_seed].
    unfold LogsGenerator.generate_mixed_logs, bind, lift_result.
    rewrite E2. split; reflexivity.
  - intros batch_size seed streaming a o. subst o.
    set (args := PerformanceGen.mkArgs count (PerformanceGen.Sel Mixed)
                                       batch_size seed streaming).
    destruct (perf_dataset_unfold Mixed count batch_size seed streaming
                (seed_step seed a)) as [g [a1 G]].
    fold args in G.
    assert (G' : PerformanceGen.generate args
                   (seed_step (PerformanceGen.arg_seed args) a)
                 = (Raise OverflowError, a1)).
    { transitivity (PerformanceGen.generate_performance_dataset
                      g count Mixed batch_size a1); [exact G|].
      cbn [PerformanceGen.generate_performance_dataset].
      unfold PerformanceGen.mixed_sequential, bind, lift_result.
      rewrite E3. reflexivity. }
    rewrite (perf_main_raised args a _ a1 G'). split; reflexivity.
Qed.

(** ** Batching *)

Section Batching.
Context {RT : Runtime} {SH : Shapes}.

Lemma mapM_app {A B} (f : A -> Gen B) (xs ys : list A) a :
  mapM f (xs ++ ys) a
  = and_then (mapM f xs a)
      (fun d1 a1 => and_then (mapM f ys a1) (fun d2 => ret (d1 ++ d2)%list)).
Proof.
  revert a. induction xs as [|x xs IH]; intro a.
  - simpl. unfold ret at 1. simpl.
    destruct (mapM f ys a) as [[d2|e] a2]; reflexivity.
  - cbn [mapM List.app]. unfold bind.
    destruct (f x a) as [[y|e] a1]; [|reflexivity].
    rewrite IH.
    destruct (mapM f xs a1) as [[d1|e] a2]; [|reflexivity].
    unfold ret. cbn [and_then].
    destruct (mapM f ys a2) as [[d2|e] a3]; reflexivity.
Qed.

Lemma mapM_map {A B C} (g : A -> B) (f : B -> Gen C) (xs : list A) a :
  mapM f (map g xs) a = mapM (fun x => f (g x)) xs a.
Proof.
  revert a. induction xs as [|x xs IH]; intro a; [reflexivity|].
  cbn [mapM map]. unfold bind.
  destruct (f (g x) a) as [[y|e] a1]; [|reflexivity].
  now rewrite IH.
Qed.

Lemma mapM_ext {A B} (f g : A -> Gen B) (xs : list A) :
  (forall x a, f x a = g x a) -> forall a, mapM f xs a = mapM g xs a.
Proof.
  intro H. induction xs as [|x xs IH]; intro a; [reflexivity|].
  cbn [mapM]. unfold bind. rewrite H.
  destruct (g x a) as [[y|e] a1]; [|reflexivity].
  now rewrite IH.
Qed.

Lemma foldM_app {A S} (f : S -> A -> Gen S) (xs ys : list A) s a :
  foldM f s (xs ++ ys) a
  = and_then (foldM f s xs a) (fun s' => foldM f s' ys).
Proof.
  revert s a. induction xs as [|x xs IH]; intros s a; [reflexivity|].
  cbn [foldM List.app]. unfold bind.
  destruct (f s x a) as [[s'|e] a1]; [|reflexivity]. apply IH.
Qed.

Lemma foldM_ext {A S} (f g : S -> A -> Gen S) (xs : list A) :
  (forall s x a, f s x a = g s x a) ->
  forall s a, foldM f s xs a = foldM g s xs a.
Proof.
  intro H. induction xs as [|x xs IH]; intros s a; [reflexivity|].
  cbn [foldM]. unfold bind. rewrite H.
  destruct (g s x a) as [[s'|e] a1]; [|reflexivity]. apply IH.
Qed.

(** A batch of [k1 + k2] documents is a batch of [k1] followed by a batch
    of [k2] numbered from where the first one ended. *)
Lemma generate_batch_add self t start k1 k2 a :
  0 <= k1 -> 0 <= k2 ->
  PerformanceGen.generate_batch self t start (k1 + k2) a
  = and_then (PerformanceGen.generate_batch self t start k1 a)
      (fun d1 a1 =>
         and_then (PerformanceGen.generate_batch self t (start + k1) k2 a1)
           (fun d2 => ret (d1 ++ d2)%list)).
Proof.
  intros H1 H2. unfold PerformanceGen.generate_batch.
  rewrite range_add, mapM_app by assumption.
  destruct (mapM _ (range k1) a) as [[d1|e] a1]; [|reflexivity].
  cbn [and_then]. rewrite mapM_map.
  rewrite (mapM_ext
             (fun x => PerformanceGen.batch_templates self t
                         (fmt_id (tier_name t) (start + (k1 + x))))
             (fun i => PerformanceGen.batch_templates self t
                         (fmt_id (tier_name t) (start + k1 + i))));
    [reflexivity|].
  intros x a0. now rewrite Z.add_assoc.
Qed.

Lemma batch_loop_prefix self t count bs (k : nat) :
  0 < bs -> Z.of_nat k * bs < count + bs ->
  forall st a,
    foldM (fun (st : list Document * Z) batch_num =>
             let '(documents, current_id) := st in
             let batch_count := Z.min bs (count - batch_num * bs) in
             if 0 <? batch_count then
               batch_docs <- PerformanceGen.generate_batch
                               self t current_id batch_count ;;
               ret ((documents ++ batch_docs)%list, current_id + batch_count)
             else ret (documents, current_id))
          st (range (Z.of_nat k)) a
    = one_pass self t (Z.min count (Z.of_nat k * bs)) st a.
Proof.
  intros Hbs. induction k as [|k IH]; intros Hk st a.
  - destruct st as [docs id]. unfold one_pass. cbn [fst snd].
    replace (Z.min count (Z.of_nat 0 * bs)) with (Z.min count 0)
      by (f_equal; lia).
    destruct (Z.le_gt_cases count 0) as [H|H].
    + rewrite Z.min_l by lia.
      unfold PerformanceGen.generate_batch.
      rewrite (range_nonpos count) by lia.
      simpl. unfold ret. rewrite app_nil_r, Z.max_l by lia.
      now rewrite Z.add_0_r.
    + rewrite Z.min_r by lia. simpl. unfold ret.
      now rewrite app_nil_r, Z.add_0_r.
  - rewrite Nat2Z.inj_succ. unfold Z.succ.
    rewrite range_succ by lia. rewrite foldM_app.
    rewrite IH by lia. clear IH.
    assert (Hlt : Z.of_nat k * bs < count) by lia.
    rewrite (Z.min_r count (Z.of_nat k * bs)) by lia.
    set (done := Z.of_nat k * bs) in *.
    set (bc := Z.min bs (count - done)).
    assert (Hbc : 0 < bc) by (unfold bc; lia).
    assert (Hnext : Z.min count ((Z.of_nat k + 1) * bs) = done + bc)
      by (unfold bc, done; lia).
    rewrite Hnext. unfold one_pass.
    rewrite generate_batch_add by lia.
    destruct st as [docs id]. cbn [fst snd].
    destruct (PerformanceGen.generate_batch self t id done a)
      as [[d1|e] a1]; [|reflexivity].
    cbn [and_then]. unfold ret at 1. cbn [and_then foldM].
    unfold bind at 1. fold done. fold bc.
    destruct (Z.ltb_spec 0 bc) as [_|]; [|lia].
    rewrite (Z.max_r 0 done) by (unfold done; lia).
    unfold bind at 1.
    destruct (PerformanceGen.generate_batch self t (id + done) bc a1)
      as [[d2|e] a2]; [|reflexivity].
    cbn [and_then]. unfold ret. cbn [and_then].
    rewrite Z.max_r by lia. now rewrite app_assoc, Z.add_assoc.
Qed.

(** With a positive batch size the batch loop of a tier generates what
    one batch of the whole count generates, from the same state to the
    same state: batching cannot be observed. *)
Lemma tier_batches_one_pass self t count bs st a :
  0 < bs ->
  PerformanceGen.tier_batches self t count bs st a
  = one_pass self t count st a.
Proof.
  intro Hbs. unfold PerformanceGen.tier_batches, bind at 1, lift_result,
    floor_div.
  destruct (Z.eqb_spec bs 0); [lia|].
  set (batches := (count + bs - 1) / bs).
  assert (Hb1 : batches * bs <= count + bs - 1).
  { unfold batches. rewrite Z.mul_comm. apply Z.mul_div_le. lia. }
  assert (Hb2 : count + bs - 1 < (batches + 1) * bs).
  { unfold batches.
    pose proof (Z.mul_succ_div_gt (count + bs - 1) bs Hbs). lia. }
  destruct (Z.le_gt_cases batches 0) as [H|H].
  - rewrite (range_nonpos batches) by lia. cbn [foldM].
    assert (Hc : count <= 0) by nia.
    destruct st as [docs id]. unfold one_pass, ret. cbn [fst snd].
    unfold PerformanceGen.generate_batch.
    rewrite (range_nonpos count) by lia. simpl. unfold ret.
    rewrite app_nil_r, Z.max_l by lia. now rewrite Z.add_0_r.
  - rewrite <- (Z2Nat.id batches) by lia.
    rewrite batch_loop_prefix; [|exact Hbs|rewrite Z2Nat.id by lia; lia].
    rewrite Z2Nat.id by lia. rewrite Z.min_l by nia. reflexivity.
Qed.

Lemma mixed_sequential_batch_free self n b1 b2 a :
  0 < b1 -> 0 < b2 ->
  PerformanceGen.mixed_sequential self n b1 a
  = PerformanceGen.mixed_sequential self n b2 a.
Proof.
  intros H1 H2. unfold PerformanceGen.mixed_sequential, bind, lift_result.
  destruct (PerformanceGen.type_distribution n) as [dist|e]; [|reflexivity].
  rewrite (foldM_ext
             (fun st (item : tier * Z) =>
                PerformanceGen.tier_batches self (fst item) (snd item) b1 st)
             (fun st (item : tier * Z) =>
                PerformanceGen.tier_batches self (fst item) (snd item) b2 st));
    [reflexivity|].
  intros st x a0. now rewrite !tier_batches_one_pass.
Qed.

Lemma generate_performance_dataset_batch_free self n s b1 b2 a :
  0 < b1 -> 0 < b2 ->
  PerformanceGen.generate_performance_dataset self n s b1 a
  = PerformanceGen.generate_performance_dataset self n s b2 a.
Proof.
  intros H1 H2. destruct s as [t|];
    cbn [PerformanceGen.generate_performance_dataset].
  - unfold bind. now rewrite !tier_batches_one_pass.
  - unfold bind. now rewrite (mixed_sequential_batch_free self n b1 b2).
Qed.

End Batching.

Lemma dict_get_set_same (k : string) (v : json) (d : Document) :
  dict_get k (dict_set k v d) = Some v.
Proof.
  induction d as [|[k' v'] d IH]; simpl.
  - now rewrite String.eqb_refl.
  - destruct (String.eqb_spec k k') as [->|H]; simpl.
    + now rewrite String.eqb_refl.
    + destruct (String.eqb_spec k k'); [contradiction|exact IH].
Qed.

Section BatchInvisible.
Context {RT : Runtime} {SH : Shapes}.

Lemma tier_dataset_is_one_batch self n t bs a :
  0 < bs ->
  PerformanceGen.generate_performance_dataset self n (Tier t) bs a
  = PerformanceGen.generate_batch self t 0 n a.
Proof.
  intro H. cbn [PerformanceGen.generate_performance_dataset].
  unfold bind. rewrite tier_batches_one_pass by assumption.
  unfold one_pass. cbn [fst snd].
  destruct (PerformanceGen.generate_batch self t 0 n a) as [[d|e] a'];
    reflexivity.
Qed.

Lemma perf_main_of_generate args args' a :
  PerformanceGen.arg_seed args = PerformanceGen.arg_seed args' ->
  PerformanceGen.generate args (seed_step (PerformanceGen.arg_seed args) a)
  = PerformanceGen.generate args'
      (seed_step (PerformanceGen.arg_seed args') a) ->
  out_result (PerformanceGen.main args a)
  = out_result (PerformanceGen.main args' a) /\
  sink_content (out_sink (PerformanceGen.main args a))
  = sink_content (out_sink (PerformanceGen.main args' a)) /\
  out_amb (PerformanceGen.main args a) = out_amb (PerformanceGen.main args' a).
Proof.
  intros Hs G.
  destruct (PerformanceGen.generate args'
              (seed_step (PerformanceGen.arg_seed args') a))
    as [[docs|e] a2] eqn:G'.
  - rewrite (perf_main_generated args a docs a2 G).
    rewrite (perf_main_generated args' a docs a2 G'). cbv zeta.
    cbn [out_result out_sink out_amb]. unfold getsize.
    rewrite !save_content. repeat split.
  - rewrite (perf_main_raised args a e a2 G).
    rewrite (perf_main_raised args' a e a2 G'). repeat split.
Qed.

End BatchInvisible.

(** The batch size cannot be observed.  With two positive batch sizes
    the performance generator builds the same documents and leaves the
    same state, a single tier being one batch of the whole count numbered
    from 0; [main] then reports the same figures and writes the same
    bytes, whatever the two streaming flags. *)
Theorem batch_size_is_invisible {RT : Runtime} {SH : Shapes}
  (count b1 b2 : Z) (s : selector) :
  0 < b1 -> 0 < b2 ->
  (forall self a,
      PerformanceGen.generate_performance_dataset self count s b1 a
      = PerformanceGen.generate_performance_dataset self count s b2 a) /\
  (forall self t a,
      PerformanceGen.generate_performance_dataset self count (Tier t) b1 a
      = PerformanceGen.generate_batch self t 0 count a) /\
  (forall seed st1 st2 a,
      let o1 := PerformanceGen.main
                  (PerformanceGen.mkArgs count (PerformanceGen.Sel s) b1
                                         seed st1) a in
      let o2 := PerformanceGen.main
                  (PerformanceGen.mkArgs count (PerformanceGen.Sel s) b2
                                         seed st2) a in
      out_result o1 = out_result o2 /\
      sink_content (out_sink o1) = sink_content (out_sink o2) /\
      out_amb o1 = out_amb o2).
Proof.
  intros H1 H2. split; [|split].
  - intros self a. now apply generate_performance_dataset_batch_free.
  - intros self t a. now apply tier_dataset_is_one_batch.
  - intros seed st1 st2 a o1 o2. subst o1 o2.
    apply perf_main_of_generate; [reflexivity|].
    cbn [PerformanceGen.arg_seed].
    unfold PerformanceGen.generate.
    cbn [PerformanceGen.arg_type PerformanceGen.arg_count
           PerformanceGen.arg_batch_size].
    unfold bind.
    destruct (PerformanceGen.init (seed_step seed a)) as [[g|e] a1];
      [|reflexivity].
    now apply generate_performance_dataset_batch_free.
Qed.

Section TimeSeries.
Context {RT : Runtime} {SH : Shapes}.

Lemma small_template_keys self (i : string) a :
  ensures (PerformanceGen.generate_small_template self i) a
    (fun d _ =>
       doc_id d = Some i /\
       map fst d = ["id"; "timestamp"; "level"; "service"; "message";
                    "user_id"; "session"; "duration"; "status"])
    no_raise.
Proof.
  unfold PerformanceGen.generate_small_template.
  apply ensures_bind, ensures_on_env.
  apply ensures_bind, ensures_on_rnd.
  apply ensures_bind, ensures_on_rnd.
  apply ensures_bind, ensures_on_rnd.
  apply ensures_bind, ensures_on_rnd.
  apply ensures_bind, ensures_on_fk.
  apply ensures_bind, ensures_on_rnd.
  apply ensures_bind, ensures_on_rnd.
  apply ensures_ret. split; reflexivity.
Qed.

Lemma series_point_step self t (start_time i : Z) a :
  ensures
    (base_doc <- PerformanceGen.batch_templates self t (fmt_id "ts" i) ;;
     let timestamp := start_time + PerformanceGen.microseconds (i * 60) in
     let base_doc :=
       dict_set "timestamp" (JStr (isoformat timestamp)) base_doc in
     let base_doc := dict_set "sequence_id" (JInt i) base_doc in
     let base_doc :=
       dict_set "time_bucket" (JStr (strftime_hour timestamp)) base_doc in
     value <- on_rnd (random_uniform 0 100) ;;
     trend <- on_rnd (random_choice [JStr "up"; JStr "down"; JStr "stable"]) ;;
     anomaly_score <- on_rnd (random_uniform 0 1) ;;
     ret (dict_set "metrics"
            (JDict [("value", JFloat value);
                    ("trend", trend);
                    ("anomaly_score", JFloat anomaly_score)])
            base_doc)) a
    (fun d _ => series_point start_time t i d) no_raise.
Proof.
  apply ensures_bind.
  eapply ensures_weaken with
    (P := fun d _ =>
            doc_id d = Some (fmt_id "ts" i) /\
            (t = small ->
             map fst d = ["id"; "timestamp"; "level"; "service"; "message";
                          "user_id"; "session"; "duration"; "status"]))
    (Q := no_raise).
  - destruct t; simpl PerformanceGen.batch_templates.
    + eapply ensures_weaken; [apply small_template_keys| |auto].
      intros d a1 [H1 H2]. split; [exact H1|intros _; exact H2].
    + eapply ensures_weaken; [apply (batch_template_id self medium)| |auto].
      intros d a1 H1. split; [exact H1|discriminate].
    + eapply ensures_weaken; [apply (batch_template_id self large)| |auto].
      intros d a1 H1. split; [exact H1|discriminate].
    + eapply ensures_weaken; [apply (batch_template_id self huge)| |auto].
      intros d a1 H1. split; [exact H1|discriminate].
  - intros d a1 [Hid Hkeys]. cbv zeta.
    apply ensures_bind, ensures_on_rnd.
    apply ensures_bind, ensures_on_rnd.
    apply ensures_bind, ensures_on_rnd.
    apply ensures_ret. unfold series_point. cbv zeta.
    split; [|split; [|split; [|split; [|split]]]].
    + rewrite !doc_id_set_other by discriminate. exact Hid.
    + rewrite !dict_get_set_other by discriminate. apply dict_get_set_same.
    + rewrite !dict_get_set_other by discriminate. apply dict_get_set_same.
    + rewrite !dict_get_set_other by discriminate. apply dict_get_set_same.
    + eexists _, _, _. apply dict_get_set_same.
    + intro Ht. specialize (Hkeys Ht).
      destruct d as [|[k1 v1] [|[k2 v2] [|[k3 v3] [|[k4 v4] [|[k5 v5]
        [|[k6 v6] [|[k7 v7] [|[k8 v8] [|[k9 v9] [|? ?]]]]]]]]]];
        try discriminate Hkeys.
      cbn [map fst] in Hkeys.
      injection Hkeys as -> -> -> -> -> -> -> -> ->. reflexivity.
  - auto.
Qed.

Lemma Forall2_range_len {B} (R : Z -> B -> Prop) (n : Z) (ys : list B) :
  Forall2 R (range n) ys -> len ys = Z.max 0 n.
Proof.
  intro H. apply Forall2_length in H. unfold len. rewrite <- H.
  fold (len (range n)). apply len_range.
Qed.

End TimeSeries.

Lemma Forall2_left {A B} (R : A -> Prop) (xs : list A) (ys : list B) :
  Forall2 (fun x _ => R x) xs ys -> Forall R xs.
Proof. induction 1; constructor; assumption. Qed.

(** The time series of the performance generator: the clock is read once
    before the loop, the series starts seven days before that reading,
    and the [i]-th of the [count] documents is [ts_i] with the instant
    [i] minutes after the start in [timestamp] (in place of the reading
    the template took), [i] in [sequence_id], the hour of that instant in
    [time_bucket] and a three-field [metrics]; on the small template the
    keys are the nine of the template and these three after them.  This
    holds where the start and the last instant are in the range of
    [datetime]; where a series that is not empty leaves the range, the
    generation raises [OverflowError] and returns no document. *)
Theorem time_series_grid {RT : Runtime} {SH : Shapes}
  (self : PerformanceGenerator) (count : Z) (t : tier) (a : Ambient) :
  let start_time :=
    fst (datetime_now (env a)) - PerformanceGen.microseconds (7 * 86400) in
  let last :=
    start_time + PerformanceGen.microseconds (Z.max 0 (count - 1) * 60) in
  (0 <= start_time -> last <= PerformanceGen.datetime_max ->
   exists docs a',
     PerformanceGen.generate_time_series_data self count t a = (Ok docs, a')
     /\ len docs = Z.max 0 count
     /\ Forall2 (series_point start_time t) (range count) docs) /\
  (0 < count ->
   start_time < 0 \/ PerformanceGen.datetime_max < last ->
   exists a',
     PerformanceGen.generate_time_series_data self count t a
     = (Raise OverflowError, a')).
Proof.
  intros start_time last. split.
  - intros Hmin Hmax.
    assert (E : ensures
                  (PerformanceGen.generate_time_series_data self count t) a
                  (fun docs _ =>
                     Forall2 (series_point start_time t) (range count) docs)
                  no_raise).
    { unfold PerformanceGen.generate_time_series_data.
      apply ensures_bind, ensures_on_env. fold start_time.
      apply (ensures_mapM _ (series_point start_time t) no_raise).
      intros i a0 Hi. apply range_bounds in Hi.
      apply ensures_bind, ensures_lift_result.
      unfold PerformanceGen.datetime_add.
      replace ((0 <=? start_time + PerformanceGen.microseconds (i * 60))
               && (start_time + PerformanceGen.microseconds (i * 60)
                   <=? PerformanceGen.datetime_max))%bool with true.
      - apply series_point_step.
      - symmetry. apply andb_true_intro.
        unfold last, PerformanceGen.microseconds in *.
        split; [apply Z.leb_le|apply Z.leb_le]; lia. }
    destruct (ensures_returns _ _ _ E) as [docs [a' [G H]]].
    exists docs, a'. split; [exact G|]. split; [|exact H].
    exact (Forall2_range_len _ _ _ H).
  - intros Hc Hout.
    pose (in_range := fun i : Z =>
            0 <= start_time + PerformanceGen.microseconds (i * 60)
            <= PerformanceGen.datetime_max).
    assert (E : ensures
                  (PerformanceGen.generate_time_series_data self count t) a
                  (fun docs _ =>
                     Forall2 (fun i _ => in_range i) (range count) docs)
                  (fun e _ => e = OverflowError)).
    { unfold PerformanceGen.generate_time_series_data.
      apply ensures_bind, ensures_on_env. fold start_time.
      apply (ensures_mapM _ (fun i _ => in_range i)
               (fun e _ => e = OverflowError)).
      intros i a0 _.
      apply ensures_bind, ensures_lift_result.
      unfold PerformanceGen.datetime_add.
      destruct ((0 <=? start_time + PerformanceGen.microseconds (i * 60))
                && (start_time + PerformanceGen.microseconds (i * 60)
                    <=? PerformanceGen.datetime_max))%bool eqn:B;
        [|reflexivity].
      apply andb_prop in B. destruct B as [B1 B2].
      apply Z.leb_le in B1, B2.
      eapply ensures_weaken; [apply series_point_step| |intros ? ? []].
      intros d a1 _. split; assumption. }
    unfold ensures in E.
    destruct (PerformanceGen.generate_time_series_data self count t a)
      as [[docs|e] a'].
    + exfalso. apply Forall2_left in E. rewrite Forall_forall in E.
      unfold last, PerformanceGen.microseconds in Hout.
      destruct Hout as [Hout|Hout].
      * specialize (E 0 (range_In count 0 ltac:(lia))).
        unfold in_range, PerformanceGen.microseconds in E. lia.
      * specialize (E (count - 1) (range_In count (count - 1) ltac:(lia))).
        unfold in_range, PerformanceGen.microseconds in E. lia.
    + subst e. exists a'. reflexivity.
Qed.

(** A series of three from a clock in range, and a series that starts in
    the last minute of year 9999. *)
Lemma time_series_grid_witness :
  let self := mkPerformanceGenerator [] [] [] [] [] in
  (exists docs a',
     PerformanceGen.generate_time_series_data
       (RT := Sample.runtime) (SH := Sample.shapes) self 3 small
       (Sample.world 1 2 (PerformanceGen.microseconds (8 * 86400)))
     = (Ok docs, a') /\ len docs = Z.max 0 3) /\
  (exists a',
     PerformanceGen.generate_time_series_data
       (RT := Sample.runtime) (SH := Sample.shapes) self 3 small
       (Sample.world 1 2 (PerformanceGen.datetime_max
                          + PerformanceGen.microseconds (7 * 86400)))
     = (Raise OverflowError, a')).
Proof.
  intro self. split.
  - destruct (proj1 (@time_series_grid Sample.runtime Sample.shapes self 3
                       small
                       (Sample.world 1 2
                          (PerformanceGen.microseconds (8 * 86400)))))
      as [docs [a' [G [L _]]]].
    + vm_compute. discriminate.
    + vm_compute. discriminate.
    + exists docs, a'. split; assumption.
  - refine (proj2 (@time_series_grid Sample.runtime Sample.shapes self 3
                     small
                     (Sample.world 1 2
                        (PerformanceGen.datetime_max
                         + PerformanceGen.microseconds (7 * 86400))))
              _ _).
    + lia.
    + right. vm_compute. reflexivity.
Defined.

(** ** The chunk size of the streaming writer *)

Lemma mod_opp_zero (x c : Z) :
  c <> 0 -> (x mod (- c) =? 0) = (x mod c =? 0).
Proof.
  intro Hc.
  destruct (Z.eqb_spec (x mod c) 0) as [E|E].
  - apply Z.eqb_eq. now apply Z.mod_opp_r_z.
  - apply Z.eqb_neq. intro E'. apply E.
    rewrite <- (Z.opp_involutive c). apply Z.mod_opp_r_z; [lia|exact E'].
Qed.

Section ChunkSizes.
Context {RT : Runtime}.

Lemma streaming_loop_opp chunk_size documents :
  forall i,
    streaming_loop (- chunk_size) i documents
    = streaming_loop chunk_size i documents.
Proof.
  induction documents as [|d rest IH]; intro i; [reflexivity|].
  cbn [streaming_loop].
  destruct (Z.eqb_spec chunk_size 0) as [->|Hc]; [reflexivity|].
  destruct (Z.eqb_spec (- chunk_size) 0); [lia|].
  now rewrite IH, mod_opp_zero.
Qed.

Lemma streaming_abs chunk_size documents :
  save_as_ndjson_streaming documents chunk_size
  = save_as_ndjson_streaming documents (Z.abs chunk_size).
Proof.
  unfold save_as_ndjson_streaming.
  destruct (Z.abs_eq_or_opp chunk_size) as [-> | ->]; [reflexivity|].
  now rewrite streaming_loop_opp.
Qed.

Lemma sink_content_closed (tr : list io_event) :
  sink_content (EvOpen :: tr ++ [EvClose]) = sink_content tr.
Proof.
  cbn [sink_content List.app].
  induction tr as [|ev tr IH]; [reflexivity|].
  destruct ev; cbn [sink_content List.app]; now rewrite ?IH.
Qed.

End ChunkSizes.

(** The [chunk_size] of the streaming writer at its edges.  With 0 the
    first document is written and the test of the flush raises, so the
    file holds one line however long the corpus; an empty corpus is
    written without error.  A negative chunk size behaves as its absolute
    value: the writer does not raise, writes every document and flushes
    after every [abs chunk_size]-th. *)
Theorem streaming_chunk_sizes {RT : Runtime} (documents : list Document) :
  save_as_ndjson_streaming documents 0
  = match documents with
    | [] => ([EvOpen; EvClose], Ok tt)
    | doc :: _ => ([EvOpen; write_line doc; EvClose], Raise ZeroDivisionError)
    end /\
  forall chunk_size,
    chunk_size <> 0 ->
    let w := save_as_ndjson_streaming documents chunk_size in
    w = save_as_ndjson_streaming documents (Z.abs chunk_size) /\
    snd w = Ok tt /\
    sink_content (fst w) = ndjson_text documents /\
    flush_count (fst w) = len documents / Z.abs chunk_size /\
    longest_unflushed (fst w) <= Z.abs chunk_size.
Proof.
  split; [destruct documents; reflexivity|].
  intros chunk_size Hc w. subst w.
  rewrite (streaming_abs chunk_size).
  assert (Ha : 0 < Z.abs chunk_size) by lia.
  set (c := Z.abs chunk_size) in *.
  split; [reflexivity|].
  destruct (save_as_ndjson_streaming_spec documents c Ha) as [[_ H1] H2].
  split; [|split; [|split; [exact H2|exact H1]]].
  - unfold save_as_ndjson_streaming.
    pose proof (streaming_loop_ok c documents ltac:(lia) 0) as H.
    destruct (streaming_loop c 0 documents) as [evs r]. exact H.
  - unfold save_as_ndjson_streaming.
    pose proof (streaming_loop_content c documents ltac:(lia) 0) as H.
    destruct (streaming_loop c 0 documents) as [evs r].
    cbn [fst] in *. now rewrite sink_content_closed.
Qed.

(** ** Counts, sizes and writers for every request *)

(** The four counts of a mixed request in the document and the logs
    generator: for every total of fewer than 1022 bits the three products
    are computed without error, the counts add up to the total and none
    has the sign opposite to the total, so that no share is negative when
    the total is not. *)
Theorem mixed_counts_keep_sign (total_count : Z) :
  Z.abs total_count < 2 ^ 1022 ->
  (exists c1 c2 c3 c4,
      DocumentGenerator.mixed_counts total_count = Ok (c1, c2, c3, c4) /\
      c1 + c2 + c3 + c4 = total_count /\
      same_sign total_count [c1; c2; c3; c4]) /\
  (exists c1 c2 c3 c4,
      LogsGenerator.mixed_counts total_count = Ok (c1, c2, c3, c4) /\
      c1 + c2 + c3 + c4 = total_count /\
      same_sign total_count [c1; c2; c3; c4]).
Proof.
  intro H. split.
  - now apply document_mixed_counts_signed.
  - now apply logs_mixed_counts_signed.
Qed.

Lemma mixed_counts_keep_sign_witness :
  (exists c1 c2 c3 c4,
      DocumentGenerator.mixed_counts (-7) = Ok (c1, c2, c3, c4) /\
      c1 + c2 + c3 + c4 = -7 /\
      same_sign (-7) [c1; c2; c3; c4]) /\
  (exists c1 c2 c3 c4,
      LogsGenerator.mixed_counts (-7) = Ok (c1, c2, c3, c4) /\
      c1 + c2 + c3 + c4 = -7 /\
      same_sign (-7) [c1; c2; c3; c4]).
Proof.
  refine (mixed_counts_keep_sign (-7) _). vm_compute. reflexivity.
Defined.

(** The four shares of the performance generator, each truncated: for a
    total of fewer than 50 bits none has the sign opposite to the total,
    and for a total that is not negative they add up to the total or to
    at most four less. *)
Theorem performance_distribution_bounds (total_count : Z) :
  Z.abs total_count < 2 ^ 50 ->
  exists c1 c2 c3 c4,
    PerformanceGen.type_distribution total_count
    = Ok [(small, c1); (medium, c2); (large, c3); (huge, c4)] /\
    same_sign total_count [c1; c2; c3; c4] /\
    (0 <= total_count ->
     total_count - 4 <= c1 + c2 + c3 + c4 <= total_count) /\
    (3 <= total_count -> 1 <= c1).
Proof.
  intro H.
  destruct (performance_distribution_signed total_count H)
    as [c1 [c2 [c3 [c4 [E [E1 [Hs Hb]]]]]]].
  exists c1, c2, c3, c4. split; [exact E|]. split; [exact Hs|].
  split; [exact Hb|]. intro H3.
  assert (H' : total_count < 2 ^ 1022).
  { apply Z.lt_trans with (2 ^ 50); [lia|]. apply Z.pow_lt_mono_r; lia. }
  destruct (small_share_positive total_count ltac:(lia)) as [c [Ec Hc]].
  rewrite E1 in Ec. injection Ec as <-. exact Hc.
Qed.

Lemma performance_distribution_bounds_witness :
  exists c1 c2 c3 c4,
    PerformanceGen.type_distribution 1000003
    = Ok [(small, c1); (medium, c2); (large, c3); (huge, c4)] /\
    same_sign 1000003 [c1; c2; c3; c4] /\
    (0 <= 1000003 -> 1000003 - 4 <= c1 + c2 + c3 + c4 <= 1000003) /\
    (3 <= 1000003 -> 1 <= c1).
Proof.
  refine (performance_distribution_bounds 1000003 _). vm_compute. reflexivity.
Defined.

(** The document and the logs generator return as many entries as were
    requested, none for a count that is negative, whatever the type. *)
Theorem corpus_has_requested_size {RT : Runtime} {SH : Shapes} (count : Z) :
  Z.abs count < 2 ^ 1022 ->
  (forall doc_type a,
      exists docs a',
        DocumentGenerator.generate_documents doc_type count a
        = (Ok docs, a') /\
        len docs = Z.max 0 count) /\
  (forall log_type fmt seed a,
      exists logs a',
        LogsGenerator.generate
          (LogsGenerator.mkArgs count log_type fmt seed) a
        = (Ok logs, a') /\
        len logs = Z.max 0 count).
Proof.
  intro H. split.
  - intros doc_type a. now apply document_corpus_size_lemma.
  - intros log_type fmt seed a. now apply logs_corpus_size_lemma.
Qed.

Lemma corpus_has_requested_size_witness :
  exists docs a',
    DocumentGenerator.generate_documents
      (RT := Sample.runtime) (SH := Sample.shapes) Mixed 23
      (Sample.world 1 2 3)
    = (Ok docs, a') /\
    len docs = Z.max 0 23.
Proof.
  refine (proj1 (@corpus_has_requested_size Sample.runtime Sample.shapes 23
                   _) Mixed (Sample.world 1 2 3)).
  vm_compute. reflexivity.
Defined.

(** The identifiers of the log entries of one run are all present and
    pairwise distinct, for one kind of log and for the mixed stream. *)
Theorem log_ids_unique {RT : Runtime} {SH : Shapes}
  (count : Z) (log_type : LogsGenerator.log_type) (fmt : format)
  (seed : option Z) (a : Ambient) :
  let logs :=
    documents_of
      (LogsGenerator.generate
         (LogsGenerator.mkArgs count log_type fmt seed) a) in
  NoDup (map doc_id logs) /\ ~ In None (map doc_id logs).
Proof.
  intro logs. subst logs. unfold LogsGenerator.generate.
  cbn [LogsGenerator.arg_type LogsGenerator.arg_count].
  destruct log_type as [k|].
  - eapply unique_documents_of; [apply kind_logs_ids|].
    intros logs a' ->. split; [apply kind_ids_NoDup|].
    intro H. apply kind_ids_kind in H as [i H]. discriminate H.
  - eapply unique_documents_of; [apply generate_mixed_logs_spec|].
    intros logs a' [c1 [c2 [c3 [c4 [_ P]]]]]. split.
    + eapply Permutation_NoDup;
        [apply Permutation_sym, P|apply mixed_log_ids_NoDup].
    + intro H. apply (Permutation_in _ P) in H.
      rewrite !in_app_iff in H.
      destruct H as [H|[H|[H|H]]];
        apply kind_ids_kind in H as [i H]; discriminate H.
Qed.

Lemma document_main_completes_witness :
  let o := DocumentGenerator.main (RT := Sample.runtime)
             (SH := Sample.shapes)
             (DocumentGenerator.mkArgs Mixed 7 Ndjson (Some 42))
             (Sample.world 1 2 3) in
  exists stats,
    out_result o = Ok stats /\
    documentCount stats = 7 /\
    averageBytes stats = (inject_Z (totalBytes stats) / inject_Z 7)%Q /\
    (Ndjson = Ndjson -> getsize (out_sink o) = totalBytes stats + 7).
Proof.
  refine (@document_main_completes Sample.runtime Sample.shapes Mixed 7
            Ndjson (Some 42) (Sample.world 1 2 3) _);
    split; [lia|vm_compute; reflexivity].
Defined.

Lemma logs_main_completes_witness :
  let o := LogsGenerator.main (RT := Sample.runtime) (SH := Sample.shapes)
             (LogsGenerator.mkArgs 7 LogsGenerator.MixedLogs Ndjson None)
             (Sample.world 1 2 3) in
  exists stats,
    out_result o = Ok stats /\
    documentCount stats = 7 /\
    averageBytes stats = (inject_Z (totalBytes stats) / inject_Z 7)%Q /\
    (Ndjson = Ndjson -> getsize (out_sink o) = totalBytes stats + 7).
Proof.
  refine (@logs_main_completes Sample.runtime Sample.shapes
            LogsGenerator.MixedLogs 7 Ndjson None (Sample.world 1 2 3) _);
    split; [lia|vm_compute; reflexivity].
Defined.

Lemma nonpositive_count_raises_witness :
  let o := DocumentGenerator.main (RT := Sample.runtime)
             (SH := Sample.shapes)
             (DocumentGenerator.mkArgs Mixed (-5) Json None)
             (Sample.world 1 2 3) in
  out_result o = Raise ZeroDivisionError /\ out_sink o = empty_file Json.
Proof.
  refine (proj1 (@nonpositive_count_raises Sample.runtime Sample.shapes (-5)
                   _)
            Mixed Json None (Sample.world 1 2 3));
    split; [vm_compute; reflexivity|lia].
Defined.

Lemma huge_count_overflows_witness :
  let o := DocumentGenerator.main (RT := Sample.runtime)
             (SH := Sample.shapes)
             (DocumentGenerator.mkArgs Mixed (2 ^ 1024) Ndjson None)
             (Sample.world 1 2 3) in
  out_result o = Raise OverflowError /\ out_sink o = [].
Proof.
  refine (proj1 (@huge_count_overflows Sample.runtime Sample.shapes
                   (2 ^ 1024) _)
            Ndjson None (Sample.world 1 2 3)).
  vm_compute. discriminate.
Defined.

Lemma batch_size_is_invisible_witness :
  let o1 := PerformanceGen.main (RT := Sample.runtime) (SH := Sample.shapes)
              (PerformanceGen.mkArgs 2500 (PerformanceGen.Sel Mixed) 1000
                                     None false)
              (Sample.world 1 2 3) in
  let o2 := PerformanceGen.main (RT := Sample.runtime) (SH := Sample.shapes)
              (PerformanceGen.mkArgs 2500 (PerformanceGen.Sel Mixed) 7
                                     None true)
              (Sample.world 1 2 3) in
  out_result o1 = out_result o2 /\
  sink_content (out_sink o1) = sink_content (out_sink o2) /\
  out_amb o1 = out_amb o2.
Proof.
  refine (proj2 (proj2 (@batch_size_is_invisible Sample.runtime Sample.shapes
                          2500 1000 7 Mixed _ _))
            None false true (Sample.world 1 2 3)); lia.
Defined.

(** ** JSON array and line-delimited output *)

Lemma token_app (a b : string) : token (a ++ b) = (token a && token b)%bool.
Proof.
  induction a as [|c a IH]; simpl; [reflexivity|].
  rewrite IH. now rewrite !andb_assoc.
Qed.

Lemma uint_token (d : Decimal.uint) :
  token (NilEmpty.string_of_uint d) = true.
Proof. induction d; simpl; auto. Qed.

Lemma str_of_int_token (z : Z) : token (str_of_int z) = true.
Proof.
  unfold str_of_int, NilZero.string_of_int, NilZero.string_of_uint.
  destruct (Z.to_int z) as [d|d]; destruct d; simpl; auto using uint_token.
Qed.

Lemma squeeze_token (t r : string) :
  token t = true -> squeeze Outside (t ++ r) = t ++ squeeze Outside r.
Proof.
  induction t as [|c t IH]; intro H; [reflexivity|].
  simpl in H. apply andb_prop in H as [H Ht]. apply andb_prop in H as [Hb Hq].
  apply negb_true_iff in Hb, Hq.
  cbn [append squeeze lex_step]. rewrite Hb, Hq. now rewrite IH.
Qed.

Lemma squeeze_blank (b r : string) :
  blank b = true -> squeeze Outside (b ++ r) = squeeze Outside r.
Proof.
  induction b as [|c b IH]; intro H; [reflexivity|].
  simpl in H. apply andb_prop in H as [Hb Hr].
  cbn [append squeeze lex_step]. rewrite Hb.
  assert (Hq : Ascii.eqb c "034"%char = false).
  { unfold is_blank in Hb. destruct (Ascii.eqb_spec c "034"%char) as [->|];
      [discriminate Hb|reflexivity]. }
  rewrite Hq. now apply IH.
Qed.

Lemma squeeze_escape_char (c : ascii) (r : string) :
  squeeze Inside (escape_char c ++ r) = escape_char c ++ squeeze Inside r.
Proof. destruct c as [[] [] [] [] [] [] [] []]; reflexivity. Qed.

Lemma squeeze_escape (s r : string) :
  squeeze Inside (escape s ++ String "034"%char r)
  = escape s ++ String "034"%char (squeeze Outside r).
Proof.
  induction s as [|c s IH]; [reflexivity|].
  cbn [escape]. rewrite !append_assoc, squeeze_escape_char.
  rewrite IH. reflexivity.
Qed.

Lemma squeeze_encode_str (s r : string) :
  squeeze Outside (encode_str s ++ r) = encode_str s ++ squeeze Outside r.
Proof.
  unfold encode_str. cbn [append squeeze lex_step is_blank Ascii.eqb
                            Bool.eqb orb].
  rewrite !append_assoc. cbn [append]. now rewrite squeeze_escape.
Qed.

Lemma spaces_blank (n : nat) : blank (spaces n) = true.
Proof. induction n; [reflexivity|exact IHn]. Qed.

Lemma newline_indent_blank (level : nat) :
  blank (newline_indent level) = true.
Proof. unfold newline_indent. simpl. apply spaces_blank. Qed.

(** Items written with a separator that is a comma and white space. *)
Lemma squeeze_join {A} (f g : A -> string) (sep : string) (l : list A) :
  (forall r, squeeze Outside (sep ++ r) = String "," (squeeze Outside r)) ->
  Forall (fun x => forall r, squeeze Outside (f x ++ r)
                             = g x ++ squeeze Outside r) l ->
  forall r,
    squeeze Outside (join sep (map f l) ++ r)
    = join "," (map g l) ++ squeeze Outside r.
Proof.
  intros Hsep H. induction H as [|x l Hx Hl IH]; intro r; [reflexivity|].
  destruct l as [|y l].
  - simpl. apply Hx.
  - change (join sep (map f (x :: y :: l)))
      with (f x ++ sep ++ join sep (map f (y :: l))).
    change (join "," (map g (x :: y :: l)))
      with (g x ++ "," ++ join "," (map g (y :: l))).
    rewrite !append_assoc, Hx, Hsep, IH. reflexivity.
Qed.

Section Squeezed.
Context {RT : Runtime}.
Hypothesis float_repr_token : forall x, token (float_repr x) = true.

Lemma squeeze_scalar (v : json) (r : string) :
  match v with JList _ | JDict _ => False | _ => True end ->
  squeeze Outside (dumps v ++ r) = dumps_compact v ++ squeeze Outside r.
Proof.
  destruct v as [| [] | z | x | s | l | d]; intro H; try contradiction;
    cbn [dumps dumps_compact].
  - now apply squeeze_token.
  - now apply squeeze_token.
  - now apply squeeze_token.
  - apply squeeze_token, str_of_int_token.
  - apply squeeze_token, float_repr_token.
  - apply squeeze_encode_str.
Qed.

Lemma squeeze_colon (r : string) :
  squeeze Outside (": " ++ r) = ":" ++ squeeze Outside r.
Proof. reflexivity. Qed.

Lemma squeeze_dumps (v : json) :
  forall r,
    squeeze Outside (dumps v ++ r) = dumps_compact v ++ squeeze Outside r.
Proof.
  induction v as [| b | z | x | s | l IH | d IH] using json_nested_ind;
    intro r; try (apply squeeze_scalar; exact I).
  - cbn [dumps dumps_compact]. rewrite !append_assoc.
    rewrite (squeeze_token "[") by reflexivity.
    rewrite (squeeze_join dumps dumps_compact ", " l); [|reflexivity|exact IH].
    now rewrite (squeeze_token "]") by reflexivity.
  - cbn [dumps dumps_compact]. rewrite !append_assoc.
    rewrite (squeeze_token "{") by reflexivity.
    rewrite (squeeze_join
               (fun kv : string * json =>
                  let '(k, x) := kv in encode_str k ++ ": " ++ dumps x)
               (fun kv : string * json =>
                  let '(k, x) := kv in encode_str k ++ ":" ++ dumps_compact x)
               ", " d); [|reflexivity|].
    + now rewrite (squeeze_token "}") by reflexivity.
    + eapply Forall_impl; [|exact IH].
      intros [k x] Hx r0. cbn [snd] in Hx.
      rewrite !append_assoc, squeeze_encode_str.
      now rewrite squeeze_colon, Hx.
Qed.

Lemma squeeze_separator (level : nat) (r : string) :
  squeeze Outside (("," ++ newline_indent level) ++ r)
  = String "," (squeeze Outside r).
Proof.
  rewrite append_assoc, (squeeze_token ",") by reflexivity.
  now rewrite squeeze_blank by apply newline_indent_blank.
Qed.

Lemma squeeze_dumps_indent (v : json) :
  forall level r,
    squeeze Outside (dumps_indent level v ++ r)
    = dumps_compact v ++ squeeze Outside r.
Proof.
  induction v as [| b | z | x | s | l IH | d IH] using json_nested_ind;
    intros level r;
    try (cbn [dumps_indent]; apply squeeze_scalar; exact I).
  - destruct l as [|v l]; [reflexivity|].
    set (items := v :: l) in *.
    change (dumps_indent level (JList items))
      with ("[" ++ newline_indent (S level)
                ++ join ("," ++ newline_indent (S level))
                     (map (dumps_indent (S level)) items)
                ++ newline_indent level ++ "]").
    cbn [dumps_compact]. rewrite !append_assoc.
    rewrite (squeeze_token "[") by reflexivity.
    rewrite squeeze_blank by apply newline_indent_blank.
    rewrite (squeeze_join (dumps_indent (S level)) dumps_compact
               ("," ++ newline_indent (S level)) items).
    + rewrite squeeze_blank by apply newline_indent_blank.
      now rewrite (squeeze_token "]") by reflexivity.
    + apply squeeze_separator.
    + eapply Forall_impl; [|exact IH]. intros y Hy r0. apply Hy.
  - destruct d as [|kv d]; [reflexivity|].
    set (items := kv :: d) in *.
    change (dumps_indent level (JDict items))
      with ("{" ++ newline_indent (S level)
                ++ join ("," ++ newline_indent (S level))
                     (map (fun kv : string * json =>
                             let '(k, x) := kv in
                             encode_str k ++ ": "
                               ++ dumps_indent (S level) x) items)
                ++ newline_indent level ++ "}").
    cbn [dumps_compact]. rewrite !append_assoc.
    rewrite (squeeze_token "{") by reflexivity.
    rewrite squeeze_blank by apply newline_indent_blank.
    rewrite (squeeze_join
               (fun kv : string * json =>
                  let '(k, x) := kv in
                  encode_str k ++ ": " ++ dumps_indent (S level) x)
               (fun kv : string * json =>
                  let '(k, x) := kv in encode_str k ++ ":" ++ dumps_compact x)
               ("," ++ newline_indent (S level)) items).
    + rewrite squeeze_blank by apply newline_indent_blank.
      now rewrite (squeeze_token "}") by reflexivity.
    + apply squeeze_separator.
    + eapply Forall_impl; [|exact IH].
      intros [k x] Hx r0. cbn [snd] in Hx.
      rewrite !append_assoc, squeeze_encode_str.
      now rewrite squeeze_colon, Hx.
Qed.

Lemma append_nil_r (s : string) : s ++ EmptyString = s.
Proof. induction s as [|c s IH]; [reflexivity|]. simpl. now rewrite IH. Qed.

End Squeezed.

Lemma sample_repr_token (x : spec_float) : token (Sample.repr x) = true.
Proof.
  destruct x as [[]|[]| |s m e]; try reflexivity.
  unfold Sample.repr. rewrite !token_app, !str_of_int_token.
  destruct s; reflexivity.
Qed.

(** The two formats hold the same documents.  Where the [repr] of a
    float has no white space in it (as Python's has none), the array
    written by [save_as_json] with its indentation and the lines written
    by [save_as_ndjson] differ in the white space between tokens alone:
    without it the array is the compact serialisation of the list, each
    line that of its document, and the array is the lines joined by
    commas between brackets. *)
Theorem json_array_is_the_lines_reindented {RT : Runtime}
  (documents : list Document) :
  (forall x, token (float_repr x) = true) ->
  let array := sink_content (save_as_json documents) in
  let lines := file_lines (sink_content (save_as_ndjson documents)) in
  squeeze Outside array = dumps_compact (JList (map JDict documents)) /\
  map (squeeze Outside) lines
  = map (fun d => dumps_compact (JDict d)) documents /\
  squeeze Outside array
  = "[" ++ join "," (map (squeeze Outside) lines) ++ "]" /\
  (forall level v,
      squeeze Outside (dumps_indent level v) = squeeze Outside (dumps v)).
Proof.
  intros Hf array lines.
  assert (A : squeeze Outside array
              = dumps_compact (JList (map JDict documents))).
  { unfold array, save_as_json. cbn [sink_content].
    rewrite (squeeze_dumps_indent Hf). cbn [squeeze]. apply append_nil_r. }
  assert (L : map (squeeze Outside) lines
              = map (fun d => dumps_compact (JDict d)) documents).
  { unfold lines, file_lines.
    rewrite save_as_ndjson_content, split_ndjson_text, removelast_last.
    rewrite map_map. apply map_ext. intro d. unfold json_dumps.
    rewrite <- (append_nil_r (dumps (JDict d))).
    rewrite (squeeze_dumps Hf). cbn [squeeze]. apply append_nil_r. }
  split; [exact A|]. split; [exact L|]. split.
  - rewrite A, L. cbn [dumps_compact]. now rewrite map_map.
  - intros level v.
    rewrite <- (append_nil_r (dumps_indent level v)).
    rewrite <- (append_nil_r (dumps v)).
    now rewrite (squeeze_dumps_indent Hf), (squeeze_dumps Hf).
Qed.

(** Two documents of the sample runtime, a float and a string with a
    space and a quote among their values. *)
Lemma json_array_is_the_lines_reindented_witness :
  let documents : list Document :=
    [[("id", JStr "small_0"); ("rate", JFloat (S754_finite false 3 (-1)))];
     [("id", JStr "small_1");
      ("tags", JList [JStr (String "034"%char " a"); JNull]);
      ("nested", JDict [("n", JInt (-4))])]] in
  let array :=
    sink_content (save_as_json (RT := Sample.runtime) documents) in
  let lines :=
    file_lines (sink_content (save_as_ndjson (RT := Sample.runtime)
                               documents)) in
  squeeze Outside array
  = "[" ++ join "," (map (squeeze Outside) lines) ++ "]".
Proof.
  intros documents array lines.
  exact (proj1 (proj2 (proj2
           (@json_array_is_the_lines_reindented Sample.runtime documents
              sample_repr_token)))).
Defined.

(** ** The log templates and the report of the log types *)

Section LogTemplateLemmas.
Context {RT : Runtime} {LR : LogRuntime} (base : Shapes).

Let SH : Shapes := LogTemplates.shapes base.
Existing Instance SH.

Lemma generate_log_type (k : log_kind) (log_id : option string) a :
  ensures (LogsGenerator.generate_log k log_id) a
    (fun d _ => log_type_of d = JStr (type_name k)) no_raise.
Proof.
  unfold LogsGenerator.generate_log.
  apply ensures_bind, ensures_total.
  apply ensures_bind.
  assert (I : forall (P : string -> Ambient -> Prop) a0,
             (forall i a1, P i a1) ->
             ensures (id_or_uuid log_id) a0 P no_raise).
  { intros P a0 HP. destruct log_id as [[|c s]|]; cbn [id_or_uuid].
    - apply ensures_on_env, HP.
    - apply ensures_ret, HP.
    - apply ensures_on_env, HP. }
  apply I. intros i a1.
  apply ensures_bind, ensures_total, ensures_ret.
  destruct k; reflexivity.
Qed.

Lemma kind_logs_types (k : log_kind) (count : Z) a :
  ensures (LogsGenerator.kind_logs k count) a
    (fun logs _ =>
       Forall (fun d => log_type_of d = JStr (type_name k)) logs /\
       len logs = Z.max 0 count)
    no_raise.
Proof.
  unfold LogsGenerator.kind_logs.
  eapply ensures_weaken.
  - apply (ensures_mapM _
             (fun _ d => log_type_of d = JStr (type_name k))).
    intros i a0 _. apply generate_log_type.
  - intros logs a' H. simpl in H. split.
    + clear - H. induction H; constructor; assumption.
    + eapply Forall2_range_len, H.
  - auto.
Qed.

Lemma generate_mixed_logs_types count a :
  ensures (LogsGenerator.generate_mixed_logs count) a
    (fun logs _ =>
       exists c1 c2 c3 c4 l1 l2 l3 l4,
         LogsGenerator.mixed_counts count = Ok (c1, c2, c3, c4) /\
         Permutation logs (l1 ++ l2 ++ l3 ++ l4) /\
         (Forall (fun d => log_type_of d = JStr "application") l1 /\
          len l1 = Z.max 0 c1) /\
         (Forall (fun d => log_type_of d = JStr "access") l2 /\
          len l2 = Z.max 0 c2) /\
         (Forall (fun d => log_type_of d = JStr "metric") l3 /\
          len l3 = Z.max 0 c3) /\
         (Forall (fun d => log_type_of d = JStr "security") l4 /\
          len l4 = Z.max 0 c4))
    (fun e _ => LogsGenerator.mixed_counts count = Raise e).
Proof.
  unfold LogsGenerator.generate_mixed_logs.
  apply ensures_bind, ensures_lift_result.
  destruct (LogsGenerator.mixed_counts count)
    as [[[[c1 c2] c3] c4]|e]; [|reflexivity].
  apply ensures_bind.
  eapply ensures_weaken; [apply kind_logs_types| |intros ? ? []].
  intros d1 a1 H1. apply ensures_bind.
  eapply ensures_weaken; [apply kind_logs_types| |intros ? ? []].
  intros d2 a2 H2. apply ensures_bind.
  eapply ensures_weaken; [apply kind_logs_types| |intros ? ? []].
  intros d3 a3 H3. apply ensures_bind.
  eapply ensures_weaken; [apply kind_logs_types| |intros ? ? []].
  intros d4 a4 H4. apply ensures_on_rnd.
  exists c1, c2, c3, c4, d1, d2, d3, d4.
  split; [reflexivity|]. split; [apply random_shuffle_perm|].
  auto.
Qed.

End LogTemplateLemmas.

Lemma count_get_set (k k' : string) (n : Z) (counts : list (string * Z)) :
  count_get k (count_set k' n counts)
  = if String.eqb k k' then n else count_get k counts.
Proof.
  induction counts as [|[k0 n0] counts IH]; cbn [count_set count_get].
  - reflexivity.
  - destruct (String.eqb k' k0) eqn:E1; cbn [count_get].
    + apply String.eqb_eq in E1. subst k0.
      destruct (String.eqb k k'); reflexivity.
    + destruct (String.eqb k k0) eqn:E2.
      * apply String.eqb_eq in E2. subst k0.
        rewrite String.eqb_sym in E1. rewrite E1. reflexivity.
      * exact IH.
Qed.

Lemma count_set_keys (k : string) (n : Z) (counts : list (string * Z)) :
  map fst (count_set k n counts)
  = if existsb (String.eqb k) (map fst counts) then map fst counts
    else (map fst counts ++ [k])%list.
Proof.
  induction counts as [|[k0 n0] counts IH]; cbn [count_set map fst existsb].
  - reflexivity.
  - destruct (String.eqb k k0); cbn [map fst orb]; [reflexivity|].
    rewrite IH. destruct (existsb (String.eqb k) (map fst counts));
      reflexivity.
Qed.

Lemma count_set_NoDup (k : string) (n : Z) (counts : list (string * Z)) :
  NoDup (map fst counts) -> NoDup (map fst (count_set k n counts)).
Proof.
  intro H. rewrite count_set_keys.
  destruct (existsb (String.eqb k) (map fst counts)) eqn:E; [exact H|].
  apply NoDup_app; [exact H|repeat constructor; intros []|].
  intros x Hx [E1|[]]. subst x.
  assert (existsb (String.eqb k) (map fst counts) = true).
  { apply existsb_exists. exists k. split; [exact Hx|apply String.eqb_refl]. }
  congruence.
Qed.

Lemma count_set_positive (k : string) (n : Z) (counts : list (string * Z)) :
  0 < n ->
  Forall (fun kn => 0 < snd kn) counts ->
  Forall (fun kn => 0 < snd kn) (count_set k n counts).
Proof.
  intros Hn H. induction H as [|[k0 n0] counts H0 H IH]; cbn [count_set].
  - repeat constructor. exact Hn.
  - destruct (String.eqb k k0); constructor; assumption.
Qed.

Lemma count_get_nonneg (k : string) (counts : list (string * Z)) :
  Forall (fun kn => 0 < snd kn) counts -> 0 <= count_get k counts.
Proof.
  induction 1 as [|[k0 n0] counts H0 H IH]; cbn [count_get]; [lia|].
  destruct (String.eqb k k0); [cbn [snd] in H0; lia|exact IH].
Qed.

Lemma count_get_present (k : string) (counts : list (string * Z)) :
  Forall (fun kn => 0 < snd kn) counts ->
  (In k (map fst counts) <-> 0 < count_get k counts).
Proof.
  induction 1 as [|[k0 n0] counts H0 H IH]; cbn [count_get map fst In].
  - split; [intros []|lia].
  - destruct (String.eqb k k0) eqn:E.
    + apply String.eqb_eq in E. subst k0. cbn [snd] in H0. tauto.
    + apply String.eqb_neq in E. split.
      * intros [->|Hin]; [congruence|]. apply IH, Hin.
      * intro Hp. right. apply IH, Hp.
Qed.

Lemma logs_of_type_cons (k : string) (log : Document) logs :
  logs_of_type k (log :: logs)
  = (if is_str k (log_type_of log) then 1 else 0) + logs_of_type k logs.
Proof.
  unfold logs_of_type, len. cbn [filter].
  destruct (is_str k (log_type_of log)); cbn [List.length]; lia.
Qed.

Lemma logs_of_type_app (k : string) (l1 l2 : list Document) :
  logs_of_type k (l1 ++ l2)%list = logs_of_type k l1 + logs_of_type k l2.
Proof.
  unfold logs_of_type, len. rewrite filter_app, length_app. lia.
Qed.

Lemma logs_of_type_perm (k : string) (l1 l2 : list Document) :
  Permutation l1 l2 -> logs_of_type k l1 = logs_of_type k l2.
Proof.
  induction 1 as [|x l l' _ IH|x y l|l l' l'' _ IH1 _ IH2].
  - reflexivity.
  - rewrite !logs_of_type_cons, IH. reflexivity.
  - rewrite !logs_of_type_cons. lia.
  - congruence.
Qed.

Lemma logs_of_type_block (k t : string) (logs : list Document) :
  Forall (fun d => log_type_of d = JStr t) logs ->
  logs_of_type k logs = if String.eqb t k then len logs else 0.
Proof.
  induction 1 as [|log logs H _ IH].
  - destruct (String.eqb t k); reflexivity.
  - rewrite logs_of_type_cons, IH, H. cbn [is_str].
    unfold len. cbn [List.length].
    destruct (String.eqb t k); lia.
Qed.

Lemma type_counts_loop (logs : list Document) :
  Forall (fun d => exists t, log_type_of d = JStr t) logs ->
  forall counts,
    NoDup (map fst counts) ->
    Forall (fun kn => 0 < snd kn) counts ->
    exists counts',
      fold_left count_log logs (Some counts) = Some counts' /\
      NoDup (map fst counts') /\
      Forall (fun kn => 0 < snd kn) counts' /\
      forall k, count_get k counts'
                = count_get k counts + logs_of_type k logs.
Proof.
  induction 1 as [|log logs [t Ht] _ IH]; intros counts ND POS.
  - exists counts. cbn [fold_left]. repeat split; try assumption.
    intro k. unfold logs_of_type, len. cbn. lia.
  - cbn [fold_left]. unfold count_log at 2. rewrite Ht.
    destruct (IH (count_set t (count_get t counts + 1) counts))
      as (counts' & E & ND' & POS' & G).
    + apply count_set_NoDup, ND.
    + apply count_set_positive; [|exact POS].
      pose proof (count_get_nonneg t counts POS). lia.
    + exists counts'. repeat split; try assumption.
      intro k. rewrite G, count_get_set, logs_of_type_cons, Ht.
      cbn [is_str]. rewrite (String.eqb_sym t k).
      destruct (String.eqb k t) eqn:E1; [|lia].
      apply String.eqb_eq in E1. subst k. lia.
Qed.

Lemma is_str_spec (s : string) (v : json) :
  is_str s v = true <-> v = JStr s.
Proof.
  destruct v; cbn [is_str]; try (split; [discriminate|congruence]).
  rewrite String.eqb_eq. split; congruence.
Qed.

Section ApplicationLog.
Context {RT : Runtime} {LR : LogRuntime}.

Lemma message_and_exception_spec (level : json) a :
  let me := fst (LogTemplates.message_and_exception level a) in
  (exists s, fst me = message_prefix level ++ s) /\
  (is_str "WARN" level || is_str "INFO" level || is_str "DEBUG" level = true
   -> snd me = JNull) /\
  (is_str "ERROR" level || is_str "WARN" level || is_str "INFO" level
   || is_str "DEBUG" level = false ->
   exists msg trace,
     snd me = JDict [("type", JStr "SystemException"); ("message", JStr msg);
                     ("stack_trace", JList trace)]).
Proof.
  unfold LogTemplates.message_and_exception, message_prefix.
  destruct level as [| | | |s| |]; cbn [is_str orb];
    try (cbn; split; [eexists; reflexivity|split; [discriminate|eauto]]).
  destruct (String.eqb s "ERROR") eqn:E1.
  { apply String.eqb_eq in E1. subst s. cbn.
    split; [eexists; reflexivity|split; discriminate]. }
  destruct (String.eqb s "WARN") eqn:E2.
  { cbn. split; [eexists; reflexivity|split; [reflexivity|discriminate]]. }
  destruct (String.eqb s "INFO") eqn:E3.
  { cbn. split; [eexists; reflexivity|split; [reflexivity|discriminate]]. }
  destruct (String.eqb s "DEBUG") eqn:E4.
  { cbn. split; [eexists; reflexivity|split; [reflexivity|discriminate]]. }
  cbn. split; [eexists; reflexivity|split; [discriminate|eauto]].
Qed.

Lemma application_log_draws_spec a :
  let drawn := fst (LogTemplates.application_log_draws a) in
  exists level message exception,
    dict_get "level" drawn = Some level /\
    dict_get "message" drawn = Some (JStr message) /\
    dict_get "exception" drawn = Some exception /\
    (exists s, message = message_prefix level ++ s) /\
    (is_str "WARN" level || is_str "INFO" level || is_str "DEBUG" level = true
     -> exception = JNull) /\
    (is_str "ERROR" level || is_str "WARN" level || is_str "INFO" level
     || is_str "DEBUG" level = false ->
     exists msg trace,
       exception
       = JDict [("type", JStr "SystemException"); ("message", JStr msg);
                ("stack_trace", JList trace)]).
Proof.
  intro drawn.
  eexists _, _, _.
  split; [reflexivity|]. split; [reflexivity|]. split; [reflexivity|].
  apply message_and_exception_spec.
Qed.

Lemma application_log_fields_spec (drawn : Document) a :
  let fields := fst (LogTemplates.application_log_fields drawn a) in
  let level := LogTemplates.drawn_value "level" drawn in
  map fst fields = tl application_log_keys /\
  dict_get "level" fields = Some level /\
  dict_get "message" fields
  = Some (LogTemplates.drawn_value "message" drawn) /\
  dict_get "exception" fields
  = Some (LogTemplates.drawn_value "exception" drawn) /\
  exists duration_ms,
    dict_get "duration_ms" fields = Some duration_ms /\
    (duration_ms <> JNull <->
     is_str "INFO" level || is_str "WARN" level = true).
Proof.
  intros fields level.
  split; [reflexivity|]. split; [reflexivity|]. split; [reflexivity|].
  split; [reflexivity|].
  eexists. split; [reflexivity|].
  fold level.
  destruct (is_str "INFO" level || is_str "WARN" level); cbn.
  - split; [reflexivity|discriminate].
  - split; [congruence|discriminate].
Qed.

Lemma ensures_id_or_uuid (log_id : option string) a
  (P : string -> Ambient -> Prop) :
  (forall i a', P i a') -> ensures (id_or_uuid log_id) a P no_raise.
Proof.
  intro HP. destruct log_id as [[|c s]|]; cbn [id_or_uuid].
  - apply ensures_on_env, HP.
  - apply ensures_ret, HP.
  - apply ensures_on_env, HP.
Qed.

Lemma application_log_spec (base : Shapes) (log_id : option string) a :
  ensures (LogsGenerator.generate_log (SH := LogTemplates.shapes base)
             log_app log_id) a
    (fun d _ =>
       exists level message exception duration_ms,
         map fst d = application_log_keys /\
         dict_get "level" d = Some level /\
         dict_get "message" d = Some (JStr message) /\
         dict_get "exception" d = Some exception /\
         dict_get "duration_ms" d = Some duration_ms /\
         (exists s, message = message_prefix level ++ s) /\
         (duration_ms <> JNull <->
          is_str "INFO" level || is_str "WARN" level = true) /\
         (is_str "WARN" level || is_str "INFO" level
          || is_str "DEBUG" level = true -> exception = JNull) /\
         (is_str "ERROR" level || is_str "WARN" level || is_str "INFO" level
          || is_str "DEBUG" level = false ->
          exists msg trace,
            exception
            = JDict [("type", JStr "SystemException");
                     ("message", JStr msg); ("stack_trace", JList trace)]))
    no_raise.
Proof.
  unfold LogsGenerator.generate_log.
  apply ensures_bind, ensures_total.
  apply ensures_bind, ensures_id_or_uuid. intros i a1.
  apply ensures_bind, ensures_total, ensures_ret.
  cbn [log_draws log_fields LogTemplates.shapes].
  destruct (application_log_draws_spec a)
    as (level & message & exception & L & M & X & P1 & P2 & P3).
  destruct (application_log_fields_spec
              (fst (LogTemplates.application_log_draws a)) a1)
    as (K & L' & M' & X' & duration_ms & D & PD).
  unfold LogTemplates.drawn_value in L', M', X', PD.
  rewrite L in L', PD. rewrite M in M'. rewrite X in X'.
  exists level, message, exception, duration_ms.
  split; [cbn [map fst]; rewrite K; reflexivity|].
  repeat split; try assumption; apply PD.
Qed.

End ApplicationLog.

(** ** The entries of the log templates *)

(** An application log is always returned, with its eighteen keys in
    the order of the source, and its fields agree with its level: the
    message opens with the phrase of the level, [duration_ms] is set
    exactly for INFO and WARN, the levels WARN, INFO and DEBUG carry no
    exception, and a level that is none of ERROR, WARN, INFO and DEBUG
    carries a SystemException. *)
Theorem application_log_agrees_with_its_level {RT : Runtime}
  {LR : LogRuntime} (base : Shapes) (log_id : option string) a :
  exists d a' level message exception duration_ms,
    LogsGenerator.generate_log (SH := LogTemplates.shapes base)
      log_app log_id a = (Ok d, a') /\
    map fst d = application_log_keys /\
    dict_get "level" d = Some level /\
    dict_get "message" d = Some (JStr message) /\
    dict_get "exception" d = Some exception /\
    dict_get "duration_ms" d = Some duration_ms /\
    (exists s, message = message_prefix level ++ s) /\
    (duration_ms <> JNull <-> level = JStr "INFO" \/ level = JStr "WARN") /\
    (level = JStr "WARN" \/ level = JStr "INFO" \/ level = JStr "DEBUG" ->
     exception = JNull) /\
    (level <> JStr "ERROR" -> level <> JStr "WARN" ->
     level <> JStr "INFO" -> level <> JStr "DEBUG" ->
     exists msg trace,
       exception
       = JDict [("type", JStr "SystemException"); ("message", JStr msg);
                ("stack_trace", JList trace)]).
Proof.
  destruct (ensures_returns _ _ _ (application_log_spec base log_id a))
    as (d & a' & E & level & message & exception & duration_ms
        & K & L & M & X & D & P1 & P2 & P3 & P4).
  exists d, a', level, message, exception, duration_ms.
  repeat (split; [assumption|]).
  split; [|split].
  - rewrite P2, orb_true_iff, !is_str_spec. reflexivity.
  - intro H. apply P3. rewrite !orb_true_iff, !is_str_spec. tauto.
  - intros N1 N2 N3 N4. apply P4. rewrite !orb_false_iff.
    repeat split; apply not_true_is_false; rewrite is_str_spec; assumption.
Qed.

(** The report of the log types of a mixed run shows the allocation:
    the run returns, the loop of [main] counts every entry under a [str],
    each type once and only with a positive count, the application logs
    (which carry no [type]) come to the application count, and the access
    logs, metrics and security events to theirs (a count below zero
    standing for none).  No other type is reported. *)
Theorem log_types_report_the_allocation {RT : Runtime} {LR : LogRuntime}
  (base : Shapes) (count c1 c2 c3 c4 : Z) a :
  LogsGenerator.mixed_counts count = Ok (c1, c2, c3, c4) ->
  exists logs a' counts,
    LogsGenerator.generate_mixed_logs (SH := LogTemplates.shapes base)
      count a = (Ok logs, a') /\
    type_counts logs = Some counts /\
    NoDup (map fst counts) /\
    (forall k, In k (map fst counts) <-> 0 < count_get k counts) /\
    count_get "application" counts = Z.max 0 c1 /\
    count_get "access" counts = Z.max 0 c2 /\
    count_get "metric" counts = Z.max 0 c3 /\
    count_get "security" counts = Z.max 0 c4 /\
    (forall k, count_get k counts <> 0 ->
               In k ["application"; "access"; "metric"; "security"]).
Proof.
  intro MC.
  pose proof (generate_mixed_logs_types base count a) as H.
  unfold ensures in H.
  destruct (LogsGenerator.generate_mixed_logs
              (SH := LogTemplates.shapes base) count a) as [[logs|e] a'];
    [|congruence].
  destruct H as (d1 & d2 & d3 & d4 & l1 & l2 & l3 & l4 & MC' & PERM
                 & [F1 N1] & [F2 N2] & [F3 N3] & [F4 N4]).
  rewrite MC in MC'. injection MC' as <- <- <- <-.
  assert (STR : Forall (fun d => exists t, log_type_of d = JStr t) logs).
  { rewrite Forall_forall. intros d Hd.
    apply (Permutation_in _ PERM) in Hd.
    rewrite !in_app_iff in Hd. rewrite Forall_forall in F1, F2, F3, F4.
    destruct Hd as [Hd|[Hd|[Hd|Hd]]]; eauto. }
  destruct (type_counts_loop logs STR [] (NoDup_nil _) (Forall_nil _))
    as (counts & TC & ND & POS & G).
  assert (G' : forall k,
             count_get k counts
             = (if String.eqb "application" k then Z.max 0 c1 else 0)
               + (if String.eqb "access" k then Z.max 0 c2 else 0)
               + (if String.eqb "metric" k then Z.max 0 c3 else 0)
               + (if String.eqb "security" k then Z.max 0 c4 else 0)).
  { intro k. rewrite G, (logs_of_type_perm k _ _ PERM).
    rewrite !logs_of_type_app.
    rewrite (logs_of_type_block k _ _ F1), (logs_of_type_block k _ _ F2),
      (logs_of_type_block k _ _ F3), (logs_of_type_block k _ _ F4).
    rewrite N1, N2, N3, N4. cbn [count_get]. lia. }
  exists logs, a', counts.
  split; [reflexivity|]. split; [exact TC|]. split; [exact ND|].
  split; [intro k; apply count_get_present, POS|].
  split; [rewrite G'; cbn; lia|]. split; [rewrite G'; cbn; lia|].
  split; [rewrite G'; cbn; lia|]. split; [rewrite G'; cbn; lia|].
  intros k Hk. rewrite G' in Hk. cbn [In].
  destruct (String.eqb "application" k) eqn:K1;
    [apply String.eqb_eq in K1; auto|].
  destruct (String.eqb "access" k) eqn:K2;
    [apply String.eqb_eq in K2; auto|].
  destruct (String.eqb "metric" k) eqn:K3;
    [apply String.eqb_eq in K3; auto|].
  destruct (String.eqb "security" k) eqn:K4;
    [apply String.eqb_eq in K4; auto 6|].
  lia.
Qed.

Lemma log_types_report_the_allocation_witness :
  exists logs a' counts,
    LogsGenerator.generate_mixed_logs (RT := Sample.runtime)
      (SH := LogTemplates.shapes (RT := Sample.runtime)
               (LR := SampleLog.log_runtime) Sample.shapes)
      10 (Sample.world 1 2 3) = (Ok logs, a') /\
    type_counts logs = Some counts /\
    NoDup (map fst counts) /\
    (forall k, In k (map fst counts) <-> 0 < count_get k counts) /\
    count_get "application" counts = Z.max 0 5 /\
    count_get "access" counts = Z.max 0 3 /\
    count_get "metric" counts = Z.max 0 1 /\
    count_get "security" counts = Z.max 0 1 /\
    (forall k, count_get k counts <> 0 ->
               In k ["application"; "access"; "metric"; "security"]).
Proof.
  refine (log_types_report_the_allocation (RT := Sample.runtime)
            (LR := SampleLog.log_runtime) Sample.shapes 10 5 3 1 1
            (Sample.world 1 2 3) _).
  vm_compute. reflexivity.
Defined.

(** ** Reading back what [json.dumps] wrote *)

Lemma starts_with_app (p r : string) : starts_with p (p ++ r) = true.
Proof.
  induction p as [|c p IH]; [reflexivity|].
  cbn. rewrite Ascii.eqb_refl. exact IH.
Qed.

Lemma skip_app (p r : string) :
  Reader.skip (String.length p) (p ++ r) = r.
Proof. induction p as [|c p IH]; [destruct r; reflexivity|exact IH]. Qed.

(** *** Strings *)

Lemma parse_chars_escape_char (c : ascii) (r : string) :
  Reader.parse_chars (escape_char c ++ r)
  = match Reader.parse_chars r with
    | Some (t, rest) => Some (String c t, rest)
    | None => None
    end.
Proof. destruct c as [[] [] [] [] [] [] [] []]; reflexivity. Qed.

Lemma parse_chars_escape (s rest : string) :
  Reader.parse_chars (escape s ++ String "034"%char rest)
  = Some (s, rest).
Proof.
  induction s as [|c s IH]; [reflexivity|].
  cbn [escape]. rewrite append_assoc, parse_chars_escape_char, IH.
  reflexivity.
Qed.

Lemma parse_chars_encode_str (s rest : string) :
  Reader.parse_chars (Reader.skip 1 (encode_str s ++ rest))
  = Some (s, rest).
Proof.
  unfold encode_str. cbn [append Reader.skip].
  rewrite append_assoc. apply parse_chars_escape.
Qed.

(** *** Numbers *)

Lemma take_number_text (t rest : string) :
  Reader.all_chars Reader.number_char t = true ->
  delimited rest = true ->
  Reader.take_number (t ++ rest) = (t, rest).
Proof.
  intros Ht Hr. induction t as [|c t IH].
  - destruct rest as [|c r]; [reflexivity|].
    cbn in *. destruct (Reader.number_char c); [discriminate|reflexivity].
  - cbn [Reader.all_chars] in Ht. apply andb_prop in Ht as [Hc Ht].
    cbn [append Reader.take_number]. rewrite Hc, (IH Ht). reflexivity.
Qed.

Lemma uint_int_chars (d : Decimal.uint) :
  Reader.all_chars Reader.int_char (NilEmpty.string_of_uint d) = true.
Proof. induction d; simpl; auto. Qed.

Lemma str_of_int_int_chars (z : Z) :
  Reader.all_chars Reader.int_char (str_of_int z) = true.
Proof.
  unfold str_of_int, NilZero.string_of_int, NilZero.string_of_uint.
  destruct (Z.to_int z) as [d|d]; destruct d; simpl;
    auto using uint_int_chars.
Qed.

Lemma int_chars_number_chars (s : string) :
  Reader.all_chars Reader.int_char s = true ->
  Reader.all_chars Reader.number_char s = true.
Proof.
  induction s as [|c s IH]; [reflexivity|].
  cbn [Reader.all_chars]. intro H. apply andb_prop in H as [Hc Hs].
  rewrite (IH Hs), andb_true_r.
  unfold Reader.int_char in Hc. unfold Reader.number_char.
  apply orb_prop in Hc as [-> | ->]; [reflexivity|].
  rewrite orb_true_r. reflexivity.
Qed.

Lemma int_of_str_of_int (z : Z) :
  NilZero.int_of_string (str_of_int z) = Some (Z.to_int z).
Proof.
  unfold str_of_int. apply NilZero.isi.
  - destruct z as [|p|p]; simpl; try discriminate.
    intro E. injection E as E.
    exact (DecimalPos.Unsigned.to_uint_nonnil p E).
  - destruct z as [|p|p]; simpl; try discriminate.
    intro E. injection E as E.
    exact (DecimalPos.Unsigned.to_uint_nonnil p E).
Qed.

Lemma all_chars_nonempty (p : ascii -> bool) (s : string) :
  Reader.all_chars p s = false -> s <> EmptyString.
Proof. intros H ->. discriminate H. Qed.

(** A text that opens with a character of a number is read as a number. *)
Lemma parse_value_number float_of_string fuel (c : ascii) (s : string) :
  Reader.number_char c = true ->
  Reader.parse_value float_of_string (S fuel) (String c s)
  = Reader.parse_number float_of_string (String c s).
Proof.
  destruct c as [[] [] [] [] [] [] [] []]; intro H;
    try discriminate H; reflexivity.
Qed.

Lemma parse_value_int float_of_string fuel (z : Z) (rest : string) :
  delimited rest = true ->
  Reader.parse_value float_of_string (S fuel) (str_of_int z ++ rest)
  = Some (JInt z, rest).
Proof.
  intro Hr.
  pose proof (str_of_int_int_chars z) as Hi.
  pose proof (int_of_str_of_int z) as Hz.
  destruct (str_of_int z) as [|c t] eqn:E; [discriminate Hz|].
  cbn [append]. rewrite parse_value_number.
  - unfold Reader.parse_number.
    change (String c (t ++ rest)) with (String c t ++ rest).
    rewrite take_number_text by auto using int_chars_number_chars.
    rewrite Hi, Hz, DecimalZ.of_to. reflexivity.
  - apply int_chars_number_chars in Hi. cbn [Reader.all_chars] in Hi.
    apply andb_prop in Hi as [Hc _]. exact Hc.
Qed.

Section Floats.
Context {RT : Runtime}.
Variable float_of_string : string -> option spec_float.

Lemma parse_value_float fuel (x : spec_float) (rest : string) :
  float_text float_of_string x ->
  delimited rest = true ->
  Reader.parse_value float_of_string (S fuel) (float_repr x ++ rest)
  = Some (JFloat x, rest).
Proof.
  intros Hx Hr.
  assert (Finite : forall y,
             Reader.all_chars Reader.number_char (float_repr y) = true
             /\ Reader.all_chars Reader.int_char (float_repr y) = false
             /\ float_of_string (float_repr y) = Some y ->
             Reader.parse_value float_of_string (S fuel)
               (float_repr y ++ rest) = Some (JFloat y, rest)).
  { intros y [Hn [Hi Hf]].
    destruct (float_repr y) as [|c t] eqn:E; [discriminate Hi|].
    cbn [append]. rewrite parse_value_number.
    - unfold Reader.parse_number.
      change (String c (t ++ rest)) with (String c t ++ rest).
      rewrite take_number_text by assumption.
      rewrite Hi, Hf. reflexivity.
    - cbn [Reader.all_chars] in Hn. apply andb_prop in Hn as [Hc _].
      exact Hc. }
  destruct x as [s|s| |s m e]; unfold float_text in Hx.
  - apply Finite, Hx.
  - rewrite Hx. destruct s.
    + cbn [append]. rewrite parse_value_number by reflexivity.
      reflexivity.
    + reflexivity.
  - rewrite Hx. reflexivity.
  - apply Finite, Hx.
Qed.

End Floats.

(** *** Dictionaries *)

Lemma dict_set_fresh (k : string) (v : json) (d : Document) :
  existsb (String.eqb k) (map fst d) = false ->
  dict_set k v d = (d ++ [(k, v)])%list.
Proof.
  induction d as [|[k' v'] d IH]; [reflexivity|].
  cbn [map fst existsb dict_set app]. intro H.
  apply orb_false_elim in H as [H1 H2]. rewrite H1, (IH H2). reflexivity.
Qed.

Lemma dict_of_fresh (members acc : Document) :
  distinct (map fst members) = true ->
  (forall k, In k (map fst members) ->
             existsb (String.eqb k) (map fst acc) = false) ->
  fold_left (fun d kv => dict_set (fst kv) (snd kv) d) members acc
  = (acc ++ members)%list.
Proof.
  revert acc. induction members as [|[k v] ms IH]; intros acc Hd Ha.
  - cbn. now rewrite app_nil_r.
  - cbn [map fst distinct] in Hd. apply andb_prop in Hd as [Hk Hd].
    apply negb_true_iff in Hk.
    cbn [fold_left fst snd].
    rewrite dict_set_fresh by (apply Ha; left; reflexivity).
    rewrite IH; [now rewrite <- app_assoc|exact Hd|].
    intros k' Hk'. rewrite map_app, existsb_app.
    rewrite (Ha k') by (right; exact Hk').
    cbn [map fst existsb]. rewrite orb_false_r, orb_false_l.
    destruct (String.eqb k' k) eqn:E; [|reflexivity].
    apply String.eqb_eq in E. subst k'.
    assert (X : existsb (String.eqb k) (map fst ms) = true).
    { apply existsb_exists. exists k. split; [exact Hk'|].
      apply String.eqb_refl. }
    congruence.
Qed.

Lemma dict_of_distinct (d : Document) :
  distinct (map fst d) = true -> Reader.dict_of d = d.
Proof.
  intro H. unfold Reader.dict_of. rewrite dict_of_fresh; auto.
Qed.

(** *** Values *)

Lemma list_sum_cons (x : nat) (l : list nat) :
  list_sum (x :: l) = (x + list_sum l)%nat.
Proof. reflexivity. Qed.

Lemma number_char_not_bracket (c : ascii) :
  Reader.number_char c = true -> Ascii.eqb "]" c = false.
Proof.
  destruct c as [[] [] [] [] [] [] [] []]; intro H;
    try discriminate H; reflexivity.
Qed.

Section Values.
Context {RT : Runtime}.
Variable float_of_string : string -> option spec_float.

(** A value of Python: its floats are written and read as floats, and
    its dictionaries have distinct keys. *)
Definition well (v : json) : Prop :=
  (forall x, In x (floats_of v) -> float_text float_of_string x) /\
  distinct_keys v = true.

Lemma well_list (l : list json) : well (JList l) -> Forall well l.
Proof.
  intros [Hf Hd]. apply Forall_forall. intros v Hv. split.
  - intros x Hx. apply Hf. cbn [floats_of]. apply in_flat_map. eauto.
  - cbn [distinct_keys] in Hd. rewrite forallb_forall in Hd. auto.
Qed.

Lemma well_dict (d : Document) :
  well (JDict d) ->
  distinct (map fst d) = true /\ Forall (fun kv => well (snd kv)) d.
Proof.
  intros [Hf Hd]. cbn [distinct_keys] in Hd. apply andb_prop in Hd as [H1 H2].
  split; [exact H1|]. apply Forall_forall. intros kv Hkv. split.
  - intros x Hx. apply Hf. cbn [floats_of]. apply in_flat_map. eauto.
  - rewrite forallb_forall in H2. auto.
Qed.

(** No value opens with a closing bracket. *)
Lemma dumps_head (v : json) (r : string) :
  well v -> starts_with "]" (dumps v ++ r) = false.
Proof.
  intros [Hf _]. destruct v as [| [] | z | x | s | l | d]; try reflexivity.
  - pose proof (str_of_int_int_chars z) as Hi.
    pose proof (int_of_str_of_int z) as Hz. cbn [dumps].
    destruct (str_of_int z) as [|c t]; [discriminate Hz|].
    apply int_chars_number_chars in Hi. cbn [Reader.all_chars] in Hi.
    apply andb_prop in Hi as [Hc _].
    cbn [append starts_with]. now rewrite (number_char_not_bracket c Hc).
  - specialize (Hf x (or_introl eq_refl)). cbn [dumps].
    assert (Finite :
              Reader.all_chars Reader.number_char (float_repr x)
              = true
              /\ Reader.all_chars Reader.int_char (float_repr x)
                 = false
              /\ float_of_string (float_repr x) = Some x ->
              starts_with "]" (float_repr x ++ r) = false).
    { intros [Hn [Hi _]].
      destruct (float_repr x) as [|c t]; [discriminate Hi|].
      cbn [Reader.all_chars] in Hn. apply andb_prop in Hn as [Hc _].
      cbn [append starts_with].
      now rewrite (number_char_not_bracket c Hc). }
    destruct x as [s|s| |s m e]; unfold float_text in Hf.
    + apply Finite, Hf.
    + rewrite Hf. destruct s; reflexivity.
    + rewrite Hf. reflexivity.
    + apply Finite, Hf.
Qed.

Definition reads (v : json) : Prop :=
  well v ->
  forall fuel rest,
    delimited rest = true ->
    (size v <= fuel)%nat ->
    Reader.parse_value float_of_string fuel (dumps v ++ rest)
    = Some (v, rest).

Lemma parse_items_join (l : list json) :
  l <> [] ->
  Forall reads l -> Forall well l ->
  forall fuel rest,
    (list_sum (map (fun x => S (size x)) l) <= fuel)%nat ->
    Reader.parse_items float_of_string fuel
      (join ", " (map dumps l) ++ "]" ++ rest)
    = Some (l, rest).
Proof.
  induction l as [|v l IH]; [congruence|]. intros _ HR HW fuel rest Hfuel.
  inversion HR as [|? ? Rv Rl]; subst. inversion HW as [|? ? Wv Wl]; subst.
  cbn [map] in Hfuel. rewrite list_sum_cons in Hfuel.
  destruct fuel as [|fuel]; [lia|].
  destruct l as [|w l].
  - cbn [map join Reader.parse_items].
    rewrite (Rv Wv fuel ("]" ++ rest)) by (reflexivity || lia).
    reflexivity.
  - change (join ", " (map dumps (v :: w :: l)))
      with (dumps v ++ ", " ++ join ", " (map dumps (w :: l))).
    rewrite !append_assoc. cbn [Reader.parse_items].
    rewrite (Rv Wv fuel) by (reflexivity || lia).
    cbn [append starts_with Ascii.eqb Bool.eqb andb Reader.skip].
    change (String "]" rest) with ("]" ++ rest).
    rewrite (IH ltac:(discriminate) Rl Wl fuel rest) by lia.
    reflexivity.
Qed.

Lemma parse_members_join (d : Document) :
  d <> [] ->
  Forall (fun kv => reads (snd kv)) d ->
  Forall (fun kv => well (snd kv)) d ->
  forall fuel rest,
    (list_sum (map (fun kv => S (size (snd kv))) d) <= fuel)%nat ->
    Reader.parse_members float_of_string fuel
      (join ", "
         (map (fun kv => let '(k, x) := kv in
                         encode_str k ++ ": " ++ dumps x) d)
       ++ "}" ++ rest)
    = Some (d, rest).
Proof.
  induction d as [|[k v] d IH]; [congruence|].
  intros _ HR HW fuel rest Hfuel.
  inversion HR as [|? ? Rv Rl]; subst. inversion HW as [|? ? Wv Wl]; subst.
  cbn [snd] in Rv, Wv. cbn [map snd] in Hfuel.
  rewrite list_sum_cons in Hfuel.
  destruct fuel as [|fuel]; [lia|].
  assert (Open : forall t,
             starts_with (String "034"%char EmptyString) (encode_str k ++ t)
             = true) by reflexivity.
  destruct d as [|[k' w] d].
  - cbn [map join]. rewrite !append_assoc. cbn [Reader.parse_members].
    rewrite Open, parse_chars_encode_str.
    cbn [append starts_with Ascii.eqb Bool.eqb andb Reader.skip].
    rewrite (Rv Wv fuel (String "}" rest)) by (reflexivity || lia).
    reflexivity.
  - change (join ", "
              (map (fun kv : string * json =>
                      let '(k0, x) := kv in encode_str k0 ++ ": " ++ dumps x)
                   ((k, v) :: (k', w) :: d)))
      with ((encode_str k ++ ": " ++ dumps v) ++ ", "
            ++ join ", "
                 (map (fun kv : string * json =>
                         let '(k0, x) := kv in
                         encode_str k0 ++ ": " ++ dumps x)
                      ((k', w) :: d))).
    rewrite !append_assoc. cbn [Reader.parse_members].
    rewrite Open, parse_chars_encode_str.
    cbn [append starts_with Ascii.eqb Bool.eqb andb Reader.skip].
    rewrite (Rv Wv fuel) by (reflexivity || lia).
    cbn [append starts_with Ascii.eqb Bool.eqb andb Reader.skip].
    pose proof (IH ltac:(discriminate) Rl Wl fuel rest ltac:(lia)) as E.
    cbn [append] in E |- *. rewrite E. reflexivity.
Qed.

Lemma parse_value_dumps (v : json) : reads v.
Proof.
  induction v as [| b | z | x | s | l IH | d IH] using json_nested_ind;
    intros W fuel rest Hr Hfuel;
    (destruct fuel as [|fuel]; [cbn in Hfuel; lia|]).
  - reflexivity.
  - destruct b; reflexivity.
  - apply parse_value_int, Hr.
  - apply parse_value_float; [|exact Hr].
    apply (proj1 W). left. reflexivity.
  - cbn [dumps]. unfold encode_str. cbn [append Reader.parse_value].
    cbn [Ascii.eqb Bool.eqb]. rewrite append_assoc.
    cbn [append]. rewrite parse_chars_escape. reflexivity.
  - destruct l as [|v l]; [reflexivity|].
    cbn [dumps]. cbn [append Reader.parse_value Ascii.eqb Bool.eqb].
    pose proof (well_list _ W) as WL.
    assert (Wv : well v) by (inversion WL; assumption).
    assert (H : starts_with "]"
                  (join ", " (map dumps (v :: l)) ++ "]" ++ rest) = false).
    { destruct l as [|w l].
      - cbn [map join]. apply dumps_head, Wv.
      - change (join ", " (map dumps (v :: w :: l)))
          with (dumps v ++ ", " ++ join ", " (map dumps (w :: l))).
        rewrite append_assoc. apply dumps_head, Wv. }
    rewrite append_assoc. rewrite H.
    rewrite (parse_items_join (v :: l) ltac:(discriminate) IH WL fuel rest)
      by (cbn [size] in Hfuel; lia).
    reflexivity.
  - destruct d as [|[k v] d]; [reflexivity|].
    destruct (well_dict _ W) as [D WD].
    pose proof (parse_members_join ((k, v) :: d) ltac:(discriminate) IH WD
                  fuel rest ltac:(cbn [size] in Hfuel; lia)) as E.
    cbn [dumps]. rewrite !append_assoc.
    match goal with
    | |- context [ "{" ++ ?b ] => set (body := b) in *
    end.
    assert (J : exists t, body = encode_str k ++ t).
    { subst body. destruct d as [|[k' w] d].
      - cbn [map join]. rewrite append_assoc. eauto.
      - change (join ", "
                  (map (fun kv : string * json =>
                          let '(k0, x) := kv in
                          encode_str k0 ++ ": " ++ dumps x)
                       ((k, v) :: (k', w) :: d)))
          with ((encode_str k ++ ": " ++ dumps v) ++ ", "
                ++ join ", "
                     (map (fun kv : string * json =>
                             let '(k0, x) := kv in
                             encode_str k0 ++ ": " ++ dumps x)
                          ((k', w) :: d))).
        rewrite !append_assoc. eauto. }
    destruct J as [t J].
    cbn [append Reader.parse_value Ascii.eqb Bool.eqb].
    rewrite E. rewrite J. cbn [encode_str append starts_with Ascii.eqb
                                 Bool.eqb andb].
    rewrite dict_of_distinct by exact D. reflexivity.
Qed.

End Values.

Section RoundTrip.
Context {RT : Runtime}.
Variable float_of_string : string -> option spec_float.

Lemma join_length (sep : string) (parts : list string) :
  parts <> [] ->
  (String.length (join sep parts) + String.length sep
   = list_sum (map (fun p => String.length p + String.length sep) parts))%nat.
Proof.
  induction parts as [|p parts IH]; [congruence|]. intros _.
  destruct parts as [|q parts].
  - cbn. lia.
  - change (join sep (p :: q :: parts)) with (p ++ sep ++ join sep (q :: parts)).
    rewrite !append_length. specialize (IH ltac:(discriminate)).
    cbn [map] in *. rewrite !list_sum_cons in *. lia.
Qed.

Lemma list_sum_le {A} (f g : A -> nat) (l : list A) :
  Forall (fun x => (f x <= g x)%nat) l ->
  (list_sum (map f l) <= list_sum (map g l))%nat.
Proof.
  induction 1 as [|x l H _ IH]; [reflexivity|].
  cbn [map]. rewrite !list_sum_cons. lia.
Qed.

(** The text of a value is long enough to be the fuel of its reading. *)
Lemma size_dumps (v : json) :
  (size v <= S (String.length (dumps v)))%nat.
Proof.
  induction v as [| b | z | x | s | l IH | d IH] using json_nested_ind;
    try (cbn [size]; lia).
  - destruct l as [|v l]; [cbn; lia|].
    cbn [size dumps]. rewrite !append_length.
    pose proof (join_length ", " (map dumps (v :: l)) ltac:(discriminate))
      as J.
    rewrite map_map in J.
    pose proof (list_sum_le (fun x => S (size x))
                  (fun x => (String.length (dumps x)
                             + String.length ", ")%nat) (v :: l)) as L.
    change (String.length ", ") with 2%nat in *.
    change (String.length "[") with 1%nat.
    change (String.length "]") with 1%nat.
    assert (X : Forall (fun x => (S (size x)
                                  <= String.length (dumps x) + 2)%nat)
                  (v :: l)).
    { eapply Forall_impl; [|exact IH]. cbv beta. intros; lia. }
    specialize (L X). lia.
  - destruct d as [|kv d]; [cbn; lia|].
    cbn [size dumps]. rewrite !append_length.
    set (member := fun kv : string * json =>
                     let '(k, x) := kv in encode_str k ++ ": " ++ dumps x).
    pose proof (join_length ", " (map member (kv :: d)) ltac:(discriminate))
      as J.
    rewrite map_map in J.
    pose proof (list_sum_le (fun kv => S (size (snd kv)))
                  (fun kv => (String.length (member kv)
                              + String.length ", ")%nat) (kv :: d)) as L.
    change (String.length ", ") with 2%nat in *.
    change (String.length "{") with 1%nat.
    change (String.length "}") with 1%nat.
    assert (X : Forall (fun kv => (S (size (snd kv))
                                   <= String.length (member kv) + 2)%nat)
                  (kv :: d)).
    { eapply Forall_impl; [|exact IH]. intros [k x] H. cbn [snd] in *.
      unfold member. rewrite !append_length. lia. }
    specialize (L X). lia.
Qed.

Lemma loads_dumps (v : json) :
  well float_of_string v ->
  Reader.loads float_of_string (dumps v) = Some v.
Proof.
  intro W. unfold Reader.loads.
  rewrite <- (append_nil_r (dumps v)) at 2.
  rewrite (parse_value_dumps float_of_string v W); [reflexivity|reflexivity|].
  apply size_dumps.
Qed.

End RoundTrip.

(** C8.  [save_as_ndjson] writes one line per document, every line ended
    by a line feed, so the file has as many lines as there are documents;
    and [json.loads] recovers each document from its line.  The documents
    are values of Python: each of their floats is written by [json.dumps]
    as the text of a float from which [float] recovers it, and the keys of
    each dictionary are distinct. *)
Theorem ndjson_lines_round_trip {RT : Runtime}
  (float_of_string : string -> option spec_float)
  (documents : list Document) :
  (forall d x, In d documents -> In x (floats_of (JDict d)) ->
               float_text float_of_string x) ->
  (forall d, In d documents -> distinct_keys (JDict d) = true) ->
  let content := sink_content (save_as_ndjson documents) in
  content = ndjson_text documents /\
  split_lines content = (map json_dumps documents ++ [EmptyString])%list /\
  len (file_lines content) = len documents /\
  Forall (fun line => one_line line = true) (file_lines content) /\
  map (Reader.loads float_of_string) (file_lines content)
  = map (fun d => Some (JDict d)) documents.
Proof.
  intros Hfloat Hkeys content. subst content.
  rewrite save_as_ndjson_content.
  split; [reflexivity|].
  assert (Hlines : file_lines (ndjson_text documents)
                   = map json_dumps documents).
  { unfold file_lines. rewrite split_ndjson_text. apply removelast_last. }
  split; [apply split_ndjson_text|]. rewrite Hlines.
  split; [apply len_map|]. split.
  - rewrite Forall_map. apply Forall_forall. intros d _.
    apply dumps_one_line.
  - rewrite map_map. apply map_ext_in. intros d Hd.
    apply loads_dumps. split; [intros x Hx; eapply Hfloat; eassumption|].
    apply Hkeys, Hd.
Qed.

(** Two documents of the sample runtime written and read back: floats
    that are finite, zero and infinite, a string with a line feed, a
    quote and a byte above 126, a list and a nested dictionary. *)
Lemma ndjson_lines_round_trip_witness :
  let documents : list Document :=
    [[("id", JStr "small_0"); ("level", JStr "INFO");
      ("user_id", JInt 76754); ("balance", JInt (-12));
      ("value", JFloat (S754_finite false 4503599627370496 (-53)));
      ("delta", JFloat (S754_finite true 7205759403792794 (-56)))];
     [("id", JStr "small_1");
      ("tags", JList [JStr "a"; JNull; JBool false; JList []; JDict []]);
      ("score", JFloat (S754_zero true));
      ("limit", JFloat (S754_infinity true));
      ("nested",
       JDict [("note", JStr (String "010"%char
                               (String "034"%char
                                  (String "233"%char "x"))));
              ("ratio", JFloat (S754_zero false))])]] in
  let content :=
    sink_content (save_as_ndjson (RT := Sample.runtime) documents) in
  len (file_lines content) = 2 /\
  map (Reader.loads SampleFloat.float_of_string) (file_lines content)
  = map (fun d => Some (JDict d)) documents.
Proof.
  intros documents content.
  destruct (@ndjson_lines_round_trip Sample.runtime
              SampleFloat.float_of_string documents)
    as [_ [_ [Hn [_ Hmap]]]].
  - intros d x [<-|[<-|[]]] Hx; cbn in Hx;
      repeat (destruct Hx as [<-|Hx]; [vm_compute; auto|]);
      destruct Hx.
  - intros d [<-|[<-|[]]]; vm_compute; reflexivity.
  - split; [exact Hn|exact Hmap].
Defined.

(** ** The performance generator with its clock *)

Section TimedMain.
Context {RT : Runtime} {SH : Shapes} {TM : Timer}.

Lemma of_int_small (n : Z) :
  0 <= n < 2 ^ 1022 -> exists x, PyFloat.of_int n = Ok x.
Proof.
  intros [H0 H1]. destruct n as [|p|p]; [eexists; reflexivity| |lia].
  destruct (of_int_spec p) as [m [e [E [_ [[_ E2] _]]]]].
  pose proof (digits2_pos_spec p) as [N1 _].
  assert (Hd : Zpos (digits2_pos p) <= 1022).
  { destruct (Z.le_gt_cases (Zpos (digits2_pos p)) 1022); [assumption|].
    assert (2 ^ 1022 <= 2 ^ (Zpos (digits2_pos p) - 1))
      by (apply Z.pow_le_mono_r; lia).
    lia. }
  rewrite E. destruct (Z.leb_spec e 971); [eauto|lia].
Qed.

Lemma int_div_float_spec (n : Z) (y : spec_float) :
  0 <= n < 2 ^ 1022 ->
  if PerformanceRun.float_is_zero y
  then PerformanceRun.int_div_float n y = Raise ZeroDivisionError
  else exists q, PerformanceRun.int_div_float n y = Ok q.
Proof.
  intro H. destruct (of_int_small n H) as [x E].
  unfold PerformanceRun.int_div_float. rewrite E.
  destruct (PerformanceRun.float_is_zero y); eauto.
Qed.

Lemma timed_generation_dataset s count bs seed streaming a :
  0 < bs -> Z.abs count < 2 ^ 50 ->
  exists docs elapsed a2,
    PerformanceRun.timed_generation
      (PerformanceGen.mkArgs count (PerformanceGen.Sel s) bs seed streaming) a
    = (Ok (docs, elapsed), a2) /\
    count - 4 <= len docs <= Z.max 0 count /\
    (forall t, s = Tier t -> len docs = Z.max 0 count) /\
    (3 <= count -> 1 <= len docs).
Proof.
  intros Hb Hn. unfold PerformanceRun.timed_generation.
  pose proof (init_returns a) as H. unfold ensures in H.
  unfold bind at 1.
  destruct (PerformanceGen.init a) as [[g|e] a1]; [|destruct H].
  unfold bind at 1. unfold total at 1.
  destruct (PerformanceRun.read_clock a1) as [t0 a1'].
  cbn [PerformanceGen.arg_type PerformanceGen.arg_count
         PerformanceGen.arg_batch_size].
  destruct (performance_corpus_size_lemma g count s bs a1' Hb Hn)
    as [docs [a2 [E L]]].
  unfold bind at 1. rewrite E.
  unfold bind, total, ret.
  destruct (PerformanceRun.read_clock a2) as [t1 a2'].
  eexists _, _, _. split; [reflexivity|exact L].
Qed.

End TimedMain.

(** The performance generator run with its clock.  With a positive batch
    size and a count of at least 1 for a single tier or at least 3 for a
    mixed corpus (below 2^50 in magnitude), the generation returns its
    documents, exactly [count] of a single tier and between [count - 4]
    and [count] of a mixed corpus; [main] then completes exactly when
    neither elapsed time is zero.  With a generation time of zero the
    first rate raises [ZeroDivisionError] before the file is opened; with
    a save time of zero the file is written in full, one line a document,
    and the last rate raises; otherwise [main] reports the number of
    documents, the size of the file (the serialised lengths and one byte
    a document) and their quotient. *)
Theorem performance_main_completes {RT : Runtime} {SH : Shapes} {TM : Timer}
  (s : selector) (count batch_size : Z) (seed : option Z) (streaming : bool)
  (a : Ambient) :
  0 < batch_size -> Z.abs count < 2 ^ 50 ->
  (match s with Tier _ => 1 | Mixed => 3 end) <= count ->
  let args := PerformanceGen.mkArgs count (PerformanceGen.Sel s) batch_size
                                    seed streaming in
  let o := PerformanceRun.main args a in
  exists docs elapsed a2,
    PerformanceRun.timed_generation args (seed_step seed a)
    = (Ok (docs, elapsed), a2) /\
    1 <= len docs /\ count - 4 <= len docs <= count /\
    (forall t, s = Tier t -> len docs = count) /\
    (PerformanceRun.float_is_zero elapsed = true ->
     out_result o = Raise ZeroDivisionError /\ out_sink o = []) /\
    (PerformanceRun.float_is_zero elapsed = false ->
     sink_content (out_sink o) = ndjson_text docs /\
     (PerformanceRun.float_is_zero (PerformanceRun.save_elapsed a2) = true ->
      out_result o = Raise ZeroDivisionError) /\
     (PerformanceRun.float_is_zero (PerformanceRun.save_elapsed a2) = false ->
      exists stats,
        out_result o
        = Ok (PerformanceRun.mkReport stats elapsed
                (PerformanceRun.save_elapsed a2)) /\
        documentCount stats = len docs /\
        totalBytes stats = serialised_size docs + len docs /\
        averageBytes stats
        = (inject_Z (totalBytes stats) / inject_Z (len docs))%Q)).
Proof.
  intros Hb Hn Hc args o.
  destruct (timed_generation_dataset s count batch_size seed streaming
              (seed_step seed a) Hb Hn)
    as [docs [elapsed [a2 [G [[L1 L2] [Lt L3]]]]]].
  fold args in G.
  assert (Hc0 : 0 < count) by (destruct s; lia).
  rewrite Z.max_r in L2 by lia.
  assert (Hpos : 1 <= len docs).
  { destruct s as [t|]; [rewrite (Lt t eq_refl); lia|apply L3; exact Hc]. }
  assert (Hlen : 0 <= len docs < 2 ^ 1022).
  { split; [lia|]. apply Z.le_lt_trans with count; [lia|].
    apply Z.lt_trans with (2 ^ 50); [lia|]. apply Z.pow_lt_mono_r; lia. }
  exists docs, elapsed, a2. split; [exact G|]. split; [exact Hpos|].
  split; [lia|]. split.
  { intros t Ht. rewrite (Lt t Ht). lia. }
  assert (M : o = PerformanceRun.main args a) by reflexivity.
  unfold PerformanceRun.main in M.
  change (PerformanceGen.arg_seed args) with seed in M. rewrite G in M.
  pose proof (int_div_float_spec (len docs) elapsed Hlen) as D1.
  pose proof (int_div_float_spec (len docs)
                (PerformanceRun.save_elapsed a2) Hlen) as D2.
  pose proof (save_ok args docs) as Hs.
  pose proof (save_content args docs) as Hcontent.
  destruct (PerformanceGen.save args docs) as [sink r].
  cbn [fst snd] in Hs, Hcontent. subst r.
  assert (Sz : getsize sink = serialised_size docs + len docs).
  { unfold getsize. rewrite Hcontent. apply ndjson_text_size. }
  rewrite true_div_ok in M by lia.
  split.
  - intro Z0. rewrite Z0 in D1. rewrite D1 in M. rewrite M.
    split; reflexivity.
  - intro Z0. rewrite Z0 in D1. destruct D1 as [q1 D1]. rewrite D1 in M.
    cbv zeta in M. split; [|split].
    + rewrite M.
      destruct (PerformanceRun.int_div_float (len docs)
                  (PerformanceRun.save_elapsed a2)); exact Hcontent.
    + intro Z1. rewrite Z1 in D2. rewrite D2 in M. rewrite M. reflexivity.
    + intro Z1. rewrite Z1 in D2. destruct D2 as [q2 D2]. rewrite D2 in M.
      rewrite M. eexists. split; [reflexivity|].
      cbn [documentCount totalBytes averageBytes].
      split; [reflexivity|]. split; [exact Sz|reflexivity].
Qed.

(** A mixed request for ten documents under a clock that advances. *)
Lemma performance_main_completes_witness :
  let args := PerformanceGen.mkArgs 10 (PerformanceGen.Sel Mixed) 4
                                    (Some 42) true in
  let o := PerformanceRun.main (RT := Sample.runtime) (SH := Sample.shapes)
             (TM := SampleTimer.timer) args (Sample.world 1 2 3) in
  exists docs elapsed a2,
    PerformanceRun.timed_generation (RT := Sample.runtime)
      (SH := Sample.shapes) (TM := SampleTimer.timer) args
      (seed_step (Some 42) (Sample.world 1 2 3))
    = (Ok (docs, elapsed), a2) /\
    1 <= len docs /\ 10 - 4 <= len docs <= 10 /\
    (forall t, Mixed = Tier t -> len docs = 10) /\
    (PerformanceRun.float_is_zero elapsed = true ->
     out_result o = Raise ZeroDivisionError /\ out_sink o = []) /\
    (PerformanceRun.float_is_zero elapsed = false ->
     sink_content (out_sink o) = ndjson_text (RT := Sample.runtime) docs /\
     (PerformanceRun.float_is_zero
        (PerformanceRun.save_elapsed (TM := SampleTimer.timer) a2) = true ->
      out_result o = Raise ZeroDivisionError) /\
     (PerformanceRun.float_is_zero
        (PerformanceRun.save_elapsed (TM := SampleTimer.timer) a2) = false ->
      exists stats,
        out_result o
        = Ok (PerformanceRun.mkReport stats elapsed
                (PerformanceRun.save_elapsed (TM := SampleTimer.timer) a2)) /\
        documentCount stats = len docs /\
        totalBytes stats
        = serialised_size (RT := Sample.runtime) docs + len docs /\
        averageBytes stats
        = (inject_Z (totalBytes stats) / inject_Z (len docs))%Q)).
Proof.
  refine (@performance_main_completes Sample.runtime Sample.shapes
            SampleTimer.timer Mixed 10 4 (Some 42) true
            (Sample.world 1 2 3) _ _ _);
    [lia|vm_compute; reflexivity|lia].
Defined.

Section TimedOutcomes.
Context {RT : Runtime} {SH : Shapes} {TM : Timer}.

(** The timed generation is the dataset step between two readings. *)
Lemma timed_generation_unfold s count bs seed streaming a :
  exists g a1 t0,
    PerformanceRun.timed_generation
      (PerformanceGen.mkArgs count (PerformanceGen.Sel s) bs seed streaming) a
    = match PerformanceGen.generate_performance_dataset g count s bs a1 with
      | (Ok docs, a2) =>
          (Ok (docs,
               PerformanceRun.float_sub
                 (fst (PerformanceRun.read_clock a2)) t0),
           snd (PerformanceRun.read_clock a2))
      | (Raise e, a2) => (Raise e, a2)
      end.
Proof.
  unfold PerformanceRun.timed_generation.
  pose proof (init_returns a) as H. unfold ensures in H.
  unfold bind at 1.
  destruct (PerformanceGen.init a) as [[g|e] a1]; [|destruct H].
  unfold bind at 1. unfold total at 1.
  destruct (PerformanceRun.read_clock a1) as [t0 a1'].
  cbn [PerformanceGen.arg_type PerformanceGen.arg_count
         PerformanceGen.arg_batch_size].
  exists g, a1', t0. unfold bind at 1.
  destruct (PerformanceGen.generate_performance_dataset g count s bs a1')
    as [[docs|e] a2]; [|reflexivity].
  unfold bind, total, ret.
  destruct (PerformanceRun.read_clock a2) as [t1 a2']. reflexivity.
Qed.

Lemma timed_main_raised args a e a2 :
  PerformanceRun.timed_generation args
    (seed_step (PerformanceGen.arg_seed args) a) = (Raise e, a2) ->
  PerformanceRun.main args a = mkOutcome (Raise e) [] a2.
Proof. intro G. unfold PerformanceRun.main. rewrite G. reflexivity. Qed.

(** A generation time of zero: the rate raises before the file is
    opened. *)
Lemma timed_main_stalled args a docs elapsed a2 :
  PerformanceRun.timed_generation args
    (seed_step (PerformanceGen.arg_seed args) a)
  = (Ok (docs, elapsed), a2) ->
  len docs < 2 ^ 1022 ->
  PerformanceRun.float_is_zero elapsed = true ->
  PerformanceRun.main args a = mkOutcome (Raise ZeroDivisionError) [] a2.
Proof.
  intros G Hl Z0. unfold PerformanceRun.main. rewrite G.
  pose proof (int_div_float_spec (len docs) elapsed
                ltac:(unfold len in *; lia)) as D.
  rewrite Z0 in D. rewrite D. reflexivity.
Qed.

(** Otherwise the file is what the save step writes. *)
Lemma timed_main_sink args a docs elapsed a2 :
  PerformanceRun.timed_generation args
    (seed_step (PerformanceGen.arg_seed args) a)
  = (Ok (docs, elapsed), a2) ->
  len docs < 2 ^ 1022 ->
  PerformanceRun.float_is_zero elapsed = false ->
  out_sink (PerformanceRun.main args a)
  = fst (PerformanceGen.save args docs) /\
  (docs = [] ->
   out_result (PerformanceRun.main args a) = Raise ZeroDivisionError).
Proof.
  intros G Hl Z0. unfold PerformanceRun.main. rewrite G.
  pose proof (int_div_float_spec (len docs) elapsed
                ltac:(unfold len in *; lia)) as D.
  rewrite Z0 in D. destruct D as [q D]. rewrite D.
  pose proof (save_ok args docs) as Hs.
  destruct (PerformanceGen.save args docs) as [sink r].
  cbn [fst snd] in *. subst r. cbv zeta.
  split.
  - destruct (true_div (getsize sink) (len docs)); [|reflexivity].
    destruct (PerformanceRun.int_div_float (len docs)
                (PerformanceRun.save_elapsed a2)); reflexivity.
  - intros ->. reflexivity.
Qed.

Lemma degenerate_dataset g s count bs a :
  Z.abs count < 2 ^ 50 ->
  count <= 0 \/ bs <= 0 \/ (s = Mixed /\ count <= 2) ->
  exists a',
    PerformanceGen.generate_performance_dataset g count s bs a = (Ok [], a')
    \/ PerformanceGen.generate_performance_dataset g count s bs a
       = (Raise ZeroDivisionError, a').
Proof.
  intros Hn Hd.
  destruct (Z.lt_trichotomy bs 0) as [Hb|[Hb|Hb]].
  - destruct (perf_dataset_negative_batch g count s bs a Hb Hn) as [a' E].
    exists a'. left. exact E.
  - subst bs. destruct (perf_dataset_zero_batch g count s a Hn) as [a' E].
    exists a'. right. exact E.
  - destruct (Z.le_gt_cases count 0) as [Hc|Hc].
    + destruct (performance_corpus_size_lemma g count s bs a Hb Hn)
        as [docs [a' [E [[_ L] _]]]].
      rewrite Z.max_l in L by lia.
      assert (L0 : len docs = 0) by (unfold len in *; lia).
      apply len_nil_inv in L0. subst docs. exists a'. left. exact E.
    + destruct Hd as [Hd|[Hd|[-> Hd]]]; try lia.
      destruct (perf_dataset_tiny_mixed g count bs a Hb ltac:(lia))
        as [a' E].
      exists a'. left. exact E.
Qed.

End TimedOutcomes.

(** The performance generator on requests that yield no document.  For a
    single tier or a mixed corpus and a count below 2^50 in magnitude,
    when the count is zero or negative, the batch size is zero or
    negative, or a mixed request asks for one or two documents (whose
    four truncated shares are all zero), the run ends in
    [ZeroDivisionError] and leaves at most an empty file, whatever the
    clock reads: a batch size of zero raises in the batch count, a
    generation time of zero in the first rate, and otherwise the average
    size raises after the empty file is written. *)
Theorem performance_main_degenerate {RT : Runtime} {SH : Shapes}
  {TM : Timer} (s : selector) (count batch_size : Z) (seed : option Z)
  (streaming : bool) (a : Ambient) :
  Z.abs count < 2 ^ 50 ->
  count <= 0 \/ batch_size <= 0 \/ (s = Mixed /\ count <= 2) ->
  let o := PerformanceRun.main
             (PerformanceGen.mkArgs count (PerformanceGen.Sel s) batch_size
                                    seed streaming) a in
  out_result o = Raise ZeroDivisionError /\
  sink_content (out_sink o) = EmptyString.
Proof.
  intros Hn Hd o. subst o.
  set (args := PerformanceGen.mkArgs count (PerformanceGen.Sel s) batch_size
                                     seed streaming).
  destruct (timed_generation_unfold s count batch_size seed streaming
              (seed_step seed a)) as [g [a1 [t0 G]]].
  fold args in G.
  destruct (degenerate_dataset g s count batch_size a1 Hn Hd)
    as [a2 [E|E]]; rewrite E in G.
  - set (elapsed := PerformanceRun.float_sub
                      (fst (PerformanceRun.read_clock a2)) t0) in G.
    assert (Hl : len (@nil Document) < 2 ^ 1022) by (vm_compute; reflexivity).
    destruct (PerformanceRun.float_is_zero elapsed) eqn:Z0.
    + rewrite (timed_main_stalled args a [] elapsed _ G Hl Z0).
      split; reflexivity.
    + destruct (timed_main_sink args a [] elapsed _ G Hl Z0) as [S R].
      split; [exact (R eq_refl)|].
      rewrite S. apply save_content.
  - rewrite (timed_main_raised args a _ a2 G). split; reflexivity.
Qed.

Lemma performance_main_degenerate_witness :
  let o := PerformanceRun.main (RT := Sample.runtime) (SH := Sample.shapes)
             (TM := SampleTimer.timer)
             (PerformanceGen.mkArgs 2 (PerformanceGen.Sel Mixed) 1000
                                    None false)
             (Sample.world 1 2 3) in
  out_result o = Raise ZeroDivisionError /\
  sink_content (out_sink o) = EmptyString.
Proof.
  refine (@performance_main_degenerate Sample.runtime Sample.shapes
            SampleTimer.timer Mixed 2 1000 None false
            (Sample.world 1 2 3) _ _);
    [vm_compute; reflexivity|right; right; split; [reflexivity|lia]].
Defined.

(** Which writer a mixed request gets when the streaming flag is not set,
    for a positive batch size and a count from 3 up to 2^50.  The number
    of documents generated is the count or up to four less.  With a
    generation time of zero nothing is written; otherwise the writer is
    the one the number of documents generated selects: the plain loop up
    to 50000 requested, the streaming writer from 50005 requested on, and
    in between the one the generated number calls for. *)
Theorem mixed_writer_follows_generated_count {RT : Runtime} {SH : Shapes}
  {TM : Timer} (count batch_size : Z) (seed : option Z) (a : Ambient) :
  0 < batch_size -> 3 <= count < 2 ^ 50 ->
  let args := PerformanceGen.mkArgs count (PerformanceGen.Sel Mixed)
                                    batch_size seed false in
  let o := PerformanceRun.main args a in
  exists docs elapsed a2,
    PerformanceRun.timed_generation args (seed_step seed a)
    = (Ok (docs, elapsed), a2) /\
    count - 4 <= len docs <= count /\
    (PerformanceRun.float_is_zero elapsed = true -> out_sink o = []) /\
    (PerformanceRun.float_is_zero elapsed = false ->
     out_sink o
     = (if 50000 <? len docs
        then fst (save_as_ndjson_streaming docs 1000)
        else save_as_ndjson docs) /\
     (count <= 50000 -> out_sink o = save_as_ndjson docs) /\
     (50005 <= count ->
      out_sink o = fst (save_as_ndjson_streaming docs 1000))).
Proof.
  intros Hb Hc args o.
  destruct (timed_generation_dataset Mixed count batch_size seed false
              (seed_step seed a) Hb ltac:(lia))
    as [docs [elapsed [a2 [G [[L1 L2] _]]]]].
  fold args in G. rewrite Z.max_r in L2 by lia.
  assert (Hl : len docs < 2 ^ 1022).
  { apply Z.le_lt_trans with count; [lia|].
    apply Z.lt_trans with (2 ^ 50); [lia|]. apply Z.pow_lt_mono_r; lia. }
  exists docs, elapsed, a2. split; [exact G|]. split; [lia|]. split.
  - intro Z0. unfold o.
    rewrite (timed_main_stalled args a docs elapsed a2 G Hl Z0). reflexivity.
  - intro Z0. unfold o.
    destruct (timed_main_sink args a docs elapsed a2 G Hl Z0) as [S _].
    rewrite S. unfold PerformanceGen.save, PerformanceGen.use_streaming.
    cbn [PerformanceGen.arg_streaming args orb].
    split; [|split].
    + destruct (50000 <? len docs); reflexivity.
    + intro H. destruct (Z.ltb_spec 50000 (len docs)); [lia|reflexivity].
    + intro H. destruct (Z.ltb_spec 50000 (len docs)); [reflexivity|lia].
Qed.

Lemma mixed_writer_follows_generated_count_witness :
  let args := PerformanceGen.mkArgs 60000 (PerformanceGen.Sel Mixed)
                                    1000 None false in
  let o := PerformanceRun.main (RT := Sample.runtime) (SH := Sample.shapes)
             (TM := SampleTimer.timer) args (Sample.world 1 2 3) in
  exists docs elapsed a2,
    PerformanceRun.timed_generation (RT := Sample.runtime)
      (SH := Sample.shapes) (TM := SampleTimer.timer) args
      (seed_step None (Sample.world 1 2 3))
    = (Ok (docs, elapsed), a2) /\
    60000 - 4 <= len docs <= 60000 /\
    (PerformanceRun.float_is_zero elapsed = true -> out_sink o = []) /\
    (PerformanceRun.float_is_zero elapsed = false ->
     out_sink o
     = (if 50000 <? len docs
        then fst (save_as_ndjson_streaming (RT := Sample.runtime) docs 1000)
        else save_as_ndjson (RT := Sample.runtime) docs) /\
     (60000 <= 50000 ->
      out_sink o = save_as_ndjson (RT := Sample.runtime) docs) /\
     (50005 <= 60000 ->
      out_sink o
      = fst (save_as_ndjson_streaming (RT := Sample.runtime) docs 1000))).
Proof.
  refine (@mixed_writer_follows_generated_count Sample.runtime Sample.shapes
            SampleTimer.timer 60000 1000 None (Sample.world 1 2 3) _ _);
    [lia|split; [lia|vm_compute; reflexivity]].
Defined.
